(* ===== verification/_CoqProject ===== *)
-Q . S2P
Prelude.v
Config.v
Environment.v
ConfigToml.v
ConfigSave.v
DeviceId.v
DateKeys.v
Compaction.v
ContextWindow.v
Learner.v
TokenExtractor.v
Usage.v
Format.v
Sanitize.v
Duration.v
Stats.v
Retry.v
Durability.v
Statusline.v
TranscriptJson.v
Output.v
