(* ===== verification/Prelude.v ===== *)
(** * claudia-statusline: a verification development

    ** The program

    The repository is a status-line generator for a command-line model
    client.  Each process invocation reads a JSON status object, tails the
    conversation transcript (a JSON-lines file), estimates how much of the
    model's context window is in use, classifies whether a compaction is
    under way, records cost and line-change aggregates in a stats store,
    and prints one line.  The sources are

    - [src/src/utils.rs]: transcript validation and tail reading
      ([validate_transcript_file], [get_token_breakdown_from_transcript]),
      compaction detection ([detect_compaction_state]), the context-window
      resolver ([get_context_window_for_model]), the usage estimator
      ([calculate_context_usage]), [format_token_count], [parse_duration],
      [parse_iso8601_to_unix], [shorten_path], [sanitize_for_terminal];
    - [src/src/config.rs]: the configuration records, their defaults,
      [ContextConfig::get_effective_threshold], the config-file search,
      [Config::load], [get_config] and [get_theme];
    - [src/src/display.rs]: the colours, the context bar, the duration
      format and [format_statusline_string], which assembles the line;
    - [src/src/common.rs]: [validate_path_security], the data and config
      directories, the date keys and the device identifier;
    - [src/tests/sqlite_integration_tests.rs]: end-to-end tests of the
      stats store.  The store itself (stats.rs, database.rs), the retry
      wrapper (retry.rs), models.rs, context_learning.rs, git.rs and
      state.rs are not among the sources; where the line depends on them
      they are modelled from the specification (Stats, Retry, Durability)
      or taken as parameters (model-name parsing, git status, hook state).

    How the parts interact: the token extractor gives the current token
    total; the detector compares it with the store's high-water mark; the
    resolver gives the window (overrides, the learner, the model family);
    the estimator turns these into a percentage and a warning; the display
    formats the parts and joins them; separately, the reported cost is
    written to the store's two sinks under the retry policy.

    ** Files, modules and what they model

    - [Prelude] (this file): the scope [sl_scope]; the [result] type of
      fallible operations ([StatuslineError], error.rs); Rust's [f64] as
      an exact rational or +inf or NaN ([f64_div_N], [f64_min], ...); u32
      wrap-around ([wrap32], notation [⊞]); [round_half_away] for
      [f64::round]; [lastn]; the hint databases [statusline] and
      [statusline_rw]; the tactics [ltb_cases] and [divmod_as]; the
      predicate [esc_free] (no ESC byte) with its hint database [esc].
    - [Config] (Module [Config]): the records of config.rs (the
      turso-sync build's [SyncConfig] and [TursoConfig] included), their
      [Default] values and [get_effective_threshold].
    - [Environment] (Module [Environment]): [get_data_dir],
      [get_config_dir], [Config::find_config_file], [Config::load],
      [load_from_file], the [From] conversions, [default_config_path],
      [get_config], [get_theme] and [Colors::enabled], over a section of
      the environment (variables, the dirs crate's directories, file
      existence, reading and TOML decoding); [PathBuf::join] as
      [path_join]; the global [OnceLock] [CONFIG] as a state the calls
      of [get_config_once] and [get_theme_once] thread.
    - [ConfigToml] (Module [ConfigToml]): [Config::example_toml], a
      reader for the subset of TOML the configuration uses (written from
      the TOML specification: the toml crate is a dependency), and the
      derived serde decoding of every configuration struct with
      [#[serde(default)]].
    - [ConfigSave] (Module [ConfigSave]): [Config::save] against the
      file-system interface [ConfigFileSystem] (a class with laws) and
      its finite-map instance [MemFs]; [Path::parent].
    - [DeviceId] (Module [DeviceId]): [get_device_id] with the host name
      and SHA-256 as section variables, [u64::from_be_bytes] and
      [{:016x}] written out, and the decoding of an identifier.
    - [DateKeys] (Module [DateKeys]): [current_date], [current_month]
      and [current_timestamp] with chrono's [%Y], [%m], [%d] and
      [to_rfc3339], the local date and time as argument.
    - [Compaction] (Module [Detector]): [detect_compaction_state] over an
      explicit environment record [Env] (hook state, database, file age).
    - [ContextWindow] (Module [Resolver]): [u32::from_str], the version
      parsing and [get_context_window_for_model], stated against the class
      [LearnedWindowSource], the interface of the adaptive learner.
    - [Learner] (Module [Learner], from the specification): the adaptive
      window learner as an instance of [LearnedWindowSource]: observed
      compaction points per model, their mean, and a confidence through
      the specification's anchors.
    - [TokenExtractor] (Module [Transcript]): path validation, byte-level
      line reading with UTF-8 checking ([BufRead::lines] and
      [map_while(Result::ok)]), the circular buffer of the small-file path,
      the seek of the large-file path, and the peak selection; the
      decoder of a line is the section variable [parse_entry].
    - [TranscriptJson] (Module [TranscriptJson]): that decoder,
      [serde_json::from_str::<TranscriptEntry>] ([entry_from_str]): a JSON
      reader written from RFC 8259 (serde_json is a dependency, not code
      of the repository), the derived decoding of the models.rs records as
      the specification describes them, and serde_json's printer.
    - [Usage] (Module [Estimator]): [calculate_context_usage].
    - [Format] (Module [Fmt]): [format_token_count], [format_duration],
      the colour levels and [format_context_bar].
    - [Sanitize] (Module [Terminal]): [sanitize_for_terminal] as the
      regex reference and as a one-pass scanner; [shorten_path].
    - [Duration] (Module [Duration]): [parse_iso8601_to_unix] with the
      chrono parsers as parameters, and [parse_duration].
    - [Stats] (Module [Store], from the specification): the store's state
      as stdpp maps ([gmap], [gset]); [record] applies one invocation's
      report by deltas and keeps the high-water mark; [prune]; the
      commutative cost arithmetic is the class [CostArith] with instances
      [Z] and [Qc].  It also gives the detector its database
      ([store_env]) and the display its session duration.
    - [Retry] (Module [Retry], from the specification): the retry loop
      over [RetrySettings], attempts as an oracle.
    - [Durability] (Module [Durability], from the specification): the
      database and the JSON mirror as two sinks, each write under its
      retry policy.
    - [Statusline] (Module [Statusline]): UTF-8 encoding and decoding of
      Rust strings, the burn rate, the lines and cost parts and
      [format_statusline_string].
    - [Output] (Module [Output]): the entry points [format_output],
      [format_output_with_config] and [format_output_to_string] over the
      global configuration, with the colours of [get_current_theme] (the
      theme manager of theme.rs as a section variable) or none under
      NO_COLOR.

    ** What the theorems show (claims C1 to C35)

    - Detector: it equals the specification's three-rule classifier, and
      the code's third branch is dead (C1).
    - Estimator: the percentage is finite and in [0, 100]; its value in
      both display modes; a zero working window saturates to 100%; the
      two default thresholds do not warn at the same token count, as the
      comments claim they do (C2, C6-C8, C13).
    - Resolver: it follows the documented priority order; without
      override it never exceeds max(200000, default), so the documented
      1M detection does not exist (C3, C12).  [u32::from_str] accepting
      exactly the digit strings that fit, and the learner's effect with
      its chosen confidence formula, are lemmas of [ContextWindow] and
      [Learner].
    - Extractor: the result is the peak of the window; the small-file
      buffer holds exactly the last lines; a large file whose seek lands
      inside a multi-byte character yields no data (a bug); validation
      failures give no data; buffer_lines = 0 behaves differently on the
      two paths (C4, C5, C9, C15, C16).  The u32 total wrapping and the
      JSON round trip of a transcript line (TranscriptJson) are lemmas.
    - Formatting: [format_token_count] is an integer formula (C17); the
      bar has the configured width and colour levels are monotone
      (lemmas of [Format]).
    - Sanitising: an SGR colour sequence is removed wherever it stands,
      safe text is unchanged and only safe characters come out (C19);
      what the line prints of an untrusted string has no C0, DEL or C1
      control character or byte (C27); the HOME prefix is replaced
      without a component boundary (C21).  The scanner equals the regex
      and sanitising is idempotent (lemmas of [Sanitize]).
    - Duration: exact characterisation of [parse_duration]'s result (C22).
    - Store: refinement of the abstract map of latest values, also as
      seen by the detector; a count below half of an earlier one is always
      flagged; the burn rate uses the stored span (C24-C26).  The store's
      invariant (totals are sums of session costs, count = sessions), the
      distinct-session count and idempotence are lemmas of [Stats].
    - Retry and durability: the first success is returned, exhaustion
      returns the last error, the delays follow
      [min(initial * factor^i, max_delay)]; the database holds the replay
      of its committed reports whatever fails, and its whole history is
      independent of the mirror's (C28-C32).
    - Environment: the config file found is the first candidate that is
      set and exists (C18); [get_theme] is the theme of [get_config] and
      the environment wins over the file (C33); the directories are
      absolute exactly when their base is, so an empty XDG variable gives
      a relative one (C34); the configuration is computed once per
      process, at the first call (C35).
    - NO_COLOR: with NO_COLOR set the whole line has no ESC byte, given
      that the git status and the cost rendering have none (C14); this
      composes the sanitiser, the context bar, the parts of the line and
      the output entry points.
    - Configuration file: a [retry.db_ops] table takes its missing keys
      from the file-ops defaults (C20); [Config::save] leaves the
      serialised text at the path, and a failed save names its step and,
      before the write, leaves the file unchanged (C23).  Decoding
      [example_toml] gives the defaults except the retention settings,
      contrary to its first comment (an example of [ConfigToml]).
    - Device identifier (a type property): 16 lowercase hexadecimal
      digits that decode back to the digest's first eight bytes (C10);
      the '|' separator does not keep host names containing '|' apart
      (an example of [DeviceId]).
    - Date keys: byte-wise comparison of [current_date] keys is the
      chronological order for years 0 to 9999 (C11); their lengths and
      the month key being a prefix are lemmas of [DateKeys], as is the
      date key being the first ten characters of [current_timestamp].

    ** Modelling conventions and bounds

    - Rust [usize]/[u32]/[u64] values are [N]; [saturating_sub] is
      [N.sub]; u32 addition, which wraps in a release build, is [wrap32];
      the usize product [buffer_lines * 2048] wraps modulo 2^64
      ([wrap_usize]); the sum [base_window + buffer_size] cannot wrap,
      as both come from TOML integers (at most 2^63 - 1);
      [as u64] on an i64 is [i64_as_u64] (two's complement).
    - Rust [f64] is [f64] above: exact rationals plus +inf and NaN, which
      the code produces by a division by zero.  Rounding of finite
      operations is not modelled; the quantities the theorems compare are
      ratios of integers below 2^53 (the header of [Usage] gives the
      argument).  [{:.2}] formatting is a parameter.
    - Paths and model names are byte strings; terminal text is a list of
      Unicode scalar values, converted by [utf8_decode]/[utf8_encode].
    - Fuel: [replace_all_fuel] runs with the length of the text, which is
      enough because every match consumes at least two characters (lemma
      [replace_all_fuel_enough]); the retry loop's fuel is the number of
      attempts, [max(1, max_attempts)], so it always terminates; all other
      recursion is structural.
    - Reading the file system, the environment, the clock or a database
      is an argument or a section variable holding the observed value, so
      every definition is a function that [vm_compute] evaluates.
      [get_config]'s [OnceLock] is an [option Config] threaded through
      the calls; [std::env::var] failing on a non-Unicode value is an
      unset variable.
    - The JSON reader runs with fuel [2 * length + 2]: a value needs
      one unit for itself and one per element ([json_size]), at most
      twice the length of its text (lemma [json_size_print]).  JSON
      numbers with a fraction or exponent are kept as a marker only, as
      no field of an entry accepts them; non-ASCII text is read byte by
      byte (a [\u] escape gives the UTF-8 bytes of its code point).
    - [hex_digits] runs with fuel 16: a u64 has at most 16 hexadecimal
      digits (lemma [hex_digits_value] for every number below 16^16).

    ** Not modelled

    The theme files and their loading (theme.rs), the git command, the
    JSON status object read from standard input (main.rs is not among
    the sources), the value of a JSON float, TOML serialisation ([toml::to_string_pretty], a
    parameter of [save]) and the parts of TOML the configuration does not
    use (escapes, dotted keys, inline tables, arrays), SHA-256 itself (a
    section variable), the SQL text and schema migrations.  The rest of
    the four source files is documentation and [#[cfg(test)]] code.
    The parts modelled from the specification
    (store, learner, retry, sinks, JSON) fix the choices the specification
    leaves open (the learner's estimate and confidence formula, one
    attempt when max_attempts is 0); they are marked spec-modelled in the
    project's map.
*)

From stdpp Require Export base list strings gmap.
From Stdlib Require Export QArith Qround Qabs ZArith NArith Lia Lra.
From Stdlib Require Import Ascii.

Close Scope Q_scope.

Declare Scope sl_scope.
Delimit Scope sl_scope with sl.
Open Scope sl_scope.

Create HintDb statusline.
Create Rewrite HintDb statusline_rw.

(** ** Errors: the [StatuslineError] taxonomy (error.rs) and results *)

Inductive StatuslineError :=
| InvalidPath (msg : string)
| ConfigError (msg : string)
| Database (msg : string)
| Io (msg : string).

Inductive result (A : Type) :=
| Ok (a : A)
| Err (e : StatuslineError).
Arguments Ok {A} a.
Arguments Err {A} e.

Definition result_bind {A B} (r : result A) (k : A -> result B) : result B :=
  match r with Ok a => k a | Err e => Err e end.

(** Rust's [?] operator on [Result]. *)
Notation "x <-? r ;; k" := (result_bind r (fun x => k))
  (at level 60, r at next level, right associativity) : sl_scope.

(** [Result::ok]: forget the error. *)
Definition result_ok {A} (r : result A) : option A :=
  match r with Ok a => Some a | Err _ => None end.

Lemma result_bind_Ok {A B} (r : result A) (k : A -> result B) b :
  result_bind r k = Ok b <-> exists a, r = Ok a /\ k a = Ok b.
Proof.
  destruct r as [a|e]; simpl; split.
  - eauto.
  - intros (a' & [= ->] & H). exact H.
  - discriminate.
  - intros (? & ? & _). discriminate.
Qed.

(** ** Machine integers *)

Definition u32_modulus : N := 2 ^ 32.

(** Wrapping u32 addition (release build, no overflow checks). *)
Definition wrap32 (n : N) : N := n mod u32_modulus.
Notation "a ⊞ b" := (wrap32 (a + b)%N) (at level 50, left associativity) : sl_scope.

Lemma wrap32_small n : (n < u32_modulus)%N -> wrap32 n = n.
Proof. intros H. unfold wrap32. apply N.mod_small. exact H. Qed.

Lemma wrap32_bound n : (wrap32 n < u32_modulus)%N.
Proof. unfold wrap32, u32_modulus. apply N.mod_lt. lia. Qed.
#[export] Hint Resolve wrap32_bound : statusline.

Lemma wrap32_add_l a b : wrap32 (wrap32 a + b) = wrap32 (a + b).
Proof. unfold wrap32. apply N.Div0.add_mod_idemp_l. Qed.

(** Nested wrapping additions are one wrapping of the exact sum. *)
(** Rust's [usize] on a 64-bit target: multiplication wraps modulo 2^64
    in a release build. *)
Definition usize_modulus : N := 2 ^ 64.
Definition wrap_usize (n : N) : N := n mod usize_modulus.

Lemma wrap32_sum4 a b c d : a ⊞ b ⊞ c ⊞ d = wrap32 (a + b + c + d).
Proof. rewrite (wrap32_add_l (a + b) c), wrap32_add_l. reflexivity. Qed.

(** ** The f64 model *)

(** A Rust [f64] as the code uses it: a finite value (an exact rational),
    positive infinity, or NaN.  Only non-negative quantities occur. *)
Inductive f64 :=
| Fin (q : Q)
| PosInf
| NaN.

(** [a as f64 / b as f64] for unsigned integers. *)
Definition f64_div_N (a b : N) : f64 :=
  if decide (b = 0%N) then (if decide (a = 0%N) then NaN else PosInf)
  else Fin (inject_Z (Z.of_N a) / inject_Z (Z.of_N b))%Q.

(** Multiplication by a finite non-negative constant. *)
Definition f64_mul_fin (x : f64) (c : Q) : f64 :=
  match x with
  | Fin q => Fin (q * c)%Q
  | PosInf => if Qeq_bool c 0 then NaN else PosInf
  | NaN => NaN
  end.

(** [f64::min]: NaN is ignored, as in IEEE minNum. *)
Definition f64_min (x : f64) (c : Q) : f64 :=
  match x with
  | Fin q => if Qle_bool q c then Fin q else Fin c
  | PosInf => Fin c
  | NaN => Fin c
  end.

(** [x >= c] for a finite [c]; comparisons with NaN are false. *)
Definition f64_geb (x : f64) (c : Q) : bool :=
  match x with Fin q => Qle_bool c q | PosInf => true | NaN => false end.

Definition Qltb (x y : Q) : bool := negb (Qle_bool y x).

(** [x > c] for a finite [c]. *)
Definition f64_gtb (x : f64) (c : Q) : bool :=
  match x with Fin q => Qltb c q | PosInf => true | NaN => false end.

Lemma Qltb_iff x y : Qltb x y = true <-> (x < y)%Q.
Proof.
  unfold Qltb. rewrite negb_true_iff. split.
  - intros H. apply Qnot_le_lt. intros Hle. apply Qle_bool_iff in Hle. congruence.
  - intros H. destruct (Qle_bool y x) eqn:E; [|reflexivity].
    apply Qle_bool_iff in E. exfalso. apply (Qlt_not_le _ _ H E).
Qed.

(** Comparisons with a quotient, by cross-multiplication. *)
Lemma Qlt_div_iff (x a b : Q) : (0 < b)%Q -> (x < a / b <-> x * b < a)%Q.
Proof.
  intros Hb. split; intros H.
  - apply Qnot_le_lt. intros Hle. apply (Qlt_not_le _ _ H).
    apply Qle_shift_div_r; [exact Hb | exact Hle].
  - apply Qlt_shift_div_l; [exact Hb | exact H].
Qed.

Lemma Qle_div_iff (x a b : Q) : (0 < b)%Q -> (x <= a / b <-> x * b <= a)%Q.
Proof.
  intros Hb. split; intros H.
  - apply Qnot_lt_le. intros Hlt. apply (Qle_not_lt _ _ H).
    apply Qlt_shift_div_r; [exact Hb | exact Hlt].
  - apply Qle_shift_div_l; [exact Hb | exact H].
Qed.

Lemma Qdiv_le_iff (x a b : Q) : (0 < b)%Q -> (a / b <= x <-> a <= x * b)%Q.
Proof.
  intros Hb. split; intros H.
  - apply Qnot_lt_le. intros Hlt. apply (Qle_not_lt _ _ H).
    apply Qlt_shift_div_l; [exact Hb | exact Hlt].
  - apply Qle_shift_div_r; [exact Hb | exact H].
Qed.

Lemma Qmult_div_swap (a b c : Q) : (a / b * c == a * c / b)%Q.
Proof. unfold Qdiv. ring. Qed.

Lemma inject_Z_N_pos (n : N) : (0 < n)%N -> (0 < inject_Z (Z.of_N n))%Q.
Proof. intros H. unfold Qlt. simpl. lia. Qed.

Lemma inject_Z_N_nonneg (n : N) : (0 <= inject_Z (Z.of_N n))%Q.
Proof. unfold Qle. simpl. lia. Qed.

(** [f64::round]: to nearest, ties away from zero. *)
Definition round_half_away (q : Q) : Z :=
  if Qle_bool 0 q then Qfloor (q + (1 # 2)) else (- Qfloor (- q + (1 # 2)))%Z.

#[export] Instance round_half_away_proper : Proper (Qeq ==> eq) round_half_away.
Proof.
  intros x y Hxy. unfold round_half_away.
  assert (Hle : Qle_bool 0 x = Qle_bool 0 y).
  { apply Bool.eq_iff_eq_true. rewrite !Qle_bool_iff. rewrite Hxy. reflexivity. }
  rewrite Hle. destruct (Qle_bool 0 y).
  - apply Qfloor_comp. rewrite Hxy. reflexivity.
  - f_equal. apply Qfloor_comp. rewrite Hxy. reflexivity.
Qed.

(** [x as usize] for a non-negative finite value (Rust saturates
    negative values and NaN to 0). *)
Definition Z_as_usize (z : Z) : N := Z.to_N z.

(** The value [(a / b).round()] for naturals, in integer arithmetic. *)
Lemma round_half_away_div (a : N) (b : positive) :
  round_half_away (Z.of_N a # b) = Z.of_N ((2 * a + N.pos b) / (2 * N.pos b)).
Proof.
  unfold round_half_away.
  replace (Qle_bool 0 (Z.of_N a # b)) with true
    by (symmetry; apply Qle_bool_iff; unfold Qle; simpl; lia).
  unfold Qfloor, Qplus. simpl.
  rewrite N2Z.inj_div. f_equal; lia.
Qed.

(** ** Lists: the trailing window *)

(** The last [n] elements of a list. *)
Definition lastn {A} (n : nat) (l : list A) : list A := drop (length l - n) l.

Lemma lastn_length {A} n (l : list A) : length (lastn n l) = Nat.min n (length l).
Proof. unfold lastn. rewrite length_drop. lia. Qed.

Lemma lastn_all {A} n (l : list A) : length l <= n -> lastn n l = l.
Proof. intros H. unfold lastn. replace (length l - n) with 0 by lia. reflexivity. Qed.

Lemma lastn_snoc {A} n (l : list A) x :
  lastn (S n) (l ++ [x]) = lastn n l ++ [x].
Proof.
  unfold lastn. rewrite length_app. simpl.
  destruct (decide (length l <= n)) as [H|H].
  - replace (length l + 1 - S n) with 0 by lia.
    replace (length l - n) with 0 by lia. reflexivity.
  - replace (length l + 1 - S n) with (length l - n) by lia.
    rewrite drop_app_le by lia. reflexivity.
Qed.

Lemma lastn_suffix {A} n (l : list A) : exists pre, l = pre ++ lastn n l.
Proof. unfold lastn. exists (take (length l - n) l). symmetry. apply take_drop. Qed.

(** [iter.rev().take(n).rev()] is [lastn n]. *)
Lemma rev_take_rev {A} n (l : list A) : rev (take n (rev l)) = lastn n l.
Proof.
  destruct (decide (length l <= n)) as [H|H].
  - rewrite lastn_all by exact H. rewrite take_ge by (rewrite length_rev; lia).
    apply rev_involutive.
  - unfold lastn. rewrite <- (take_drop (length l - n) l) at 1.
    rewrite rev_app_distr, take_app_length'.
    + apply rev_involutive.
    + rewrite length_rev, length_drop. lia.
Qed.

(** Taking the last [n] of a prefix first changes nothing. *)
Lemma lastn_lastn_app {A} n (a b : list A) : lastn n (lastn n a ++ b) = lastn n (a ++ b).
Proof.
  unfold lastn. rewrite !length_app, length_drop.
  destruct (decide (n <= length a)) as [H|H].
  - rewrite <- (drop_app_le a b (length a - n)) by lia. rewrite drop_drop. f_equal. lia.
  - replace (length a - n) with 0 by lia. rewrite drop_0. f_equal. lia.
Qed.

(** ** f64 lemmas *)

(** Not a negative finite value. *)
Definition f64_nonneg (x : f64) : Prop :=
  match x with Fin q => (0 <= q)%Q | _ => True end.

Lemma f64_div_N_nonneg a b : f64_nonneg (f64_div_N a b).
Proof.
  unfold f64_div_N. destruct (decide (b = 0%N)); [destruct (decide (a = 0%N)); exact I|].
  simpl. apply Qle_shift_div_l.
  - apply inject_Z_N_pos. lia.
  - rewrite Qmult_0_l. apply inject_Z_N_nonneg.
Qed.

Lemma f64_mul_fin_nonneg x c : f64_nonneg x -> (0 <= c)%Q -> f64_nonneg (f64_mul_fin x c).
Proof.
  destruct x as [q| |]; simpl; intros Hx Hc; [|destruct (Qeq_bool c 0)|]; try exact I.
  apply Qmult_le_0_compat; assumption.
Qed.

(** [x.min(c)] of a non-negative [x] lies in [[0, c]]. *)
Lemma f64_min_bounds x c :
  f64_nonneg x -> (0 <= c)%Q -> exists q, f64_min x c = Fin q /\ (0 <= q <= c)%Q.
Proof.
  intros Hx Hc. destruct x as [q| |]; simpl.
  - destruct (Qle_bool q c) eqn:E; eexists; (split; [reflexivity|]).
    + apply Qle_bool_iff in E. simpl in Hx. split; assumption.
    + split; [exact Hc | apply Qle_refl].
  - eexists; split; [reflexivity|]. split; [exact Hc | apply Qle_refl].
  - eexists; split; [reflexivity|]. split; [exact Hc | apply Qle_refl].
Qed.

Lemma f64_min_small q c : (q <= c)%Q -> f64_min (Fin q) c = Fin q.
Proof. intros H. simpl. apply Qle_bool_iff in H. rewrite H. reflexivity. Qed.

(** ** Strings *)

Lemma string_length_app (s1 s2 : string) :
  String.length (s1 +:+ s2) = String.length s1 + String.length s2.
Proof. induction s1 as [|c s1 IH]; simpl; [reflexivity | rewrite IH; reflexivity]. Qed.
#[export] Hint Rewrite string_length_app : statusline_rw.

Lemma string_length_of_list_ascii l : String.length (String.string_of_list_ascii l) = length l.
Proof. induction l as [|a l IH]; simpl; [reflexivity | rewrite IH; reflexivity]. Qed.
#[export] Hint Rewrite string_length_of_list_ascii : statusline_rw.

Lemma list_ascii_of_string_app a b :
  String.list_ascii_of_string (a +:+ b) = String.list_ascii_of_string a ++ String.list_ascii_of_string b.
Proof. induction a as [|c a IH]; simpl; [reflexivity | rewrite IH; reflexivity]. Qed.

(** Rust's [Ord] on strings compares bytes lexicographically: after two
    prefixes of the same length, the comparison goes on with the rest
    exactly when the prefixes are equal. *)
Lemma string_compare_app a1 a2 b1 b2 :
  String.length a1 = String.length a2 ->
  String.compare (a1 +:+ b1) (a2 +:+ b2) =
  match String.compare a1 a2 with Eq => String.compare b1 b2 | c => c end.
Proof.
  revert a2. induction a1 as [|c1 a1 IH]; intros [|c2 a2] Hl; simpl in *; try discriminate; [reflexivity|].
  rewrite IH by lia. destruct (Ascii.compare c1 c2); reflexivity.
Qed.

(** ** Text without escape characters

    [esc_free s]: no byte of [s] is ESC (27), the byte every terminal
    control sequence starts with.  The hint database [esc] proves it of
    concatenations, literals and the development's printers. *)

Definition esc_free (s : string) : Prop := Forall (fun c => c <> "027"%char) (String.list_ascii_of_string s).

Lemma esc_free_app a b : esc_free (a +:+ b) <-> esc_free a /\ esc_free b.
Proof. unfold esc_free. rewrite list_ascii_of_string_app, Forall_app. reflexivity. Qed.

Lemma esc_free_app_2 a b : esc_free a -> esc_free b -> esc_free (a +:+ b).
Proof. rewrite esc_free_app. tauto. Qed.

Lemma esc_free_empty : esc_free "".
Proof. constructor. Qed.

(** A literal: check each character. *)
Ltac esc_const := unfold esc_free; cbn; repeat (apply List.Forall_cons; [discriminate|]); apply List.Forall_nil.

Create HintDb esc.
#[export] Hint Resolve esc_free_app_2 esc_free_empty : esc.
#[export] Hint Extern 1 (esc_free (String _ _)) => esc_const : esc.

(** ** Tactics *)

(** Case analysis on every [N.ltb] test of the goal, dropping the
    branches [lia] refutes. *)
Ltac ltb_cases :=
  repeat match goal with |- context [(?a <? ?b)%N] => destruct (N.ltb_spec a b); try lia end.

(** Name the quotient and the remainder of [x] by the constant [d] as
    opaque [q] and [r] with their defining equations, so that [lia] can
    reason about them. *)
Ltac divmod_as x d q r :=
  pose proof (N.div_mod x d ltac:(discriminate)); pose proof (N.mod_lt x d ltac:(discriminate));
  set (q := (x / d)%N) in *; set (r := (x mod d)%N) in *; clearbody q r.

(** ** Searching a list of candidates *)

(** The first candidate that [f] accepts is [y] exactly when the list
    splits around a candidate [x] with [f x = Some y] and [f] rejects
    every candidate before it. *)
Lemma head_omap_Some {A B} (f : A -> option B) (l : list A) (y : B) :
  head (omap f l) = Some y <->
  exists pre x post, l = pre ++ x :: post /\ f x = Some y /\ Forall (fun c => f c = None) pre.
Proof.
  induction l as [|a l IH]; simpl.
  - split; [discriminate|]. intros (pre & x & post & E & _). destruct pre; discriminate.
  - destruct (f a) as [b|] eqn:Fa; simpl.
    + split.
      * intros [= <-]. exists [], a, l. auto.
      * intros (pre & x & post & E & Fx & Hpre). destruct pre as [|p pre]; simpl in E; injection E as -> E.
        -- congruence.
        -- inversion Hpre; congruence.
    + rewrite IH. split.
      * intros (pre & x & post & -> & Fx & Hpre). exists (a :: pre), x, post. auto.
      * intros (pre & x & post & E & Fx & Hpre). destruct pre as [|p pre]; simpl in E; injection E as -> E.
        -- congruence.
        -- inversion Hpre; subst. exists pre, x, post. auto.
Qed.
