(* ===== verification/Config.v ===== *)
(** * Config: the configuration records of src/src/config.rs

    The typed settings every component reads: the [Config] record and its
    sub-records with the default values of their [Default] impls, and
    [ContextConfig::get_effective_threshold], the mode-aware warning
    threshold.  f64 fields are exact rationals ([Q]), [usize]/[u32]/[u64]
    fields are [N], [HashMap<String, usize>] is a [gmap string N].
    The serde decoding of the records is in ConfigToml.v; the theorems
    here hold for every value of the record. *)

From S2P Require Import Prelude.
Close Scope Q_scope.

Module Config.

Record DisplayConfig := {
  progress_bar_width : N;
  context_warning_threshold : Q;
  context_critical_threshold : Q;
  context_caution_threshold : Q;
  theme : string;
  show_directory : bool;
  show_git : bool;
  show_context : bool;
  show_model : bool;
  show_duration : bool;
  show_lines_changed : bool;
  show_cost : bool;
  show_context_tokens : bool
}.

Record ContextConfig := {
  window_size : N;
  model_windows : gmap string N;
  adaptive_learning : bool;
  learning_confidence_threshold : Q;
  buffer_size : N;
  auto_compact_threshold : Q;
  percentage_mode : string
}.

Record CostConfig := { low_threshold : Q; medium_threshold : Q }.

Record DatabaseConfig := {
  max_connections : N;
  busy_timeout_ms : N;
  db_path : string;
  json_backup : bool;
  retention_days_sessions : option N;
  retention_days_daily : option N;
  retention_days_monthly : option N
}.

Record RetrySettings := {
  max_attempts : N;
  initial_delay_ms : N;
  max_delay_ms : N;
  backoff_factor : Q
}.

Record RetryConfig := {
  file_ops : RetrySettings;
  db_ops : RetrySettings;
  git_ops : RetrySettings;
  network_ops : RetrySettings
}.

Record TranscriptConfig := { buffer_lines : N }.

Record GitConfig := { timeout_ms : N }.

Record Config := {
  display : DisplayConfig;
  context : ContextConfig;
  cost : CostConfig;
  database : DatabaseConfig;
  retry : RetryConfig;
  transcript : TranscriptConfig;
  git : GitConfig
}.

(** ** Defaults *)

Definition default_display : DisplayConfig := {|
  progress_bar_width := 10;
  context_warning_threshold := 70;
  context_critical_threshold := 90;
  context_caution_threshold := 50;
  theme := "dark";
  show_directory := true;
  show_git := true;
  show_context := true;
  show_model := true;
  show_duration := true;
  show_lines_changed := true;
  show_cost := true;
  show_context_tokens := false
|}.

Definition default_percentage_mode : string := "full".

Definition default_context : ContextConfig := {|
  window_size := 200000;
  model_windows := ∅;
  adaptive_learning := false;
  learning_confidence_threshold := 7 # 10;
  buffer_size := 40000;
  auto_compact_threshold := 75;
  percentage_mode := default_percentage_mode
|}.

Definition default_cost : CostConfig := {| low_threshold := 5; medium_threshold := 20 |}.

Definition default_database : DatabaseConfig := {|
  max_connections := 5;
  busy_timeout_ms := 10000;
  db_path := "stats.db";
  json_backup := true;
  retention_days_sessions := None;
  retention_days_daily := None;
  retention_days_monthly := None
|}.

Definition mk_retry (a i m : N) (f : Q) : RetrySettings :=
  {| max_attempts := a; initial_delay_ms := i; max_delay_ms := m; backoff_factor := f |}.

Definition default_retry : RetryConfig := {|
  file_ops := mk_retry 3 100 5000 2;
  db_ops := mk_retry 5 50 2000 (3 # 2);
  git_ops := mk_retry 3 100 3000 2;
  network_ops := mk_retry 2 200 1000 2
|}.

Definition default_retry_settings : RetrySettings := mk_retry 3 100 5000 2.

Definition default_transcript : TranscriptConfig := {| buffer_lines := 50 |}.

Definition default_git : GitConfig := {| timeout_ms := 200 |}.

Definition default_config : Config := {|
  display := default_display;
  context := default_context;
  cost := default_cost;
  database := default_database;
  retry := default_retry;
  transcript := default_transcript;
  git := default_git
|}.

(** ** Cloud synchronisation (built with the [turso-sync] feature only)

    The [sync] field of [Config] exists only in that build; the records
    and their defaults are here, and [Config] above is the default build. *)

Record TursoConfig := { database_url : string; auth_token : string }.

Record SyncConfig := {
  enabled : bool;
  provider : string;
  sync_interval_seconds : N;
  soft_quota_fraction : Q;
  turso : TursoConfig
}.

(** [#[derive(Default)]] on [TursoConfig]. *)
Definition default_turso : TursoConfig := {| database_url := ""; auth_token := "" |}.

Definition default_sync : SyncConfig := {|
  enabled := false;
  provider := "turso";
  sync_interval_seconds := 60;
  soft_quota_fraction := 3 # 4;
  turso := default_turso
|}.

(** ** [ContextConfig::get_effective_threshold] *)

(** A threshold counts as customised when it is more than 0.1 away from
    both the current default (75) and the legacy default (80). *)
Definition is_custom_threshold (t : Q) : bool :=
  Qltb (1 # 10) (Qabs (t - 75)) && Qltb (1 # 10) (Qabs (t - 80)).

Definition get_effective_threshold (c : ContextConfig) : Q :=
  if is_custom_threshold (auto_compact_threshold c) then auto_compact_threshold c
  else if String.eqb (percentage_mode c) "working" then 94
  else 75.

End Config.
