(* ===== verification/Environment.v ===== *)
(** * Environment: directories, configuration loading and the theme name

    The parts of common.rs and config.rs that read the process
    environment: [get_data_dir] and [get_config_dir] (common.rs),
    [Config::find_config_file], [Config::load], [Config::load_from_file],
    [Config::default_config_path], the [From] conversions, the global
    [get_config] with its environment overrides, [get_theme] (config.rs)
    and [Colors::enabled] (display.rs).

    The environment is the function [var] ([std::env::var]: [None] when
    the variable is unset or not Unicode); the [dirs] crate's answers, the
    file-existence test, [fs::read_to_string] and the TOML decoder are
    section variables.  Paths are strings joined by [PathBuf::join].
    The global [CONFIG: OnceLock<Config>] is an [option Config] the
    calls thread ([get_config_once], [get_theme_once]); a call's view of
    the process is a [ProcessEnv].

    Theorems: the configuration file found is the first candidate that
    is set and exists; [get_theme] is the theme of [get_config] and the
    environment's theme wins over the configuration file's (contrary to
    the comment on [get_current_theme]); the directories are absolute
    exactly when their base is, so an empty [XDG_DATA_HOME] makes the
    data directory relative; the configuration is computed once per
    process, from the environment of the first call.  Examples evaluate
    the error paths of loading, the strict reading of
    STATUSLINE_JSON_BACKUP and a theme served from the cache. *)

From S2P Require Import Prelude Config.
From Stdlib Require Import Ascii.
Close Scope Q_scope.

Module Environment.
Import Config.

(** ** [PathBuf::join] *)

Definition starts_with_slash (s : string) : bool :=
  match s with String c _ => Ascii.eqb c "/"%char | EmptyString => false end.

Fixpoint last_char (s : string) : option ascii :=
  match s with
  | EmptyString => None
  | String c EmptyString => Some c
  | String _ rest => last_char rest
  end.

(** [base.join(child)]: an absolute [child] replaces [base]; otherwise a
    separator is added unless [base] is empty or already ends with one. *)
Definition path_join (base child : string) : string :=
  if starts_with_slash child then child
  else match last_char base with
       | None => child
       | Some c => if Ascii.eqb c "/"%char then (base +:+ child)%string else (base +:+ "/" +:+ child)%string
       end.

(** ** Configuration records updated by [get_config] *)

Definition with_theme (cfg : Config) (t : string) : Config :=
  let d := display cfg in
  {| display := {| progress_bar_width := progress_bar_width d;
                   context_warning_threshold := context_warning_threshold d;
                   context_critical_threshold := context_critical_threshold d;
                   context_caution_threshold := context_caution_threshold d;
                   theme := t;
                   show_directory := show_directory d; show_git := show_git d;
                   show_context := show_context d; show_model := show_model d;
                   show_duration := show_duration d; show_lines_changed := show_lines_changed d;
                   show_cost := show_cost d; show_context_tokens := show_context_tokens d |};
     context := context cfg; cost := cost cfg; database := database cfg; retry := retry cfg;
     transcript := transcript cfg; git := git cfg |}.

Definition with_json_backup (cfg : Config) (b : bool) : Config :=
  let db := database cfg in
  {| display := display cfg; context := context cfg; cost := cost cfg;
     database := {| max_connections := max_connections db; busy_timeout_ms := busy_timeout_ms db;
                    db_path := db_path db; json_backup := b;
                    retention_days_sessions := retention_days_sessions db;
                    retention_days_daily := retention_days_daily db;
                    retention_days_monthly := retention_days_monthly db |};
     retry := retry cfg; transcript := transcript cfg; git := git cfg |}.

Section WithEnvironment.
Context (var : string -> option string)
        (dirs_data_dir dirs_config_dir dirs_home_dir : option string)
        (exists_path : string -> bool)
        (read_to_string : string -> string + string)
        (toml_from_str : string -> Config + string).

(** [get_data_dir]. *)
Definition get_data_dir : string :=
  match var "XDG_DATA_HOME" with
  | Some xdg_data_home => path_join xdg_data_home "claudia-statusline"
  | None =>
      let base_dir := match dirs_data_dir with
                      | Some d => d
                      | None => path_join (path_join (default "." (var "HOME")) ".local") "share"
                      end in
      path_join base_dir "claudia-statusline"
  end.

(** [get_config_dir]. *)
Definition get_config_dir : string :=
  match var "XDG_CONFIG_HOME" with
  | Some xdg_config_home => path_join xdg_config_home "claudia-statusline"
  | None =>
      let base_dir := match dirs_config_dir with
                      | Some d => d
                      | None => path_join (default "." (var "HOME")) ".config"
                      end in
      path_join base_dir "claudia-statusline"
  end.

(** The four candidates of [find_config_file], in priority order. *)
Definition config_candidates : list (option string) :=
  [var "STATUSLINE_CONFIG_PATH"; var "STATUSLINE_CONFIG";
   Some (path_join get_config_dir "config.toml");
   (fun h => path_join h ".claudia-statusline.toml") <$> dirs_home_dir].

(** [path.exists()] as a filter. *)
Definition existing (path : string) : option string := if exists_path path then Some path else None.

(** [Config::find_config_file]: each step returns early when its path exists. *)
Definition find_config_file : option string :=
  match var "STATUSLINE_CONFIG_PATH" ≫= existing with
  | Some path => Some path
  | None =>
      match var "STATUSLINE_CONFIG" ≫= existing with
      | Some path => Some path
      | None =>
          match existing (path_join get_config_dir "config.toml") with
          | Some path => Some path
          | None => dirs_home_dir ≫= (fun home_dir => existing (path_join home_dir ".claudia-statusline.toml"))
          end
      end
  end.

(** [Config::load_from_file]. *)
Definition load_from_file (path : string) : result Config :=
  match read_to_string path with
  | inr e => Err (ConfigError ("Failed to read config file: " +:+ e))
  | inl contents =>
      match toml_from_str contents with
      | inr e => Err (ConfigError ("Failed to parse config file: " +:+ e))
      | inl config => Ok config
      end
  end.

(** The [From<PathBuf>], [From<&Path>], [From<String>] and [From<&str>]
    conversions: [load_from_file(path).unwrap_or_default()]. *)
Definition config_from_path (path : string) : Config :=
  match load_from_file path with Ok c => c | Err _ => default_config end.

(** [Config::load]. *)
Definition load : result Config :=
  match find_config_file with
  | Some config_path => load_from_file config_path
  | None => Ok default_config
  end.

(** [Config::default_config_path]. *)
Definition default_config_path : result string := Ok (path_join get_config_dir "config.toml").

(** The value [get_config] initialises the global configuration with. *)
Definition get_config : Config :=
  let config := match load with Ok c => c | Err _ => default_config end in
  let config := match var "CLAUDE_THEME" with
                | Some t => with_theme config t
                | None => match var "STATUSLINE_THEME" with
                          | Some t => with_theme config t
                          | None => config
                          end
                end in
  match var "STATUSLINE_JSON_BACKUP" with
  | Some v => with_json_backup config (String.eqb v "true" || String.eqb v "1")
  | None => config
  end.

(** [get_theme]. *)
Definition get_theme : string :=
  match var "CLAUDE_THEME" with
  | Some t => t
  | None => match var "STATUSLINE_THEME" with
            | Some t => t
            | None => theme (display get_config)
            end
  end.

(** [Colors::enabled]. *)
Definition colors_enabled : bool := match var "NO_COLOR" with Some _ => false | None => true end.

End WithEnvironment.

(** ** The global [CONFIG: OnceLock<Config>] *)

(** [OnceLock::get_or_init]: the stored value, or the value of [init],
    stored. *)
Definition get_or_init {A} (cell : option A) (init : unit -> A) : A * option A :=
  match cell with
  | Some v => (v, cell)
  | None => let v := init tt in (v, Some v)
  end.

(** What a call reads from the process: the environment, the [dirs]
    crate's directories and the files. *)
Record ProcessEnv := {
  pe_var : string -> option string; pe_config_dir : option string; pe_home_dir : option string;
  pe_exists : string -> bool; pe_read : string -> string + string; pe_toml : string -> Config + string
}.

(** [get_config()] on the process state [CONFIG]. *)
Definition get_config_once (pe : ProcessEnv) (cell : option Config) : Config * option Config :=
  get_or_init cell (fun _ => get_config (pe_var pe) (pe_config_dir pe) (pe_home_dir pe) (pe_exists pe)
                                        (pe_read pe) (pe_toml pe)).

(** [get_theme()]: the environment at the time of the call, then the
    global configuration. *)
Definition get_theme_once (pe : ProcessEnv) (cell : option Config) : string * option Config :=
  match pe_var pe "CLAUDE_THEME" with
  | Some t => (t, cell)
  | None => match pe_var pe "STATUSLINE_THEME" with
            | Some t => (t, cell)
            | None => let '(c, cell') := get_config_once pe cell in (theme (display c), cell')
            end
  end.


(** ** Lemmas *)

Lemma starts_with_slash_app a b :
  a <> EmptyString -> starts_with_slash (a +:+ b) = starts_with_slash a.
Proof. destruct a; [congruence | reflexivity]. Qed.

Lemma last_char_some s c : last_char s = Some c -> s <> EmptyString.
Proof. destruct s; [discriminate | congruence]. Qed.

Lemma last_char_none s : last_char s = None -> s = EmptyString.
Proof. induction s as [|c rest IH]; [reflexivity|]. destruct rest; simpl; [discriminate|]. intros H. discriminate (IH H). Qed.

(** Joining a relative path keeps the base's absoluteness. *)
Lemma path_join_absolute base child :
  starts_with_slash child = false ->
  starts_with_slash (path_join base child) = starts_with_slash base.
Proof.
  intros Hc. unfold path_join. rewrite Hc.
  destruct (last_char base) as [c|] eqn:E.
  - pose proof (last_char_some _ _ E) as Hne.
    destruct (Ascii.eqb c "/"%char); apply starts_with_slash_app, Hne.
  - rewrite (last_char_none _ E). exact Hc.
Qed.

Lemma existing_some exists_path p q : existing exists_path p = Some q -> q = p /\ exists_path p = true.
Proof. unfold existing. destruct (exists_path p); [intros [= <-]; auto | discriminate]. Qed.

Lemma find_config_file_first var dc dh ex :
  find_config_file var dc dh ex = head (omap (fun c => c ≫= existing ex) (config_candidates var dc dh)).
Proof.
  unfold find_config_file, config_candidates. simpl.
  destruct (var "STATUSLINE_CONFIG_PATH" ≫= existing ex); [reflexivity|].
  destruct (var "STATUSLINE_CONFIG" ≫= existing ex); [reflexivity|].
  destruct (existing ex _); [reflexivity|]. destruct dh as [h|]; [simpl|reflexivity].
  destruct (existing ex _); reflexivity.
Qed.

(** ** Theorems *)

(** C18: [find_config_file] returns [p] exactly when [p] is the first of
    the candidates STATUSLINE_CONFIG_PATH, STATUSLINE_CONFIG,
    [get_config_dir]/config.toml and ~/.claudia-statusline.toml that is
    set and names an existing file: every earlier candidate is unset or
    names a missing file. *)
Theorem find_config_file_spec var dc dh ex p :
  find_config_file var dc dh ex = Some p <->
  exists pre post, config_candidates var dc dh = pre ++ Some p :: post /\ ex p = true /\
                   Forall (fun c => c ≫= existing ex = None) pre.
Proof.
  rewrite find_config_file_first, head_omap_Some. split.
  - intros (pre & x & post & E & Hx & Hpre). destruct x as [q|]; [|discriminate].
    simpl in Hx. destruct (existing_some _ _ _ Hx) as [-> Hq]. exists pre, post. auto.
  - intros (pre & post & E & Hp & Hpre). exists pre, (Some p), post. split; [exact E|].
    split; [unfold existing; simpl; rewrite Hp; reflexivity | exact Hpre].
Qed.

(** C33: the theme name [get_theme] returns is the theme of the global
    configuration [get_config], and a set CLAUDE_THEME wins whatever the
    configuration file says: the environment is consulted before the
    file, although the comment on [get_current_theme] lists the file
    first. *)
Theorem get_theme_consistent var dc dh ex rd toml t :
  get_theme var dc dh ex rd toml = theme (display (get_config var dc dh ex rd toml)) /\
  (var "CLAUDE_THEME" = Some t -> get_theme var dc dh ex rd toml = t).
Proof.
  unfold get_theme, get_config. split.
  - destruct (var "CLAUDE_THEME"); [|destruct (var "STATUSLINE_THEME")];
      destruct (var "STATUSLINE_JSON_BACKUP"); reflexivity.
  - intros ->. reflexivity.
Qed.

(** C34: the data and configuration directories are absolute exactly
    when the base they start from is: XDG_DATA_HOME (XDG_CONFIG_HOME)
    when set, otherwise the [dirs] crate's directory, otherwise HOME or
    ".".  In particular a set but empty XDG variable gives a relative
    directory, "claudia-statusline", where the XDG specification says to
    ignore it. *)
Theorem data_config_dirs_absolute var dd dc :
  starts_with_slash (get_data_dir var dd) =
    match var "XDG_DATA_HOME" with
    | Some x => starts_with_slash x
    | None => match dd with Some d => starts_with_slash d | None => starts_with_slash (default "." (var "HOME")) end
    end /\
  starts_with_slash (get_config_dir var dc) =
    match var "XDG_CONFIG_HOME" with
    | Some x => starts_with_slash x
    | None => match dc with Some d => starts_with_slash d | None => starts_with_slash (default "." (var "HOME")) end
    end.
Proof.
  unfold get_data_dir, get_config_dir. split;
    [destruct (var "XDG_DATA_HOME"); [|destruct dd] | destruct (var "XDG_CONFIG_HOME"); [|destruct dc]];
    rewrite ?path_join_absolute by reflexivity; reflexivity.
Qed.



(** ** Witnesses and examples *)

(** An environment given by a list of bindings. *)
Definition env_of (bindings : list (string * string)) (name : string) : option string :=
  snd <$> List.find (fun kv => String.eqb kv.1 name) bindings.

Definition light_config : Config := with_theme default_config "light".

Lemma get_theme_consistent_witness :
  get_theme (env_of [("CLAUDE_THEME", "dark")]) None None (fun _ => true)
    (fun _ => inl "") (fun _ => inl light_config) = "dark".
Proof. apply (get_theme_consistent _ _ _ _ _ _ "dark"). reflexivity. Defined.

Lemma find_config_file_spec_witness :
  find_config_file (env_of [("STATUSLINE_CONFIG_PATH", "/missing.toml"); ("XDG_CONFIG_HOME", "/cfg")])
    None (Some "/home/u") (fun p => String.eqb p "/cfg/claudia-statusline/config.toml")
  = Some "/cfg/claudia-statusline/config.toml".
Proof.
  apply find_config_file_spec. exists [Some "/missing.toml"; None], [Some "/home/u/.claudia-statusline.toml"].
  split; [reflexivity|]. split; [reflexivity|]. repeat constructor.
Defined.

Example environment_cases :
  get_data_dir (env_of [("XDG_DATA_HOME", "")]) (Some "/home/u/.local/share") = "claudia-statusline" /\
  get_data_dir (env_of [("HOME", "/home/u")]) None = "/home/u/.local/share/claudia-statusline" /\
  get_config_dir (env_of [("XDG_CONFIG_HOME", "/cfg/")]) None = "/cfg/claudia-statusline" /\
  load (env_of []) None None (fun _ => false) (fun _ => inr "absent") (fun _ => inr "bad") = Ok default_config /\
  load (env_of [("STATUSLINE_CONFIG", "/c.toml")]) None None (fun _ => true) (fun _ => inl "x = ")
    (fun _ => inr "expected a value") = Err (ConfigError "Failed to parse config file: expected a value") /\
  json_backup (database (get_config (env_of [("STATUSLINE_JSON_BACKUP", "TRUE")]) None None
                           (fun _ => false) (fun _ => inr "") (fun _ => inr ""))) = false /\
  config_from_path (fun _ => inr "permission denied") (fun _ => inl light_config) "/c.toml" = default_config /\
  config_from_path (fun _ => inl "") (fun _ => inl light_config) "/c.toml" = light_config.
Proof. repeat split; reflexivity. Qed.

(** [get_theme()] reads the environment at each call but the global
    configuration only once: after a first call with CLAUDE_THEME=dark,
    unsetting it leaves the cached "dark", not the file's "light". *)
Example get_theme_once_cached :
  let pe1 := {| pe_var := env_of [("CLAUDE_THEME", "dark")]; pe_config_dir := None; pe_home_dir := None;
                pe_exists := fun _ => true; pe_read := fun _ => inl ""; pe_toml := fun _ => inl light_config |} in
  let pe2 := {| pe_var := env_of []; pe_config_dir := None; pe_home_dir := None;
                pe_exists := fun _ => true; pe_read := fun _ => inl ""; pe_toml := fun _ => inl light_config |} in
  (get_theme_once pe2 (get_config_once pe1 None).2).1 = "dark" /\ (get_theme_once pe2 None).1 = "light".
Proof. split; reflexivity. Qed.

End Environment.
