(* ===== verification/ConfigToml.v ===== *)
(** * ConfigToml: the configuration file format (config.rs, example_toml and the serde decoding)

    [Config::example_toml] is the text [--init-config] writes; its first
    comment says every value it shows is the default.  The configuration
    structs derive [Deserialize] with [#[serde(default)]]: a missing table
    or key takes the value of the struct's [Default], unknown keys are
    ignored, and a value of the wrong type is an error.

    The TOML reader is the subset of TOML the configuration uses, written
    from the TOML specification (the [toml] crate is a dependency, not
    code of the repository): comments, blank lines, table headers
    [[a.b]], and [key = value] lines whose key is bare or a basic string
    and whose value is a basic string without escapes, a boolean, a
    decimal integer or a decimal float; anything else is an error.
    Duplicate keys are an error, as in TOML.  Floats are read as exact
    rationals ([Q] in lowest terms), as f64 values are elsewhere in the
    development; the error messages are not the crate's.

    [example_toml] is the text of the source with each double quote
    written as a backquote (a Rocq string cannot hold one unescaped) and
    turned back by [dequote].

    Theorem: decoding [example_toml] gives the default configuration
    except the three retention settings, which the example sets to 90,
    365 and 0 days where the defaults are [None]. *)

From S2P Require Import Prelude Config Environment.
From Stdlib Require Import Ascii DecimalString DecimalN.
Close Scope Q_scope.

Module ConfigToml.
Import Config Environment.

(** ** The example file *)

Definition dquote : ascii := ascii_of_nat 34.

Definition dequote (s : string) : string :=
  String.string_of_list_ascii
    (map (fun c => if (c =? "`")%char then dquote else c) (String.list_ascii_of_string s)).

(** [Config::example_toml()]. *)
Definition example_toml : string := dequote
"# Claudia Statusline Configuration File
#
# This file configures various aspects of the statusline behavior.
# All values shown are the defaults - you can override only what you need.

[display]
# Width of the progress bar in characters
progress_bar_width = 10

# Context usage thresholds (percentage)
context_warning_threshold = 70.0     # Orange color above this
context_critical_threshold = 90.0    # Red color above this
context_caution_threshold = 50.0     # Yellow color above this

# Theme: `dark` or `light`
theme = `dark`

# Component visibility toggles (all default to true except show_context_tokens)
# show_directory = true
# show_git = true
# show_context = true
# show_model = true
# show_duration = true
# show_lines_changed = true
# show_cost = true

# Show token counts in context bar (e.g., `179k/1000k`)
# show_context_tokens = false

[context]
# Default context window size in tokens (fallback for unknown models)
# Auto-detection: Sonnet 4.5 (1M context) uses 1M, Sonnet 3.5+/4.5/Opus 3.5+ use 200k
# This fallback is used when model-specific detection fails
window_size = 200000

# Model-specific context windows (optional overrides)
# The statusline intelligently detects context window size based on model family/version
# and display name patterns (e.g., `(1M context)` suffix)
# You can override detection here for specific models by display name
# [context.model_windows]
# `Claude 3.5 Sonnet` = 200000
# `Claude Sonnet 4.5` = 200000
# `Sonnet 4.5 (1M context)` = 1000000  # Auto-detected, override not needed
# `Claude 3.5 Opus` = 200000
# `Claude 3 Haiku` = 100000

# Adaptive Learning (Experimental) - DISABLED BY DEFAULT
# When enabled, the statusline learns actual context window sizes from usage patterns
# by detecting compaction events and token ceiling observations
adaptive_learning = false

# Minimum confidence threshold (0.0-1.0) required to use learned values
# Only applies when adaptive_learning = true
# Confidence increases with more observations (0.7 = 70% confidence)
learning_confidence_threshold = 0.7

[cost]
# Cost thresholds for color coding
low_threshold = 5.0      # Green below this
medium_threshold = 20.0  # Yellow between low and medium, red above

[database]
# Database connection settings
max_connections = 5
busy_timeout_ms = 10000
path = `stats.db`  # Relative to data directory
json_backup = true  # Maintain JSON backup alongside SQLite (set to false for SQLite-only mode)

# Data retention settings (for db-maintain command)
retention_days_sessions = 90    # Keep session data for N days
retention_days_daily = 365      # Keep daily aggregates for N days
retention_days_monthly = 0      # Keep monthly aggregates for N days (0 = forever)

[transcript]
# Number of transcript lines to keep in memory (circular buffer)
# For large files, only the last N lines are read (tail-reading optimization)
buffer_lines = 50

[retry.file_ops]
# File operation retry settings
max_attempts = 3
initial_delay_ms = 100
max_delay_ms = 5000
backoff_factor = 2.0

[retry.db_ops]
# Database operation retry settings
max_attempts = 5
initial_delay_ms = 50
max_delay_ms = 2000
backoff_factor = 1.5

[retry.git_ops]
# Git operation retry settings
max_attempts = 3
initial_delay_ms = 100
max_delay_ms = 3000
backoff_factor = 2.0

[retry.network_ops]
# Network operation retry settings
max_attempts = 2
initial_delay_ms = 200
max_delay_ms = 1000
backoff_factor = 2.0

[git]
# Git operation settings
timeout_ms = 200  # Timeout for git operations

# Optional cloud sync configuration
# Requires building with --features turso-sync
# [sync]
# enabled = false
# provider = `turso`
# sync_interval_seconds = 60
# soft_quota_fraction = 0.75  # Warn when usage exceeds 75% of quota
#
# [sync.turso]
# database_url = `libsql://claude-stats.turso.io`
# auth_token = `${TURSO_AUTH_TOKEN}`  # Or paste token directly
".

(** ** Values and lines of the TOML subset *)

Inductive TomlValue :=
  | TInt (z : Z)
  | TFloat (q : Q)
  | TStr (s : string)
  | TBool (b : bool).

Inductive TomlLine :=
  | Blank
  | Header (path : list string)
  | Assign (key : string) (value : TomlValue).

Definition is_space (c : ascii) : bool := (c =? " ")%char || (c =? "009")%char || (c =? "013")%char.

Fixpoint trim_left (l : list ascii) : list ascii :=
  match l with
  | c :: rest => if is_space c then trim_left rest else l
  | [] => []
  end.

Definition trim (l : list ascii) : list ascii := rev (trim_left (rev (trim_left l))).

(** Drop a comment: a '#' outside a basic string ends the line. *)
Fixpoint strip_comment (in_str : bool) (l : list ascii) : list ascii :=
  match l with
  | [] => []
  | c :: rest =>
      if (c =? "#")%char && negb in_str then []
      else c :: strip_comment (if (c =? dquote)%char then negb in_str else in_str) rest
  end.

(** The text up to the first [sep] and the text after it. *)
Fixpoint split_at (sep : ascii) (l : list ascii) : list ascii * option (list ascii) :=
  match l with
  | [] => ([], None)
  | c :: rest =>
      if (c =? sep)%char then ([], Some rest)
      else let '(a, b) := split_at sep rest in (c :: a, b)
  end.

Fixpoint split_all (sep : ascii) (fuel : nat) (l : list ascii) : list (list ascii) :=
  match fuel with
  | O => [l]
  | S f => match split_at sep l with
           | (a, Some b) => a :: split_all sep f b
           | (a, None) => [a]
           end
  end.

Definition is_digit (c : ascii) : bool := (48 <=? N_of_ascii c)%N && (N_of_ascii c <=? 57)%N.

Definition is_bare_key_char (c : ascii) : bool :=
  is_digit c || (65 <=? N_of_ascii c)%N && (N_of_ascii c <=? 90)%N ||
  (97 <=? N_of_ascii c)%N && (N_of_ascii c <=? 122)%N || (c =? "_")%char || (c =? "-")%char.

(** A basic string without escapes: the characters between the quotes. *)
Definition basic_string (l : list ascii) : option string :=
  match l with
  | c :: rest =>
      if (c =? dquote)%char then
        match rev rest with
        | e :: inner =>
            if (e =? dquote)%char && forallb (fun x => negb ((x =? dquote)%char || (x =? "\")%char)) inner
            then Some (String.string_of_list_ascii (rev inner)) else None
        | [] => None
        end
      else None
  | [] => None
  end.

Definition parse_key (l : list ascii) : option string :=
  match l with
  | [] => None
  | _ => if forallb is_bare_key_char l then Some (String.string_of_list_ascii l) else basic_string l
  end.

(** Decimal digits, with '_' allowed between them. *)
Fixpoint digits_value (acc : Z) (count : nat) (l : list ascii) : option (Z * nat) :=
  match l with
  | [] => match count with O => None | _ => Some (acc, count) end
  | c :: rest =>
      if is_digit c then digits_value (acc * 10 + Z.of_N (N_of_ascii c - 48)) (S count) rest
      else if (c =? "_")%char then match count with O => None | _ => digits_value acc count rest end
      else None
  end.

Definition parse_number (l : list ascii) : option TomlValue :=
  let '(sign, body) := match l with
                       | c :: rest => if (c =? "-")%char then ((-1)%Z, rest)
                                      else if (c =? "+")%char then (1%Z, rest) else (1%Z, l)
                       | [] => (1%Z, l)
                       end in
  match split_at "." body with
  | (int_part, None) => '(n, _) ← digits_value 0 0 int_part; Some (TInt (sign * n))
  | (int_part, Some frac) =>
      '(n, _) ← digits_value 0 0 int_part;
      '(m, k) ← digits_value 0 0 frac;
      Some (TFloat (Qred (Qmake (sign * (n * 10 ^ Z.of_nat k + m)) (Z.to_pos (10 ^ Z.of_nat k)))))
  end.

Definition parse_value (l : list ascii) : option TomlValue :=
  match basic_string l with
  | Some s => Some (TStr s)
  | None =>
      if String.eqb (String.string_of_list_ascii l) "true" then Some (TBool true)
      else if String.eqb (String.string_of_list_ascii l) "false" then Some (TBool false)
      else parse_number l
  end.

Definition parse_line (raw : list ascii) : option TomlLine :=
  let l := trim (strip_comment false raw) in
  match l with
  | [] => Some Blank
  | c :: rest =>
      if (c =? "[")%char then
        match rev rest with
        | e :: inner =>
            if (e =? "]")%char then
              path ← mapM (fun k => parse_key (trim k)) (split_all "." (length inner) (rev inner));
              Some (Header path)
            else None
        | [] => None
        end
      else
        match split_at "=" l with
        | (k, Some v) => key ← parse_key (trim k); value ← parse_value (trim v); Some (Assign key value)
        | (_, None) => None
        end
  end.

(** The entries of a document: table path, key and value, in order. *)
Definition Entry : Type := list string * string * TomlValue.

(** A document: the tables its headers declare and its entries. *)
Record Document := { tables : list (list string); entries : list Entry }.

Fixpoint collect (lineno : N) (table : list string) (lines : list (list ascii)) : Document + string :=
  match lines with
  | [] => inl {| tables := []; entries := [] |}
  | raw :: rest =>
      match parse_line raw with
      | None => inr ("invalid TOML at line " +:+ NilEmpty.string_of_uint (N.to_uint lineno))%string
      | Some Blank => collect (lineno + 1) table rest
      | Some (Header path) =>
          match collect (lineno + 1) path rest with
          | inl doc => inl {| tables := path :: tables doc; entries := entries doc |}
          | inr e => inr e
          end
      | Some (Assign k v) =>
          match collect (lineno + 1) table rest with
          | inl doc => inl {| tables := tables doc; entries := (table, k, v) :: entries doc |}
          | inr e => inr e
          end
      end
  end.

Definition parse_toml (s : string) : Document + string :=
  let l := String.list_ascii_of_string s in
  collect 1 [] (split_all "010" (length l) l).

(** ** Decoding ([#[derive(Deserialize)]] with [#[serde(default)]]) *)

Notation "x <-s r ;; k" := (match r with inl x => k | inr e => inr e end)
  (at level 100, r at next level, right associativity, only parsing) : sl_scope.
Open Scope sl_scope.

(** The keys and values given in one table. *)
Definition table (es : list Entry) (path : list string) : list (string * TomlValue) :=
  omap (fun '(p, k, v) => if decide (p = path) then Some (k, v) else None) es.

Definition toml_bounded (bound : Z) (v : TomlValue) : option N :=
  match v with TInt z => if (0 <=? z)%Z && (z <? bound)%Z then Some (Z.to_N z) else None | _ => None end.

Definition toml_usize : TomlValue -> option N := toml_bounded (2 ^ 64).
Definition toml_u64 : TomlValue -> option N := toml_bounded (2 ^ 64).
Definition toml_u32 : TomlValue -> option N := toml_bounded (2 ^ 32).

(** f64 and f32 fields accept integers too. *)
Definition toml_float (v : TomlValue) : option Q :=
  match v with TFloat q => Some q | TInt z => Some (inject_Z z) | _ => None end.

Definition toml_string (v : TomlValue) : option string := match v with TStr s => Some s | _ => None end.
Definition toml_bool (v : TomlValue) : option bool := match v with TBool b => Some b | _ => None end.

(** A field: the converted value when the key is given, the [Default]
    otherwise; a value of the wrong type is an error. *)
Definition field {A} (t : list (string * TomlValue)) (key : string) (conv : TomlValue -> option A) (dflt : A)
    : A + string :=
  match List.find (fun kv => String.eqb kv.1 key) t with
  | None => inl dflt
  | Some (_, v) => match conv v with Some a => inl a | None => inr ("invalid type for key " +:+ key)%string end
  end.

Definition decode_display (t : list (string * TomlValue)) : DisplayConfig + string :=
  let d := default_display in
  w <-s field t "progress_bar_width" toml_usize (progress_bar_width d);;
  warn <-s field t "context_warning_threshold" toml_float (context_warning_threshold d);;
  crit <-s field t "context_critical_threshold" toml_float (context_critical_threshold d);;
  caut <-s field t "context_caution_threshold" toml_float (context_caution_threshold d);;
  th <-s field t "theme" toml_string (theme d);;
  sdir <-s field t "show_directory" toml_bool (show_directory d);;
  sgit <-s field t "show_git" toml_bool (show_git d);;
  sctx <-s field t "show_context" toml_bool (show_context d);;
  smod <-s field t "show_model" toml_bool (show_model d);;
  sdur <-s field t "show_duration" toml_bool (show_duration d);;
  slin <-s field t "show_lines_changed" toml_bool (show_lines_changed d);;
  scost <-s field t "show_cost" toml_bool (show_cost d);;
  stok <-s field t "show_context_tokens" toml_bool (show_context_tokens d);;
  inl {| progress_bar_width := w; context_warning_threshold := warn; context_critical_threshold := crit;
         context_caution_threshold := caut; theme := th; show_directory := sdir; show_git := sgit;
         show_context := sctx; show_model := smod; show_duration := sdur; show_lines_changed := slin;
         show_cost := scost; show_context_tokens := stok |}.

(** [HashMap<String, usize>] from the table [context.model_windows]. *)
Fixpoint decode_model_windows (t : list (string * TomlValue)) : gmap string N + string :=
  match t with
  | [] => inl ∅
  | (k, v) :: rest =>
      m <-s decode_model_windows rest;;
      match toml_usize v with
      | Some n => inl (<[k := n]> m)
      | None => inr ("invalid type for key " +:+ k)%string
      end
  end.

Definition decode_context (t mw : list (string * TomlValue)) : ContextConfig + string :=
  let c := default_context in
  ws <-s field t "window_size" toml_usize (window_size c);;
  windows <-s decode_model_windows mw;;
  al <-s field t "adaptive_learning" toml_bool (adaptive_learning c);;
  lct <-s field t "learning_confidence_threshold" toml_float (learning_confidence_threshold c);;
  bs <-s field t "buffer_size" toml_usize (buffer_size c);;
  act <-s field t "auto_compact_threshold" toml_float (auto_compact_threshold c);;
  pm <-s field t "percentage_mode" toml_string default_percentage_mode;;
  inl {| window_size := ws; model_windows := windows; adaptive_learning := al;
         learning_confidence_threshold := lct; buffer_size := bs; auto_compact_threshold := act;
         percentage_mode := pm |}.

Definition decode_cost (t : list (string * TomlValue)) : CostConfig + string :=
  lo <-s field t "low_threshold" toml_float (low_threshold default_cost);;
  med <-s field t "medium_threshold" toml_float (medium_threshold default_cost);;
  inl {| low_threshold := lo; medium_threshold := med |}.

Definition toml_opt_u32 (v : TomlValue) : option (option N) := Some <$> toml_u32 v.

Definition decode_database (t : list (string * TomlValue)) : DatabaseConfig + string :=
  let d := default_database in
  mc <-s field t "max_connections" toml_u32 (max_connections d);;
  bt <-s field t "busy_timeout_ms" toml_u32 (busy_timeout_ms d);;
  p <-s field t "path" toml_string (db_path d);;
  jb <-s field t "json_backup" toml_bool (json_backup d);;
  rs <-s field t "retention_days_sessions" toml_opt_u32 (retention_days_sessions d);;
  rd <-s field t "retention_days_daily" toml_opt_u32 (retention_days_daily d);;
  rm <-s field t "retention_days_monthly" toml_opt_u32 (retention_days_monthly d);;
  inl {| max_connections := mc; busy_timeout_ms := bt; db_path := p; json_backup := jb;
         retention_days_sessions := rs; retention_days_daily := rd; retention_days_monthly := rm |}.

(** A missing [retry.*] table takes [RetryConfig::default()]'s entry; a
    present one, even empty, fills its missing keys from
    [RetrySettings::default()]. *)
Definition decode_retry_settings (present : bool) (t : list (string * TomlValue)) (dflt : RetrySettings)
    : RetrySettings + string :=
  match present with
  | false => inl dflt
  | true =>
      let d := default_retry_settings in
      a <-s field t "max_attempts" toml_u32 (max_attempts d);;
      i <-s field t "initial_delay_ms" toml_u64 (initial_delay_ms d);;
      m <-s field t "max_delay_ms" toml_u64 (max_delay_ms d);;
      f <-s field t "backoff_factor" toml_float (backoff_factor d);;
      inl (mk_retry a i m f)
  end.

Definition decode_document (doc : Document) : Config + string :=
  let es := entries doc in
  let retry_table name := decode_retry_settings (bool_decide (["retry"; name] ∈ tables doc))
                            (table es ["retry"; name]) in
  d <-s decode_display (table es ["display"]);;
  c <-s decode_context (table es ["context"]) (table es ["context"; "model_windows"]);;
  co <-s decode_cost (table es ["cost"]);;
  db <-s decode_database (table es ["database"]);;
  fo <-s retry_table "file_ops" (file_ops default_retry);;
  dbo <-s retry_table "db_ops" (db_ops default_retry);;
  go <-s retry_table "git_ops" (git_ops default_retry);;
  no <-s retry_table "network_ops" (network_ops default_retry);;
  tr <-s field (table es ["transcript"]) "buffer_lines" toml_usize (buffer_lines default_transcript);;
  gt <-s field (table es ["git"]) "timeout_ms" toml_u32 (timeout_ms default_git);;
  inl {| display := d; context := c; cost := co; database := db;
         retry := {| file_ops := fo; db_ops := dbo; git_ops := go; network_ops := no |};
         transcript := {| buffer_lines := tr |}; git := {| timeout_ms := gt |} |}.

(** Two entries of the same table with the same key. *)
Definition has_duplicate_key (doc : Document) : bool :=
  negb (bool_decide (NoDup ((fun '(p, k, _) => (p, k)) <$> entries doc))).

(** [toml::from_str::<Config>]. *)
Definition decode_config (s : string) : Config + string :=
  doc <-s parse_toml s;;
  if has_duplicate_key doc then inr "duplicate key" else decode_document doc.

(** The configuration the example file describes. *)
Definition with_retention (cfg : Config) (s d m : option N) : Config :=
  let db := database cfg in
  {| display := display cfg; context := context cfg; cost := cost cfg;
     database := {| max_connections := max_connections db; busy_timeout_ms := busy_timeout_ms db;
                    db_path := db_path db; json_backup := json_backup db;
                    retention_days_sessions := s; retention_days_daily := d;
                    retention_days_monthly := m |};
     retry := retry cfg; transcript := transcript cfg; git := git cfg |}.

(** ** Lemmas *)

(** Invert a chain of [<-s] binds that returned [inl]. *)
Ltac sum_inv :=
  repeat match goal with
    | H : match ?x with inl _ => _ | inr _ => _ end = inl _ |- _ =>
        let E := fresh "E" in destruct x eqn:E; [|discriminate H]
    end.

Lemma decode_document_db_ops doc c :
  decode_document doc = inl c ->
  decode_retry_settings (bool_decide (["retry"; "db_ops"] ∈ tables doc)) (table (entries doc) ["retry"; "db_ops"])
    (db_ops default_retry) = inl (db_ops (retry c)).
Proof. unfold decode_document. intros H. sum_inv. injection H as <-. reflexivity. Qed.

Lemma find_key_absent (t : list (string * TomlValue)) key :
  Forall (fun kv => kv.1 <> key) t -> List.find (fun kv => String.eqb kv.1 key) t = None.
Proof.
  induction 1 as [|[k v] t Hk _ IH]; [reflexivity|]. simpl in *.
  destruct (String.eqb_spec k key); [contradiction | exact IH].
Qed.

Lemma field_absent {A} (t : list (string * TomlValue)) key (conv : TomlValue -> option A) dflt :
  Forall (fun kv => kv.1 <> key) t -> field t key conv dflt = inl dflt.
Proof. intros Ht. unfold field. rewrite find_key_absent by exact Ht. reflexivity. Qed.

(** A present [retry.*] table that sets at most [max_attempts] takes
    every other key from [RetrySettings::default()]. *)
Lemma decode_retry_settings_only_attempts (t : list (string * TomlValue)) dflt s :
  Forall (fun kv => kv.1 = "max_attempts") t ->
  decode_retry_settings true t dflt = inl s ->
  s = mk_retry (max_attempts s) 100 5000 2.
Proof.
  intros Ht H. unfold decode_retry_settings in H.
  assert (Hk : forall k, k <> "max_attempts" -> Forall (fun kv : string * TomlValue => kv.1 <> k) t).
  { intros k Hne. eapply Forall_impl; [exact Ht|]. intros kv Hkv; simpl in *. congruence. }
  cbv zeta in H.
  rewrite (field_absent t "initial_delay_ms"), (field_absent t "max_delay_ms"), (field_absent t "backoff_factor")
    in H by (apply Hk; discriminate).
  destruct (field t "max_attempts" toml_u32 _); [|discriminate]. injection H as <-. reflexivity.
Qed.

(** ** Theorems *)

(** The example file shows the defaults, except retention.
    Decoding [Config::example_toml()] gives [Config::default()] in every
    field but the three retention settings, which the example sets to
    [Some 90], [Some 365] and [Some 0] where [DatabaseConfig::default()]
    has [None]; the file's first comment says every value it shows is
    the default. *)
Theorem example_toml_decodes_to_defaults :
  decode_config example_toml = inl (with_retention default_config (Some 90%N) (Some 365%N) (Some 0%N)).
Proof. vm_compute. reflexivity. Qed.

(** C20: a [retry.db_ops] table takes its missing keys from
    [RetrySettings::default()], not from the database defaults.  When the
    decoded file's [retry.db_ops] table sets nothing but [max_attempts],
    the database operations get the initial delay 100 ms, the maximum
    delay 5000 ms and the factor 2 of the file operations; only when the
    table is absent do they keep 50 ms, 2000 ms and 1.5. *)
Theorem db_ops_table_defaults doc c :
  decode_document doc = inl c ->
  Forall (fun kv => kv.1 = "max_attempts") (table (entries doc) ["retry"; "db_ops"]) ->
  db_ops (retry c) = if bool_decide (["retry"; "db_ops"] ∈ tables doc)
                     then mk_retry (max_attempts (db_ops (retry c))) 100 5000 2
                     else db_ops default_retry.
Proof.
  intros H Ht. apply decode_document_db_ops in H.
  destruct (bool_decide _).
  - exact (decode_retry_settings_only_attempts _ _ _ Ht H).
  - injection H as <-. reflexivity.
Qed.

(** ** Witnesses and examples *)

Definition partial_db_ops_toml : string := "[retry.db_ops]
max_attempts = 10
".

Definition partial_db_ops_doc : Document :=
  {| tables := [["retry"; "db_ops"]]; entries := [(["retry"; "db_ops"], "max_attempts", TInt 10)] |}.

Definition partial_db_ops_config : Config :=
  match decode_document partial_db_ops_doc with inl c => c | inr _ => default_config end.

Lemma db_ops_table_defaults_witness : db_ops (retry partial_db_ops_config) = mk_retry 10 100 5000 2.
Proof.
  rewrite (db_ops_table_defaults partial_db_ops_doc partial_db_ops_config);
    [vm_compute; reflexivity | vm_compute; reflexivity | repeat constructor].
Defined.

Definition model_window_of (r : Config + string) (m : string) : option N :=
  match r with inl c => model_windows (context c) !! m | inr _ => None end.

(** The decoder's paths: the empty file is the default; a value of the
    wrong type and a duplicate key are errors; the model-window table
    accepts bare and quoted keys; an empty [retry.db_ops] table resets the
    database retry settings. *)
Example toml_cases :
  parse_toml partial_db_ops_toml = inl partial_db_ops_doc /\
  decode_config "" = inl default_config /\
  decode_config "[display]
theme = 5" = inr "invalid type for key theme" /\
  decode_config "[git]
timeout_ms = 1
timeout_ms = 2" = inr "duplicate key" /\
  model_window_of (decode_config "[context.model_windows]
haiku = 100_000") "haiku" = Some 100000%N /\
  model_window_of (decode_config ("[context.model_windows]
" +:+ String dquote "Claude 3 Haiku" +:+ String dquote " = 100000")) "Claude 3 Haiku" = Some 100000%N /\
  (fun r => match r with inl c => Some (db_ops (retry c)) | inr _ => None end)
    (decode_config "[retry.db_ops]") = Some default_retry_settings.
Proof. vm_compute. repeat split. Qed.

(** [Config::load] with the example file at STATUSLINE_CONFIG: the
    environment's file search, reading and the decoder together. *)
Example load_example_file :
  load (env_of [("STATUSLINE_CONFIG", "/c.toml")]) None None (fun _ => true) (fun _ => inl example_toml)
    decode_config = Ok (with_retention default_config (Some 90%N) (Some 365%N) (Some 0%N)).
Proof. vm_compute. reflexivity. Qed.

End ConfigToml.
