(* ===== verification/ConfigSave.v ===== *)
(** * ConfigSave: writing the configuration file (config.rs, Config::save)

    [Config::save] serialises the configuration with
    [toml::to_string_pretty], creates the parent directory of the target
    with [fs::create_dir_all] and writes the text with [fs::write]; each
    failure is a [StatuslineError::Config] whose message names the step.

    The file system is an interface, the class [ConfigFileSystem]: the
    three operations [save] and [Config::load_from_file] use, over a state
    [S] the operations thread.  Its laws ([ConfigFileSystemLaws]) are what
    [save]'s theorems need: a successful write is read back, and creating
    directories leaves every file as it was.  [MemFs], a file system of
    stdpp maps (files as a [gmap] of contents, directories as a [gset]),
    is an instance that discharges the laws.  The serialiser is a
    parameter of [save].  [Path::parent] is [path_parent].

    Theorems: a successful save leaves the serialised text at the path;
    a failed save says which step failed, and a failed serialisation or
    directory creation leaves the file unchanged ([save_outcome]); so
    saving and then loading gives back the saved configuration whenever
    the decoder reads back what the serialiser wrote. *)

From S2P Require Import Prelude Config Environment ConfigToml.
From Stdlib Require Import Ascii.
Close Scope Q_scope.

Module ConfigSave.
Import Config Environment ConfigToml.

(** ** [Path::parent] *)

Fixpoint drop_trailing_slashes_rev (l : list ascii) : list ascii :=
  match l with
  | c :: rest => if (c =? "/")%char then drop_trailing_slashes_rev rest else l
  | [] => []
  end.

(** The characters before the last '/', if any (on the reversed text). *)
Fixpoint before_last_slash_rev (l : list ascii) : option (list ascii) :=
  match l with
  | c :: rest => if (c =? "/")%char then Some rest else before_last_slash_rev rest
  | [] => None
  end.

(** [path.parent()]: [None] for the empty path and the root, [""] for a
    single relative component; trailing and repeated separators are
    ignored ("." components are not normalised). *)
Definition path_parent (path : string) : option string :=
  let body := drop_trailing_slashes_rev (rev (String.list_ascii_of_string path)) in
  match body with
  | [] => None
  | _ =>
      match before_last_slash_rev body with
      | None => Some ""
      | Some pre =>
          match drop_trailing_slashes_rev pre with
          | [] => Some "/"
          | pre' => Some (String.string_of_list_ascii (rev pre'))
          end
      end
  end.

(** ** The file-system interface *)

Class ConfigFileSystem (S : Type) := {
  fs_read_to_string : S -> string -> string + string;
  fs_create_dir_all : S -> string -> (unit + string) * S;
  fs_write : S -> string -> string -> (unit + string) * S
}.

Class ConfigFileSystemLaws (S : Type) `{ConfigFileSystem S} := {
  write_read s p contents s' :
    fs_write s p contents = (inl tt, s') -> fs_read_to_string s' p = inl contents;
  create_dir_all_files s d r s' :
    fs_create_dir_all s d = (r, s') -> forall p, fs_read_to_string s' p = fs_read_to_string s p
}.

(** ** [Config::save] *)

Section Save.
Context {S : Type} `{ConfigFileSystem S}.

Definition save (to_string_pretty : Config -> string + string) (config : Config) (path : string) (s : S)
    : result unit * S :=
  match to_string_pretty config with
  | inr e => (Err (ConfigError ("Failed to serialize config: " +:+ e)), s)
  | inl toml_string =>
      let '(r, s1) :=
        match path_parent path with
        | Some parent =>
            match fs_create_dir_all s parent with
            | (inr e, s1) => (Err (ConfigError ("Failed to create config directory: " +:+ e)), s1)
            | (inl _, s1) => (Ok tt, s1)
            end
        | None => (Ok tt, s)
        end in
      match r with
      | Err e => (Err e, s1)
      | Ok _ =>
          match fs_write s1 path toml_string with
          | (inr e, s2) => (Err (ConfigError ("Failed to write config file: " +:+ e)), s2)
          | (inl _, s2) => (Ok tt, s2)
          end
      end
  end.

End Save.

(** ** A file system of finite maps *)

Record MemFs := { mem_files : gmap string string; mem_dirs : gset string }.

Definition dir_exists (s : MemFs) (d : string) : bool :=
  String.eqb d "" || String.eqb d "/" || bool_decide (d ∈ mem_dirs s).

(** The directory and its ancestors, up to the root. *)
Fixpoint ancestors (fuel : nat) (d : string) : list string :=
  match fuel with
  | O => []
  | S f => d :: match path_parent d with Some p => ancestors f p | None => [] end
  end.

#[export] Instance mem_fs : ConfigFileSystem MemFs := {|
  fs_read_to_string s p :=
    match mem_files s !! p with
    | Some c => inl c
    | None => inr "No such file or directory (os error 2)"
    end;
  fs_create_dir_all s d :=
    let ds := ancestors (String.length d) d in
    if existsb (fun a => bool_decide (a ∈ dom (mem_files s))) ds then (inr "File exists (os error 17)", s)
    else (inl tt, {| mem_files := mem_files s; mem_dirs := list_to_set ds ∪ mem_dirs s |});
  fs_write s p c :=
    if bool_decide (p ∈ mem_dirs s) then (inr "Is a directory (os error 21)", s)
    else match path_parent p with
         | Some parent =>
             if dir_exists s parent
             then (inl tt, {| mem_files := <[p := c]> (mem_files s); mem_dirs := mem_dirs s |})
             else (inr "No such file or directory (os error 2)", s)
         | None => (inr "Is a directory (os error 21)", s)
         end
|}.

(** ** Lemmas *)

#[export] Instance mem_fs_laws : ConfigFileSystemLaws MemFs.
Proof.
  split.
  - intros s p c s' Hw. cbn in *. destruct (bool_decide _); [discriminate|].
    destruct (path_parent p); [|discriminate]. destruct (dir_exists s _); [|discriminate].
    injection Hw as <-. cbn. rewrite lookup_insert_eq. reflexivity.
  - intros s d r s' Hc p. cbn in *. destruct (existsb _ _); injection Hc as <- <-; reflexivity.
Qed.

Section SaveLemmas.
Context {S : Type} `{ConfigFileSystemLaws S}.

(** The three outcomes of [save], by the step that decided it. *)
Lemma save_cases to_string_pretty config path s :
  (exists e, to_string_pretty config = inr e /\
     save to_string_pretty config path s = (Err (ConfigError ("Failed to serialize config: " +:+ e)), s)) \/
  (exists t parent e s1, to_string_pretty config = inl t /\ path_parent path = Some parent /\
     fs_create_dir_all s parent = (inr e, s1) /\
     save to_string_pretty config path s = (Err (ConfigError ("Failed to create config directory: " +:+ e)), s1)) \/
  (exists t s1, to_string_pretty config = inl t /\
     (forall p, fs_read_to_string s1 p = fs_read_to_string s p) /\
     save to_string_pretty config path s =
       match fs_write s1 path t with
       | (inr e, s2) => (Err (ConfigError ("Failed to write config file: " +:+ e)), s2)
       | (inl _, s2) => (Ok tt, s2)
       end).
Proof.
  unfold save. destruct (to_string_pretty config) as [t|e]; [|left; eauto].
  right. destruct (path_parent path) as [parent|].
  - destruct (fs_create_dir_all s parent) as [[[]|e] s1] eqn:Ec.
    + right. exists t, s1. split; [reflexivity|]. split; [exact (create_dir_all_files _ _ _ _ Ec)|reflexivity].
    + left. exists t, parent, e, s1. auto.
  - right. exists t, s. auto.
Qed.

(** A failed save names its step; when serialisation or directory
    creation fails, the file at the target path is as it was. *)
Lemma save_error to_string_pretty config path s e s' :
  save to_string_pretty config path s = (Err e, s') ->
  ((exists m, e = ConfigError ("Failed to serialize config: " +:+ m)) \/
   (exists m, e = ConfigError ("Failed to create config directory: " +:+ m))) /\
  fs_read_to_string s' path = fs_read_to_string s path \/
  (exists m, e = ConfigError ("Failed to write config file: " +:+ m)).
Proof.
  destruct (save_cases to_string_pretty config path s)
    as [(m & _ & Hs) | [(t & parent & m & s1 & _ & _ & Hc & Hs) | (t & s1 & _ & Hkeep & Hs)]];
    rewrite Hs; intros Hr.
  - injection Hr as <- <-. left. eauto.
  - injection Hr as <- <-. left. split; [eauto | exact (create_dir_all_files _ _ _ _ Hc path)].
  - destruct (fs_write s1 path t) as [[[]|m] s2]; [discriminate|]. injection Hr as <- _. right. eauto.
Qed.

(** ** Theorems *)

(** Saving then loading gives the configuration back whenever the
    decoder reads back what the serialiser writes: the round trip of
    [test_save_and_load_config]. *)
Theorem save_then_load to_string_pretty toml_from_str config path s s' :
  (forall t, to_string_pretty config = inl t -> toml_from_str t = inl config) ->
  save to_string_pretty config path s = (Ok tt, s') ->
  load_from_file (fs_read_to_string s') toml_from_str path = Ok config.
Proof.
  intros Hrt Hsave.
  destruct (save_cases to_string_pretty config path s)
    as [(m & _ & Hs) | [(t & parent & m & s1 & _ & _ & _ & Hs) | (t & s1 & Ht & _ & Hs)]];
    rewrite Hs in Hsave; try discriminate.
  destruct (fs_write s1 path t) as [[[]|m] s2] eqn:Ew; [|discriminate]. injection Hsave as <-.
  unfold load_from_file. rewrite (write_read _ _ _ _ Ew), (Hrt t Ht). reflexivity.
Qed.

(** C23: the outcome of [Config::save].  On any file system obeying the
    interface's laws: a successful save leaves at the path exactly the
    text [toml::to_string_pretty] produced; a failed serialisation
    returns "Failed to serialize config: ..." and touches nothing; a
    failed directory creation returns "Failed to create config
    directory: ..." and leaves the file at the path as it was; otherwise
    the error is "Failed to write config file: ...". *)
Theorem save_outcome to_string_pretty config path s r s' :
  save to_string_pretty config path s = (r, s') ->
  match r with
  | Ok _ => exists t, to_string_pretty config = inl t /\ fs_read_to_string s' path = inl t
  | Err e =>
      (exists m, to_string_pretty config = inr m /\
                 e = ConfigError ("Failed to serialize config: " +:+ m) /\ s' = s) \/
      ((exists m, e = ConfigError ("Failed to create config directory: " +:+ m)) /\
       fs_read_to_string s' path = fs_read_to_string s path) \/
      (exists m, e = ConfigError ("Failed to write config file: " +:+ m))
  end.
Proof.
  destruct (save_cases to_string_pretty config path s)
    as [(m & Ht & Hs) | [(t & parent & m & s1 & _ & _ & Hc & Hs) | (t & s1 & Ht & _ & Hs)]];
    rewrite Hs; intros Hr.
  - injection Hr as <- <-. left. eauto.
  - injection Hr as <- <-. right. left. split; [eauto | exact (create_dir_all_files _ _ _ _ Hc path)].
  - destruct (fs_write s1 path t) as [[[]|m] s2] eqn:Ew; injection Hr as <- <-.
    + exists t. split; [exact Ht | exact (write_read _ _ _ _ Ew)].
    + right. right. eauto.
Qed.

End SaveLemmas.

(** ** Witness and examples *)

Definition empty_fs : MemFs := {| mem_files := ∅; mem_dirs := ∅ |}.

Definition example_config : Config := with_retention default_config (Some 90%N) (Some 365%N) (Some 0%N).

Definition example_path : string := "/home/u/.config/claudia-statusline/config.toml".

(** Saving with a serialiser that prints the example file and loading with
    the decoder of ConfigToml. *)
Lemma save_then_load_witness :
  load_from_file (fs_read_to_string (save (fun _ => inl example_toml) example_config example_path empty_fs).2)
    decode_config example_path = Ok example_config.
Proof.
  apply (save_then_load (fun _ => inl example_toml) decode_config example_config example_path empty_fs).
  - intros t [= <-]. vm_compute. reflexivity.
  - vm_compute. reflexivity.
Defined.

Lemma save_outcome_witness :
  exists t, (fun _ : Config => inl example_toml : string + string) example_config = inl t /\
    fs_read_to_string (save (fun _ => inl example_toml) example_config example_path empty_fs).2 example_path = inl t.
Proof.
  apply (save_outcome (S:=MemFs) (fun _ => inl example_toml) example_config example_path empty_fs (Ok tt)
           (save (fun _ => inl example_toml) example_config example_path empty_fs).2).
  vm_compute. reflexivity.
Defined.

Example save_cases_examples :
  path_parent "/home/u/c.toml" = Some "/home/u" /\ path_parent "c.toml" = Some "" /\
  path_parent "/c.toml" = Some "/" /\ path_parent "/" = None /\ path_parent "a//b/" = Some "a" /\
  (save (fun _ => inr "unsupported value") default_config example_path empty_fs).1 =
    Err (ConfigError "Failed to serialize config: unsupported value") /\
  (save (fun _ => inl "x") default_config "/etc/c.toml"
     {| mem_files := {[ "/etc" := "" ]}; mem_dirs := ∅ |}).1 =
    Err (ConfigError "Failed to create config directory: File exists (os error 17)") /\
  (save (fun _ => inl "x") default_config "/etc" {| mem_files := ∅; mem_dirs := {[ "/etc" ]} |}).1 =
    Err (ConfigError "Failed to write config file: Is a directory (os error 21)").
Proof. vm_compute. repeat split. Qed.

End ConfigSave.
