(* ===== verification/DeviceId.v ===== *)
(** * DeviceId: the device identifier (common.rs, get_device_id)

    [get_device_id] hashes "hostname|username" with SHA-256 and prints
    the first eight bytes of the digest, read as a big-endian u64, with
    [{:016x}].  The host name ([hostname::get] then [into_string]) and
    SHA-256 are section variables; the fallbacks ("unknown-host", USER
    then USERNAME then "unknown-user"), the separator, the big-endian
    reading of the prefix and the hexadecimal formatting are modelled.

    [{:x}] prints the digits of a u64 from the least significant one,
    stopping when the rest is below 16 ([hex_digits], at most 16 digits,
    so the fuel 16 is enough for every u64); [{:016x}] pads on the left
    with '0' to 16 characters.

    Theorems: the identifier is always 16 lowercase hexadecimal digits
    and decoding it gives back the first eight bytes of the digest (so
    the identifier determines them); the hashed input separates host and
    user only when the host name contains no '|'. *)

From S2P Require Import Prelude Environment.
From Stdlib Require Import Ascii.
Close Scope Q_scope.

Module DeviceId.
Import Environment.

(** ** [u64::from_be_bytes] and its inverse *)

Definition be_combine (bs : list N) : N := fold_left (fun acc b => acc * 256 + b)%N bs 0%N.

(** The [k] bytes of [n], most significant first. *)
Fixpoint be_split (k : nat) (n : N) : list N :=
  match k with
  | O => []
  | S k' => be_split k' (n / 256) ++ [n mod 256]
  end%N.

(** ** [{:016x}] *)

Definition hex_digit (d : N) : ascii :=
  if (d <? 10)%N then ascii_of_N (48 + d) else ascii_of_N (87 + d).

(** The digits [{:x}] prints, least significant first. *)
Fixpoint hex_digits (fuel : nat) (n : N) : list N :=
  match fuel with
  | O => []
  | S f => (n mod 16)%N :: (if (n <? 16)%N then [] else hex_digits f (n / 16))
  end.

Definition string_of_digits (ds : list N) : string :=
  String.string_of_list_ascii (map hex_digit (rev ds)).

(** [format!("{:x}", n)] for a u64 [n]. *)
Definition hex_lower (n : N) : string := string_of_digits (hex_digits 16 n).

(** Right-aligned in [width] characters, filled with [c]. *)
Definition pad_left (width : nat) (c : ascii) (s : string) : string :=
  (String.string_of_list_ascii (repeat c (width - String.length s)) +:+ s)%string.

(** [format!("{:016x}", n)]. *)
Definition format_016x (n : N) : string := pad_left 16 "0" (hex_lower n).

(** ** [get_device_id] *)

Definition string_bytes (s : string) : list N := map N_of_ascii (String.list_ascii_of_string s).

Section WithSystem.
Context (hostname : option string) (var : string -> option string)
        (sha256 : list N -> list N).

Definition device_hostname : string := default "unknown-host" hostname.

Definition device_username : string :=
  match var "USER" with
  | Some u => u
  | None => match var "USERNAME" with Some u => u | None => "unknown-user" end
  end.

(** The bytes the hasher is fed: host name, '|', user name. *)
Definition device_id_input : list N :=
  string_bytes device_hostname ++ [124%N] ++ string_bytes device_username.

Definition get_device_id : string :=
  format_016x (be_combine (take 8 (sha256 device_id_input))).

End WithSystem.

(** ** Reading an identifier back *)

Definition hex_value (c : ascii) : option N :=
  let n := N_of_ascii c in
  if (48 <=? n)%N && (n <=? 57)%N then Some (n - 48)%N
  else if (97 <=? n)%N && (n <=? 102)%N then Some (n - 87)%N
  else None.

Fixpoint parse_hex_from (acc : N) (s : string) : option N :=
  match s with
  | EmptyString => Some acc
  | String c rest => d ← hex_value c; parse_hex_from (acc * 16 + d)%N rest
  end.

Definition decode_device_id (id : string) : option (list N) :=
  n ← parse_hex_from 0 id; Some (be_split 8 n).

Definition is_lower_hex (c : ascii) : bool := match hex_value c with Some _ => true | None => false end.

(** ** Lemmas *)

(** The value of a digit list, least significant digit first. *)
Definition value_le (ds : list N) : N := fold_right (fun d acc => d + 16 * acc)%N 0%N ds.

Lemma hex_digits_lt f n : Forall (fun d => d < 16)%N (hex_digits f n).
Proof.
  revert n. induction f as [|f IH]; intros n; simpl; [constructor|].
  constructor; [apply N.mod_lt; discriminate|]. destruct (n <? 16)%N; [constructor | apply IH].
Qed.

Lemma hex_digits_length f n : length (hex_digits f n) <= f.
Proof.
  revert n. induction f as [|f IH]; intros n; simpl; [lia|].
  destruct (n <? 16)%N; simpl; [lia|]. specialize (IH (n / 16)%N). lia.
Qed.

(** Fuel [f] is enough for every number below [16 ^ f]. *)
Lemma hex_digits_value f n : (n < 16 ^ N.of_nat f)%N -> value_le (hex_digits f n) = n.
Proof.
  revert n. induction f as [|f IH]; intros n Hn; simpl.
  - simpl in Hn. lia.
  - destruct (N.ltb_spec n 16) as [H16|H16]; simpl.
    + rewrite N.mod_small by exact H16. lia.
    + rewrite IH.
      * pose proof (N.div_mod n 16 ltac:(discriminate)). lia.
      * rewrite Nat2N.inj_succ, N.pow_succ_r' in Hn. apply N.Div0.div_lt_upper_bound. lia.
Qed.

Lemma hex_value_digit d : (d < 16)%N -> hex_value (hex_digit d) = Some d.
Proof.
  intros Hd. unfold hex_digit, hex_value.
  destruct (N.ltb_spec d 10); rewrite N_ascii_embedding by lia; ltb_cases;
    repeat (match goal with |- context [(?a <=? ?b)%N] => destruct (N.leb_spec a b) end; simpl);
    try lia; f_equal; lia.
Qed.

Lemma parse_hex_from_digits acc ds :
  Forall (fun d => d < 16)%N ds ->
  parse_hex_from acc (String.string_of_list_ascii (map hex_digit ds)) =
  Some (fold_left (fun a d => a * 16 + d)%N ds acc).
Proof.
  intros Hds. revert acc. induction Hds as [|d ds Hd _ IH]; intros acc; [reflexivity|].
  simpl. rewrite hex_value_digit by exact Hd. apply IH.
Qed.

Lemma fold_left_rev_value ds :
  fold_left (fun a d => a * 16 + d)%N (rev ds) 0%N = value_le ds.
Proof.
  cut (forall acc, fold_left (fun a d => a * 16 + d)%N (rev ds) acc = acc * 16 ^ N.of_nat (length ds) + value_le ds)%N.
  { intros H. rewrite H. lia. }
  induction ds as [|d ds IH]; intros acc; simpl; [lia|].
  rewrite fold_left_app, IH. simpl. rewrite Nat2N.inj_succ, N.pow_succ_r'. lia.
Qed.

Lemma parse_hex_from_app acc a b :
  parse_hex_from acc (a +:+ b) = parse_hex_from acc a ≫= (fun acc' => parse_hex_from acc' b).
Proof.
  revert acc. induction a as [|c a IH]; intros acc; simpl; [reflexivity|].
  destruct (hex_value c); simpl; [apply IH | reflexivity].
Qed.

Lemma parse_hex_zeros k : parse_hex_from 0 (String.string_of_list_ascii (repeat "0"%char k)) = Some 0%N.
Proof. induction k as [|k IH]; simpl; [reflexivity | exact IH]. Qed.

(** [{:016x}] of a u64: 16 characters, each a lowercase hex digit, and
    reading them back gives the number. *)
Lemma format_016x_spec n :
  (n < 2 ^ 64)%N ->
  String.length (format_016x n) = 16 /\
  Forall (fun c => is_lower_hex c = true) (String.list_ascii_of_string (format_016x n)) /\
  parse_hex_from 0 (format_016x n) = Some n.
Proof.
  intros Hn. pose proof (hex_digits_lt 16 n) as Hlt. pose proof (hex_digits_length 16 n) as Hlen.
  pose proof (hex_digits_value 16 n Hn) as Hval.
  unfold format_016x, pad_left, hex_lower, string_of_digits.
  generalize dependent (hex_digits 16 n). intros ds Hlt Hlen Hval.
  rewrite string_length_of_list_ascii, length_map, length_rev.
  repeat split.
  - rewrite string_length_app, !string_length_of_list_ascii, repeat_length, length_map, length_rev. lia.
  - rewrite list_ascii_of_string_app, !String.list_ascii_of_string_of_list_ascii. apply Forall_app. split.
    + apply Forall_forall. intros c Hc. apply list_elem_of_In, repeat_spec in Hc as ->. reflexivity.
    + apply Forall_map. apply Forall_rev. eapply Forall_impl; [exact Hlt|].
      intros d Hd. unfold is_lower_hex. rewrite hex_value_digit by exact Hd. reflexivity.
  - rewrite parse_hex_from_app, parse_hex_zeros. cbn [mbind option_bind].
    rewrite parse_hex_from_digits by (apply Forall_rev; exact Hlt).
    rewrite fold_left_rev_value, Hval. reflexivity.
Qed.

Lemma be_combine_snoc bs b : be_combine (bs ++ [b]) = (be_combine bs * 256 + b)%N.
Proof. unfold be_combine. rewrite fold_left_app. reflexivity. Qed.

(** Reading bytes as a big-endian number and splitting it back. *)
Lemma be_combine_split bs :
  Forall (fun b => b < 256)%N bs ->
  (be_combine bs < 256 ^ N.of_nat (length bs))%N /\ be_split (length bs) (be_combine bs) = bs.
Proof.
  induction bs as [|b bs IH] using rev_ind; intros Hbs; [split; reflexivity|].
  apply Forall_app in Hbs as [Hbs Hb]. rewrite Forall_singleton in Hb.
  destruct (IH Hbs) as [Hlt Hsplit].
  rewrite be_combine_snoc, length_app, Nat.add_1_r. simpl be_split.
  rewrite Nat2N.inj_succ, N.pow_succ_r'. split; [nia|].
  replace ((be_combine bs * 256 + b) / 256)%N with (be_combine bs)
    by (apply N.div_unique with b; lia).
  replace ((be_combine bs * 256 + b) mod 256)%N with b
    by (apply N.mod_unique with (be_combine bs); lia).
  rewrite Hsplit. reflexivity.
Qed.

Lemma decode_format_016x n : (n < 2 ^ 64)%N -> decode_device_id (format_016x n) = Some (be_split 8 n).
Proof. intros Hn. unfold decode_device_id. destruct (format_016x_spec n Hn) as (_ & _ & ->). reflexivity. Qed.

Lemma string_bytes_lt s : Forall (fun b => b < 256)%N (string_bytes s).
Proof. apply Forall_map, Forall_forall. intros c _. apply N_ascii_bounded. Qed.

(** The separator byte splits the hashed input back into host and user
    when the host name has no '|'. *)
Lemma device_id_input_injective h1 v1 h2 v2 :
  124%N ∉ string_bytes (device_hostname h1) -> 124%N ∉ string_bytes (device_hostname h2) ->
  device_id_input h1 v1 = device_id_input h2 v2 ->
  string_bytes (device_hostname h1) = string_bytes (device_hostname h2) /\
  string_bytes (device_username v1) = string_bytes (device_username v2).
Proof.
  unfold device_id_input. generalize (string_bytes (device_hostname h1)) (string_bytes (device_hostname h2)).
  intros a. induction a as [|x a IH]; intros [|y b] Ha Hb E; simpl in E.
  - inversion E. auto.
  - inversion E; subst. set_solver.
  - inversion E; subst. set_solver.
  - inversion E; subst. destruct (IH b) as [-> ->]; [set_solver | set_solver | exact H1 | auto].
Qed.

(** ** Theorems *)

(** C10: the device identifier is well formed.  For any host name and
    environment, and any hash returning 32 bytes, [get_device_id] is 16
    characters long, every character is a lowercase hexadecimal digit,
    and decoding it gives back the first eight bytes of the digest of
    "hostname|username", most significant first: [{:016x}] loses nothing
    of the u64 [from_be_bytes] builds. *)
Theorem get_device_id_well_formed hostname var sha256 :
  (forall input, length (sha256 input) = 32 /\ Forall (fun b => b < 256)%N (sha256 input)) ->
  String.length (get_device_id hostname var sha256) = 16 /\
  Forall (fun c => is_lower_hex c = true) (String.list_ascii_of_string (get_device_id hostname var sha256)) /\
  decode_device_id (get_device_id hostname var sha256) = Some (take 8 (sha256 (device_id_input hostname var))).
Proof.
  intros Hsha. destruct (Hsha (device_id_input hostname var)) as [Hlen Hbytes].
  set (bs := take 8 (sha256 (device_id_input hostname var))).
  assert (Hbs : length bs = 8) by (subst bs; rewrite length_take; lia).
  destruct (be_combine_split bs) as [Hlt Hsplit]; [apply Forall_take, Hbytes|].
  rewrite Hbs in Hlt, Hsplit. unfold get_device_id. fold bs.
  destruct (format_016x_spec (be_combine bs)) as (Hl & Hx & _); [exact Hlt|].
  split; [exact Hl | split; [exact Hx|]]. rewrite decode_format_016x by exact Hlt. rewrite Hsplit. reflexivity.
Qed.

(** ** Witness and examples *)

(** A stand-in digest: 32 copies of the input length modulo 256. *)
Definition length_digest (input : list N) : list N := repeat (N.of_nat (length input) mod 256)%N 32.

Lemma length_digest_bytes input :
  length (length_digest input) = 32 /\ Forall (fun b => b < 256)%N (length_digest input).
Proof.
  split; [apply repeat_length|]. apply Forall_forall. intros b Hb.
  apply list_elem_of_In, repeat_spec in Hb as ->. apply N.mod_lt. discriminate.
Qed.

Lemma get_device_id_well_formed_witness :
  String.length (get_device_id (Some "host") (env_of [("USER", "u")]) length_digest) = 16 /\
  decode_device_id (get_device_id (Some "host") (env_of [("USER", "u")]) length_digest) =
    Some [6; 6; 6; 6; 6; 6; 6; 6]%N.
Proof.
  destruct (get_device_id_well_formed (Some "host") (env_of [("USER", "u")]) length_digest
              length_digest_bytes) as (Hl & _ & Hd).
  split; [exact Hl | rewrite Hd; reflexivity].
Defined.

Example device_id_cases :
  get_device_id (Some "host") (env_of [("USER", "u")]) length_digest = "0606060606060606" /\
  get_device_id None (env_of []) (fun _ => repeat 0%N 32) = "0000000000000000" /\
  device_username (env_of [("USERNAME", "w")]) = "w" /\
  device_id_input (Some "a|b") (env_of [("USER", "c")]) = device_id_input (Some "a") (env_of [("USER", "b|c")]).
Proof. vm_compute. repeat split. Qed.

End DeviceId.
