(* ===== verification/DateKeys.v ===== *)
(** * DateKeys: the date and month keys (common.rs, current_date and current_month)

    [current_date] prints the local date with chrono's ["%Y-%m-%d"] and
    [current_month] with ["%Y-%m"]; the statistics key their daily and
    monthly totals by these strings.  The clock is not modelled: the
    local date is the argument [today].  [%m] and [%d] print two digits,
    zero-padded; [%Y] prints a year of 0 to 9999 as four digits,
    zero-padded, and any other year with its sign first and at least four
    digits.

    [current_timestamp] is chrono's [to_rfc3339] of the local date and
    time: the date, 'T', the time, the fraction of [SecondsFormat::AutoSi]
    (none, or 3, 6 or 9 digits) and the offset as [+HH:MM]; a leap second
    (a nanosecond count of 10^9 or more) is printed as second 60.

    Theorems: for years 0 to 9999 the keys have the lengths the doc tests
    assert (10 and 7), the month key is a prefix of the date key, and
    comparing two keys as strings (Rust's byte-wise [Ord]) orders them as
    the dates they name; the date key is the first ten characters of the
    timestamp of the same instant. *)

From S2P Require Import Prelude.
From Stdlib Require Import Ascii DecimalString DecimalN.
Close Scope Q_scope.

Module DateKeys.

(** A calendar date as chrono's [NaiveDate] has it. *)
Record NaiveDate := { year : Z; month : N; day : N }.

Definition valid_date (d : NaiveDate) : bool :=
  (1 <=? month d)%N && (month d <=? 12)%N && (1 <=? day d)%N && (day d <=? 31)%N.

Definition digit_char (d : N) : ascii := ascii_of_N (48 + d).

(** The [w] least significant decimal digits of [n], most significant
    first: [{:0w}] for [n < 10 ^ w]. *)
Fixpoint fixed_digits (w : nat) (n : N) : string :=
  match w with
  | O => EmptyString
  | S w' => (fixed_digits w' (n / 10) +:+ String (digit_char (n mod 10)) EmptyString)%string
  end.

(** [format!("{}", n)]. *)
Definition dec_string (n : N) : string := NilEmpty.string_of_uint (N.to_uint n).

Definition pad_zeros (width : nat) (s : string) : string :=
  (String.string_of_list_ascii (repeat "0"%char (width - String.length s)) +:+ s)%string.

(** [%Y]. *)
Definition format_year (y : Z) : string :=
  if (0 <=? y)%Z && (y <=? 9999)%Z then fixed_digits 4 (Z.to_N y)
  else ((if (y <? 0)%Z then "-" else "+") +:+ pad_zeros 4 (dec_string (Z.abs_N y)))%string.

(** [%m] and [%d]. *)
Definition format_two (n : N) : string := fixed_digits 2 n.

(** [Local::now().format("%Y-%m-%d").to_string()]. *)
Definition current_date (today : NaiveDate) : string :=
  (format_year (year today) +:+ "-" +:+ format_two (month today) +:+ "-" +:+ format_two (day today))%string.

(** [Local::now().format("%Y-%m").to_string()]. *)
Definition current_month (today : NaiveDate) : string :=
  (format_year (year today) +:+ "-" +:+ format_two (month today))%string.

(** A local date and time as [DateTime<Local>] has it: the date, the
    time of day (a leap second is a nanosecond count of 10^9 or more),
    and the offset from UTC in minutes. *)
Record LocalDateTime := {
  date : NaiveDate;
  hour : N; minute : N; second : N; nanosecond : N;
  offset_minutes : Z
}.

(** The fraction of [SecondsFormat::AutoSi]: none, or 3, 6 or 9 digits,
    the fewest that show the nanoseconds exactly. *)
Definition format_autosi (nano : N) : string :=
  if (nano =? 0)%N then ""
  else if (nano mod 1000000 =? 0)%N then ("." +:+ fixed_digits 3 (nano / 1000000))%string
  else if (nano mod 1000 =? 0)%N then ("." +:+ fixed_digits 6 (nano / 1000))%string
  else ("." +:+ fixed_digits 9 nano)%string.

(** The offset as [+HH:MM] or [-HH:MM] ([+00:00] for UTC). *)
Definition format_offset (off : Z) : string :=
  ((if (off <? 0)%Z then "-" else "+") +:+ format_two (Z.abs_N off / 60) +:+ ":" +:+
   format_two (Z.abs_N off mod 60))%string.

(** [Local::now().to_rfc3339()]. *)
Definition current_timestamp (now : LocalDateTime) : string :=
  let '(sec, nano) := if (1000000000 <=? nanosecond now)%N
                      then ((second now + 1)%N, (nanosecond now - 1000000000)%N)
                      else (second now, nanosecond now) in
  (current_date (date now) +:+ "T" +:+ format_two (hour now) +:+ ":" +:+ format_two (minute now) +:+ ":" +:+
   format_two sec +:+ format_autosi nano +:+ format_offset (offset_minutes now))%string.

(** The order of dates: year, then month, then day. *)
Definition date_compare (d1 d2 : NaiveDate) : comparison :=
  match Z.compare (year d1) (year d2) with
  | Eq => match N.compare (month d1) (month d2) with Eq => N.compare (day d1) (day d2) | c => c end
  | c => c
  end.

Definition four_digit_year (d : NaiveDate) : bool := (0 <=? year d)%Z && (year d <=? 9999)%Z.

(** ** Lemmas *)

Lemma fixed_digits_length w n : String.length (fixed_digits w n) = w.
Proof.
  revert n. induction w as [|w IH]; intros n; simpl; [reflexivity|].
  rewrite string_length_app, IH. simpl. lia.
Qed.

Lemma digit_char_compare a b :
  (a < 10)%N -> (b < 10)%N -> Ascii.compare (digit_char a) (digit_char b) = N.compare a b.
Proof.
  intros Ha Hb. unfold Ascii.compare, digit_char. rewrite !N_ascii_embedding by lia.
  destruct (N.compare_spec a b); [apply N.compare_eq_iff | apply N.compare_lt_iff | apply N.compare_gt_iff]; lia.
Qed.

(** Comparing by quotient first, then by remainder, is comparing. *)
Lemma N_compare_divmod n m :
  N.compare n m =
  match N.compare (n / 10) (m / 10) with Eq => N.compare (n mod 10) (m mod 10) | c => c end%N.
Proof.
  divmod_as n 10%N qn rn. divmod_as m 10%N qm rm.
  destruct (N.compare_spec qn qm); [| apply N.compare_lt_iff | apply N.compare_gt_iff]; try lia.
  destruct (N.compare_spec rn rm); [apply N.compare_eq_iff | apply N.compare_lt_iff | apply N.compare_gt_iff]; lia.
Qed.

(** Zero-padded numbers of the same width compare as the numbers. *)
Lemma fixed_digits_compare w n m :
  (n < 10 ^ N.of_nat w)%N -> (m < 10 ^ N.of_nat w)%N ->
  String.compare (fixed_digits w n) (fixed_digits w m) = N.compare n m.
Proof.
  revert n m. induction w as [|w IH]; intros n m Hn Hm; simpl.
  - simpl in Hn, Hm. symmetry. apply N.compare_eq_iff. lia.
  - rewrite string_compare_app by (rewrite !fixed_digits_length; reflexivity).
    rewrite Nat2N.inj_succ, N.pow_succ_r' in Hn, Hm.
    rewrite IH by (apply N.Div0.div_lt_upper_bound; lia).
    rewrite (N_compare_divmod n m). destruct (N.compare (n / 10) (m / 10)); try reflexivity.
    simpl. rewrite digit_char_compare by (apply N.mod_lt; discriminate).
    destruct (N.compare (n mod 10) (m mod 10)); reflexivity.
Qed.

Lemma format_year_four y : (0 <= y <= 9999)%Z -> format_year y = fixed_digits 4 (Z.to_N y).
Proof.
  intros Hy. unfold format_year. destruct (Z.leb_spec 0 y), (Z.leb_spec y 9999); try lia. reflexivity.
Qed.

Lemma format_year_compare y1 y2 :
  (0 <= y1 <= 9999)%Z -> (0 <= y2 <= 9999)%Z ->
  String.compare (format_year y1) (format_year y2) = Z.compare y1 y2.
Proof.
  intros H1 H2. rewrite !format_year_four by lia.
  rewrite fixed_digits_compare by (simpl; lia).
  rewrite <- (Z2N.id y1), <- (Z2N.id y2) at 2 by lia. rewrite <- N2Z.inj_compare. reflexivity.
Qed.

Lemma four_digit_year_spec d : four_digit_year d = true <-> (0 <= year d <= 9999)%Z.
Proof. unfold four_digit_year. rewrite andb_true_iff, Z.leb_le, Z.leb_le. reflexivity. Qed.

Lemma valid_date_spec d :
  valid_date d = true <-> (1 <= month d <= 12)%N /\ (1 <= day d <= 31)%N.
Proof. unfold valid_date. rewrite !andb_true_iff, !N.leb_le. tauto. Qed.

Lemma dash_compare a b : String.compare ("-" +:+ a) ("-" +:+ b) = String.compare a b.
Proof. reflexivity. Qed.

Lemma format_two_compare n m :
  (n < 100)%N -> (m < 100)%N -> String.compare (format_two n) (format_two m) = N.compare n m.
Proof. intros Hn Hm. apply fixed_digits_compare; simpl; lia. Qed.

Lemma prefix_app a b : String.prefix a (a +:+ b) = true.
Proof.
  induction a as [|c a IH]; simpl; [destruct b; reflexivity|].
  destruct (ascii_dec c c) as [_|]; [exact IH | congruence].
Qed.

Lemma prefix_app_l c a b : String.prefix a b = true -> String.prefix (c +:+ a) (c +:+ b) = true.
Proof.
  intros H. induction c as [|x c IH]; simpl; [exact H|].
  destruct (ascii_dec x x) as [_|]; [exact IH | congruence].
Qed.

Lemma current_month_prefix d : String.prefix (current_month d) (current_date d) = true.
Proof.
  unfold current_month, current_date. apply (prefix_app_l _ (String "-" _)), (prefix_app_l "-"), prefix_app.
Qed.

Lemma date_keys_length d :
  four_digit_year d = true ->
  String.length (current_date d) = 10 /\ String.length (current_month d) = 7.
Proof.
  rewrite four_digit_year_spec. intros Hy. unfold current_date, current_month, format_two.
  rewrite format_year_four by exact Hy. autorewrite with statusline_rw. rewrite !fixed_digits_length.
  split; reflexivity.
Qed.

(** The daily key is the first ten characters of the timestamp of the
    same instant. *)
Lemma current_date_prefix_timestamp now : String.prefix (current_date (date now)) (current_timestamp now) = true.
Proof. unfold current_timestamp. destruct (_ <=? _)%N; apply prefix_app. Qed.

(** Month keys compare as (year, month). *)
Lemma current_month_order d1 d2 :
  four_digit_year d1 = true -> four_digit_year d2 = true ->
  (month d1 < 100)%N -> (month d2 < 100)%N ->
  String.compare (current_month d1) (current_month d2) =
  match Z.compare (year d1) (year d2) with Eq => N.compare (month d1) (month d2) | c => c end.
Proof.
  rewrite !four_digit_year_spec. intros Y1 Y2 M1 M2. unfold current_month.
  rewrite string_compare_app by (rewrite !format_year_four by lia; rewrite !fixed_digits_length; reflexivity).
  rewrite format_year_compare, dash_compare, format_two_compare by assumption. reflexivity.
Qed.

(** ** Theorems *)

(** C11: the daily key orders as the dates.  For two valid dates whose
    years have four digits, comparing the strings [current_date] prints,
    byte by byte, gives the order of the dates: year first, then month,
    then day.  Sorting the daily totals by key sorts them by date. *)
Theorem current_date_order d1 d2 :
  four_digit_year d1 = true -> four_digit_year d2 = true ->
  valid_date d1 = true -> valid_date d2 = true ->
  String.compare (current_date d1) (current_date d2) = date_compare d1 d2.
Proof.
  rewrite !four_digit_year_spec, !valid_date_spec. intros Y1 Y2 [M1 D1] [M2 D2].
  unfold current_date, date_compare.
  rewrite string_compare_app by (rewrite !format_year_four by lia; rewrite !fixed_digits_length; reflexivity).
  rewrite format_year_compare, dash_compare by assumption. destruct (Z.compare _ _); try reflexivity.
  rewrite string_compare_app by (unfold format_two; rewrite !fixed_digits_length; reflexivity).
  rewrite format_two_compare, dash_compare, format_two_compare by lia. reflexivity.
Qed.

(** ** Witness and examples *)

Lemma current_date_order_witness :
  String.compare (current_date {| year := 2025; month := 9; day := 30 |})
                 (current_date {| year := 2025; month := 10; day := 1 |}) = Lt.
Proof. rewrite current_date_order; reflexivity. Defined.

Example date_keys_cases :
  current_date {| year := 2025; month := 1; day := 5 |} = "2025-01-05" /\
  current_month {| year := 987; month := 12; day := 31 |} = "0987-12" /\
  current_date {| year := 10000; month := 1; day := 1 |} = "+10000-01-01" /\
  String.compare (current_date {| year := 10000; month := 1; day := 1 |})
                 (current_date {| year := 9999; month := 12; day := 31 |}) = Lt.
Proof. vm_compute. repeat split. Qed.

Example timestamp_cases :
  current_timestamp {| date := {| year := 2025; month := 3; day := 7 |}; hour := 9; minute := 5; second := 2;
                       nanosecond := 0; offset_minutes := 60 |} = "2025-03-07T09:05:02+01:00" /\
  current_timestamp {| date := {| year := 2025; month := 3; day := 7 |}; hour := 23; minute := 59; second := 59;
                       nanosecond := 1250000000; offset_minutes := -330 |} = "2025-03-07T23:59:60.250-05:30" /\
  current_timestamp {| date := {| year := 2025; month := 3; day := 7 |}; hour := 0; minute := 0; second := 0;
                       nanosecond := 1500; offset_minutes := 0 |} = "2025-03-07T00:00:00.000001500+00:00".
Proof. vm_compute. repeat split. Qed.

End DateKeys.
