(* ===== verification/Compaction.v ===== *)
(** * Compaction: the compaction detector (utils.rs, detect_compaction_state)

    [detect_compaction_state] classifies the transcript as [Normal],
    [InProgress] or [RecentlyCompleted] from four observations: the hook
    state file of the session (state.rs, read through [read_state], which
    already discards stale files), the session's high-water mark of tokens
    in the stats database, the current token total, and whether the
    transcript was modified less than 10 seconds ago.  The observations
    are the fields of an [Env] record, so the detector is a function.

    The theorems give its complete behaviour ([detect_compaction_state_spec]:
    it equals the three-rule classifier of the specification), the integer
    form of the 50% drop test, and the fact that the code's third branch
    ("file modified, drop not yet visible") can never be taken. *)

From S2P Require Import Prelude.
Close Scope Q_scope.

Module Detector.

(** [CompactionState] (models.rs). *)
Inductive CompactionState := Normal | InProgress | RecentlyCompleted.

#[export] Instance CompactionState_eq_dec : EqDecision CompactionState.
Proof. solve_decision. Defined.

(** The hook state file of a session (state.rs). *)
Record HookState := { hook_state : string; hook_trigger : string }.

(** What the detector reads from the outside world. *)
Record Env := {
  (** [crate::state::read_state sid]: [None] when absent or stale. *)
  read_state : string -> option HookState;
  (** [SqliteDatabase::new(&db_path)] and then [get_session_max_tokens]. *)
  open_db : result (string -> option N);
  (** Seconds since the transcript's modification time, when
      [validate_transcript_file], [metadata], [modified] and
      [duration_since] all succeed. *)
  modified_elapsed_secs : string -> option N
}.

(** Phase 1: a fresh hook file reporting "compacting". *)
Definition hook_reports_compacting (env : Env) (session_id : option string) : bool :=
  match session_id with
  | Some sid =>
      match read_state env sid with
      | Some hs => String.eqb (hook_state hs) "compacting"
      | None => false
      end
  | None => false
  end.

(** The session's last known (maximum) token count. *)
Definition last_known_tokens (env : Env) (session_id : option string) : option N :=
  match session_id with
  | Some sid => match open_db env with Ok db => db sid | Err _ => None end
  | None => None
  end.

(** Modified in the last 10 seconds. *)
Definition recently_modified (env : Env) (transcript_path : string) : bool :=
  match modified_elapsed_secs env transcript_path with
  | Some secs => (secs <? 10)%N
  | None => false
  end.

(** [last_tokens.saturating_sub(current) as f64 / last_tokens as f64],
    or [0.0] when [last_tokens] is 0. *)
Definition token_drop_ratio (last_tokens current_tokens : N) : Q :=
  if decide (last_tokens = 0%N) then 0%Q
  else (inject_Z (Z.of_N (last_tokens - current_tokens)) / inject_Z (Z.of_N last_tokens))%Q.

(** The decision on the token history (utils.rs, lines 439-482). *)
Definition classify_history (last_known : option N) (current_tokens : N)
    (recent : bool) : CompactionState :=
  match last_known with
  | Some last_tokens =>
      if Qltb (1 # 2) (token_drop_ratio last_tokens current_tokens) then
        (if recent then InProgress else RecentlyCompleted)
      else if recent && (current_tokens * 2 <? last_tokens)%N then InProgress
      else Normal
  | None => Normal
  end.

Definition detect_compaction_state (env : Env) (transcript_path : string)
    (current_tokens : N) (session_id : option string) : CompactionState :=
  if hook_reports_compacting env session_id then InProgress
  else classify_history (last_known_tokens env session_id) current_tokens
         (recently_modified env transcript_path).

(** ** The specification's classifier (§4.2), in integer arithmetic *)

(** Rule 1: a fresh hook signal wins; rule 2: a drop of more than half
    gives [InProgress] on a recently modified file and [RecentlyCompleted]
    otherwise; rule 4: [Normal] otherwise, in particular with no history. *)
Definition classify_spec (hook : bool) (last_known : option N) (current : N)
    (recent : bool) : CompactionState :=
  if hook then InProgress
  else match last_known with
       | Some l => if (2 * current <? l)%N then (if recent then InProgress else RecentlyCompleted)
                   else Normal
       | None => Normal
       end.

(** ** Lemmas *)

Lemma token_drop_ratio_gt_half l c :
  Qltb (1 # 2) (token_drop_ratio l c) = (2 * c <? l)%N.
Proof.
  unfold token_drop_ratio. destruct (decide (l = 0%N)) as [->|Hl].
  - symmetry. apply N.ltb_ge. lia.
  - apply Bool.eq_iff_eq_true. rewrite Qltb_iff, N.ltb_lt.
    rewrite Qlt_div_iff by (apply inject_Z_N_pos; lia).
    unfold Qlt, Qmult, inject_Z. simpl. lia.
Qed.

(** The third branch needs [2 * current < last], which already made the
    first test succeed. *)
Lemma classify_history_third_branch_dead l c :
  Qltb (1 # 2) (token_drop_ratio l c) = false -> (c * 2 <? l)%N = false.
Proof.
  rewrite token_drop_ratio_gt_half. intros H.
  apply N.ltb_ge. apply N.ltb_ge in H. lia.
Qed.

Lemma classify_history_spec lk c recent :
  classify_history lk c recent = classify_spec false lk c recent.
Proof.
  destruct lk as [l|]; [|reflexivity]. simpl.
  rewrite token_drop_ratio_gt_half.
  destruct (2 * c <? l)%N eqn:E; [reflexivity|].
  rewrite <- token_drop_ratio_gt_half in E.
  rewrite (classify_history_third_branch_dead _ _ E), andb_false_r. reflexivity.
Qed.

Lemma detect_eq_classify_spec env path current sid :
  detect_compaction_state env path current sid =
  classify_spec (hook_reports_compacting env sid) (last_known_tokens env sid)
    current (recently_modified env path).
Proof.
  unfold detect_compaction_state.
  destruct (hook_reports_compacting env sid); [reflexivity|].
  apply classify_history_spec.
Qed.

(** ** Theorems *)

(** C1: the detector is exactly the specification's three-rule classifier
    (a fresh "compacting" hook wins; a drop to less than half of the
    stored high-water mark is [InProgress] on a file modified in the last
    10 seconds and [RecentlyCompleted] otherwise; [Normal] otherwise)
    applied to the hook signal, the stored high-water mark and the
    modification recency.  The code's third branch (file modified, drop
    not yet visible) can never be taken: its condition implies the first. *)
Theorem detect_compaction_state_spec env path current sid :
  detect_compaction_state env path current sid =
  classify_spec (hook_reports_compacting env sid) (last_known_tokens env sid)
    current (recently_modified env path).
Proof. exact (detect_eq_classify_spec env path current sid). Qed.

(** The detector reports [InProgress] exactly when a fresh
    hook says "compacting", or when a recently modified transcript shows
    a drop to less than half of the stored high-water mark. *)
Theorem detect_in_progress_iff env path current sid :
  detect_compaction_state env path current sid = InProgress <->
  hook_reports_compacting env sid = true \/
  (exists l, last_known_tokens env sid = Some l /\ (2 * current < l)%N /\
             recently_modified env path = true).
Proof.
  rewrite detect_eq_classify_spec. unfold classify_spec.
  destruct (hook_reports_compacting env sid); [split; auto|].
  destruct (last_known_tokens env sid) as [l|];
    [|split; [discriminate | intros [H|(? & H & _)]; discriminate]].
  destruct (2 * current <? l)%N eqn:E; destruct (recently_modified env path);
    split; intros H; try discriminate; try reflexivity;
    try (right; exists l; repeat split; auto; apply N.ltb_lt; exact E);
    destruct H as [H|(l' & [= <-] & Hlt & Hr)]; try discriminate;
    apply N.ltb_ge in E; lia.
Qed.

(** A fresh hook signal reporting "compacting" overrides every
    other signal. *)
Theorem detect_hook_overrides env path current sid hs :
  read_state env sid = Some hs -> hook_state hs = "compacting" ->
  detect_compaction_state env path current (Some sid) = InProgress.
Proof.
  intros Hr Hs. unfold detect_compaction_state, hook_reports_compacting.
  rewrite Hr, Hs. reflexivity.
Qed.

(** Without a hook signal and without a stored token count
    (no session id, no database, or an unseen session) the state is
    [Normal], whatever the current token count. *)
Theorem detect_no_history_normal env path current sid :
  hook_reports_compacting env sid = false -> last_known_tokens env sid = None ->
  detect_compaction_state env path current sid = Normal.
Proof.
  intros Hh Hl. rewrite detect_eq_classify_spec, Hh, Hl. reflexivity.
Qed.

(** A concrete environment: session "s" has a high-water mark of 200000
    tokens and the transcript was modified [age] seconds ago. *)
Definition example_env (age : N) : Env := {|
  read_state := fun _ => None;
  open_db := Ok (fun sid => if String.eqb sid "s" then Some 200000%N else None);
  modified_elapsed_secs := fun _ => Some age
|}.

Example detect_examples :
  detect_compaction_state (example_env 2) "t.jsonl" 50000 (Some "s") = InProgress /\
  detect_compaction_state (example_env 30) "t.jsonl" 50000 (Some "s") = RecentlyCompleted /\
  detect_compaction_state (example_env 2) "t.jsonl" 150000 (Some "s") = Normal.
Proof. repeat split; reflexivity. Qed.

Lemma detect_hook_overrides_witness :
  detect_compaction_state
    {| read_state := fun _ => Some {| hook_state := "compacting"; hook_trigger := "auto" |};
       open_db := Err (Database "locked"); modified_elapsed_secs := fun _ => None |}
    "t.jsonl" 10 (Some "s") = InProgress.
Proof. apply (detect_hook_overrides _ _ _ _ {| hook_state := "compacting"; hook_trigger := "auto" |}); reflexivity. Defined.

Lemma detect_no_history_normal_witness :
  detect_compaction_state (example_env 1) "t.jsonl" 5 (Some "other") = Normal.
Proof. apply detect_no_history_normal; reflexivity. Defined.

End Detector.
