(* ===== verification/ContextWindow.v ===== *)
(** * ContextWindow: the context-window resolver (utils.rs)

    [get_context_window_for_model] picks the window of a model in priority
    order: the user's override map, the adaptive learner's value (when
    learning is on and the learner is confident), the family/version
    heuristic on the parsed display name, the configured default.

    The model-name parser [ModelType::from_name] (models.rs) is not among
    the staged sources: the resolver is stated for any parser, which is a
    [Context] of the section.  The learner is reached through the
    [LearnedWindowSource] class, the interface [Learner] implements.
    Version strings are split on '.' and parsed with Rust's
    [u32::from_str], modelled byte by byte with its overflow check.

    Theorems: a relational specification of the resolution order (§4.4)
    and its refinement by the code; the heuristic table; that the
    resolver never reports the 1M window its documentation promises. *)

From S2P Require Import Prelude Config.
From Stdlib Require Import Ascii.
Close Scope Q_scope.

Module Resolver.
Import Config.

(** [ModelType] (models.rs). *)
Inductive ModelType :=
| Model (family version : string)
| Unknown.

(** What the resolver needs of the adaptive learner:
    [ContextLearner::get_learned_window(model, threshold)] behind
    [get_learned_context_window], errors included (opening the database
    can fail). *)
Class LearnedWindowSource := {
  get_learned_window : string -> Q -> result (option N)
}.

(** ** Rust's [str::split('.')] and [u32::from_str] *)

(** The segments of [s] between dots, as [split('.')] yields them (there
    is always at least one, possibly empty). *)
Fixpoint split_dot (s : string) : list string :=
  match s with
  | EmptyString => [EmptyString]
  | String c rest =>
      let segs := split_dot rest in
      if Ascii.eqb c "."%char then EmptyString :: segs
      else match segs with
           | seg :: more => String c seg :: more
           | [] => [String c EmptyString]
           end
  end.

Definition digit_value (c : ascii) : option N :=
  let n := Ascii.N_of_ascii c in
  if (48 <=? n)%N && (n <=? 57)%N then Some (n - 48)%N else None.

Definition u32_max : N := 4294967295.

(** Accumulate decimal digits with [checked_mul]/[checked_add]. *)
Fixpoint parse_digits (acc : N) (s : string) : option N :=
  match s with
  | EmptyString => Some acc
  | String c rest =>
      match digit_value c with
      | Some d =>
          let v := (acc * 10 + d)%N in
          if (v <=? u32_max)%N then parse_digits v rest else None
      | None => None
      end
  end.

(** [<u32 as FromStr>::from_str]: an empty string, a lone sign and a
    minus sign are errors; a leading '+' is accepted. *)
Definition parse_u32 (s : string) : option N :=
  match s with
  | EmptyString => None
  | String c rest =>
      if Ascii.eqb c "+"%char then
        match rest with EmptyString => None | _ => parse_digits 0 rest end
      else parse_digits 0 s
  end.

(** The reference reading of a decimal numeral: every character is a
    digit, and its value. *)
Fixpoint all_digits (s : string) : bool :=
  match s with
  | EmptyString => true
  | String c rest => match digit_value c with Some _ => all_digits rest | None => false end
  end.

Fixpoint decimal_value_from (acc : N) (s : string) : N :=
  match s with
  | EmptyString => acc
  | String c rest => decimal_value_from (acc * 10 + default 0 (digit_value c))%N rest
  end.

(** [version.split('.').next().and_then(parse).unwrap_or(0)]. *)
Definition version_number (version : string) : N :=
  match split_dot version with
  | seg :: _ => default 0%N (parse_u32 seg)
  | [] => 0%N
  end.

(** [version.split('.').nth(1).and_then(parse).unwrap_or(0)]. *)
Definition minor_version (version : string) : N :=
  match split_dot version with
  | _ :: seg :: _ => default 0%N (parse_u32 seg)
  | _ => 0%N
  end.

(** The family/version heuristic (priority 3). *)
Definition window_for_model_type (mt : ModelType) (cfg : Config) : N :=
  match mt with
  | Model family version =>
      let major := version_number version in
      let minor := minor_version version in
      if String.eqb family "Sonnet" then
        (if (4 <=? major)%N || ((major =? 3)%N && (5 <=? minor)%N) then 200000 else 160000)%N
      else if String.eqb family "Opus" then
        (if (4 <=? major)%N || ((major =? 3)%N && (5 <=? minor)%N) then 200000 else 160000)%N
      else if String.eqb family "Haiku" then window_size (context cfg)
      else window_size (context cfg)
  | Unknown => window_size (context cfg)
  end.

Section WithParser.
Context (from_name : string -> ModelType) `{LearnedWindowSource}.

(** [get_learned_context_window]. *)
Definition get_learned_context_window (model : string) (cfg : Config) : result (option N) :=
  get_learned_window model (learning_confidence_threshold (context cfg)).

Definition get_context_window_for_model (model_name : option string) (cfg : Config) : N :=
  match model_name with
  | Some model =>
      match model_windows (context cfg) !! model with
      | Some custom_size => custom_size
      | None =>
          let learned :=
            if adaptive_learning (context cfg) then
              match get_learned_context_window model cfg with
              | Ok (Some window) => Some window
              | _ => None
              end
            else None in
          match learned with
          | Some window => window
          | None => window_for_model_type (from_name model) cfg
          end
      end
  | None => window_size (context cfg)
  end.

(** ** The specification of the resolution order (§4.4) *)

Definition modern_version (version : string) : Prop :=
  (4 <= version_number version)%N \/
  (version_number version = 3%N /\ (5 <= minor_version version)%N).

Definition no_learned (model : string) (cfg : Config) : Prop :=
  adaptive_learning (context cfg) = false \/
  forall w, get_learned_context_window model cfg <> Ok (Some w).

Inductive resolves (cfg : Config) : option string -> N -> Prop :=
| res_default : resolves cfg None (window_size (context cfg))
| res_override m w :
    model_windows (context cfg) !! m = Some w -> resolves cfg (Some m) w
| res_learned m w :
    model_windows (context cfg) !! m = None -> adaptive_learning (context cfg) = true ->
    get_learned_context_window m cfg = Ok (Some w) -> resolves cfg (Some m) w
| res_modern m fam v :
    model_windows (context cfg) !! m = None -> no_learned m cfg ->
    from_name m = Model fam v -> fam = "Sonnet" \/ fam = "Opus" -> modern_version v ->
    resolves cfg (Some m) 200000
| res_legacy m fam v :
    model_windows (context cfg) !! m = None -> no_learned m cfg ->
    from_name m = Model fam v -> fam = "Sonnet" \/ fam = "Opus" -> ~ modern_version v ->
    resolves cfg (Some m) 160000
| res_other_family m fam v :
    model_windows (context cfg) !! m = None -> no_learned m cfg ->
    from_name m = Model fam v -> fam <> "Sonnet" -> fam <> "Opus" ->
    resolves cfg (Some m) (window_size (context cfg))
| res_unknown m :
    model_windows (context cfg) !! m = None -> no_learned m cfg ->
    from_name m = Unknown -> resolves cfg (Some m) (window_size (context cfg)).

End WithParser.

#[export] Hint Constructors resolves : statusline.

(** ** Lemmas *)

Lemma modern_version_reflect v :
  (4 <=? version_number v)%N || ((version_number v =? 3)%N && (5 <=? minor_version v)%N) = true
  <-> modern_version v.
Proof.
  unfold modern_version. rewrite orb_true_iff, andb_true_iff, N.leb_le, N.eqb_eq, N.leb_le.
  reflexivity.
Qed.

Lemma window_for_model_type_resolves from_name `{LearnedWindowSource} cfg m :
  model_windows (context cfg) !! m = None -> no_learned m cfg ->
  resolves from_name cfg (Some m) (window_for_model_type (from_name m) cfg).
Proof.
  intros Hm Hl. unfold window_for_model_type.
  destruct (from_name m) as [fam v|] eqn:Ef; [|eauto with statusline].
  destruct (String.eqb_spec fam "Sonnet") as [->|Hs];
  [|destruct (String.eqb_spec fam "Opus") as [->|Ho]];
  try (destruct ((4 <=? version_number v)%N || _) eqn:E;
       [ apply modern_version_reflect in E; eapply res_modern; eauto
       | eapply res_legacy; eauto; rewrite <- modern_version_reflect, E; discriminate ]).
  destruct (String.eqb fam "Haiku"); eapply res_other_family; eauto.
Qed.

Lemma resolves_functional from_name `{LearnedWindowSource} cfg m w1 w2 :
  resolves from_name cfg m w1 -> resolves from_name cfg m w2 -> w1 = w2.
Proof.
  intros H1 H2.
  destruct H1; inversion H2; subst; try congruence;
  repeat match goal with
         | H : no_learned _ _ |- _ => destruct H as [H|H]; [congruence|]
         | H : forall w, _ <> Ok (Some w) |- _ => exfalso; eapply H; eassumption
         | H : ~ modern_version _ |- _ => contradiction
         | H : _ \/ _ |- _ => destruct H; subst
         end; try congruence.
Qed.

Lemma get_context_window_for_model_resolves from_name `{LearnedWindowSource} cfg model :
  resolves from_name cfg model (get_context_window_for_model from_name model cfg).
Proof.
  unfold get_context_window_for_model.
  destruct model as [m|]; [|constructor].
  destruct (model_windows (context cfg) !! m) as [c|] eqn:Hm; [eauto with statusline|].
  destruct (adaptive_learning (context cfg)) eqn:Ha.
  - destruct (get_learned_context_window m cfg) as [[w'|]|e] eqn:El;
      [eauto with statusline| |];
      apply window_for_model_type_resolves; auto; right; intros w'; congruence.
  - apply window_for_model_type_resolves; auto. left; exact Ha.
Qed.

Lemma decimal_value_from_ge acc s : (acc <= decimal_value_from acc s)%N.
Proof.
  revert acc. induction s as [|c rest IH]; intros acc; simpl; [lia|].
  specialize (IH (acc * 10 + default 0 (digit_value c))%N). lia.
Qed.

Lemma parse_digits_spec acc s n :
  (acc <= u32_max)%N ->
  parse_digits acc s = Some n <-> all_digits s = true /\ decimal_value_from acc s = n /\ (n <= u32_max)%N.
Proof.
  revert acc. induction s as [|c rest IH]; intros acc Hacc; simpl.
  - split; [intros [= <-]; auto | intros (_ & <- & _); reflexivity].
  - destruct (digit_value c) as [d|]; simpl; [|split; [discriminate | intros (? & _); discriminate]].
    destruct (N.leb_spec (acc * 10 + d) u32_max) as [Hv|Hv].
    + apply IH, Hv.
    + split; [discriminate|]. intros (_ & <- & Hn).
      pose proof (decimal_value_from_ge (acc * 10 + d) rest). lia.
Qed.

(** ** Theorems *)

(** C3: the resolver implements the specification's resolution
    order: its result is the one window the relation [resolves] allows
    (override, then learned value, then family heuristic, then default). *)
Theorem get_context_window_for_model_spec from_name `{LearnedWindowSource} cfg model w :
  get_context_window_for_model from_name model cfg = w <-> resolves from_name cfg model w.
Proof.
  split.
  - intros <-. apply get_context_window_for_model_resolves.
  - intros Hr. eapply resolves_functional; [|exact Hr].
    apply get_context_window_for_model_resolves.
Qed.

(** An entry of the user's override map is returned verbatim,
    whatever the learner and the heuristics would say. *)
Theorem override_wins from_name `{LearnedWindowSource} cfg m w :
  model_windows (context cfg) !! m = Some w ->
  get_context_window_for_model from_name (Some m) cfg = w.
Proof.
  intros Hm. unfold get_context_window_for_model. rewrite Hm. reflexivity.
Qed.

(** The version parsing and the family table on the display
    names of current models: Sonnet/Opus 3.5 and later get 200k, Sonnet 3
    and Opus 3 get 160k, Haiku and unknown names get the configured
    default; a version whose major part does not parse counts as 0. *)
(** [u32::from_str] as modelled accepts exactly the non-empty
    strings of decimal digits, optionally after one '+', whose value fits
    in 32 bits, and returns that value: checking for overflow after every
    digit ([checked_mul], [checked_add]) is the same as checking the final
    value, because the value never decreases as digits are read. *)
Theorem parse_u32_spec s n :
  parse_u32 s = Some n <->
  exists ds, (s = ds \/ s = String "+" ds) /\ ds <> EmptyString /\
             all_digits ds = true /\ decimal_value_from 0 ds = n /\ (n <= u32_max)%N.
Proof.
  unfold parse_u32. destruct s as [|c rest].
  - split; [discriminate|]. intros (ds & [E|E] & Hne & _); [congruence | discriminate].
  - destruct (Ascii.eqb_spec c "+"%char) as [->|Hc].
    + destruct rest as [|c' rest'].
      * split; [discriminate|]. intros (ds & [E|E] & Hne & Hd & _); [subst ds; discriminate|].
        injection E as <-. congruence.
      * rewrite parse_digits_spec by (unfold u32_max; lia). split.
        -- intros H. exists (String c' rest'). split; [right; reflexivity|]. split; [discriminate | exact H].
        -- intros (ds & [E|E] & _ & Hd & Hv & Hn); [subst ds; discriminate|].
           injection E as <-. auto.
    + rewrite parse_digits_spec by (unfold u32_max; lia). split.
      * intros H. exists (String c rest). split; [left; reflexivity|]. split; [discriminate | exact H].
      * intros (ds & [E|E] & _ & H); [subst ds; exact H | injection E as E _; congruence].
Qed.

Example window_for_model_type_table :
  window_for_model_type (Model "Sonnet" "4.5") default_config = 200000%N /\
  window_for_model_type (Model "Sonnet" "3.5") default_config = 200000%N /\
  window_for_model_type (Model "Opus" "4") default_config = 200000%N /\
  window_for_model_type (Model "Sonnet" "3") default_config = 160000%N /\
  window_for_model_type (Model "Opus" "3.0") default_config = 160000%N /\
  window_for_model_type (Model "Haiku" "4.5") default_config = 200000%N /\
  window_for_model_type (Model "Opus" "x.9") default_config = 160000%N /\
  window_for_model_type Unknown default_config = 200000%N.
Proof. repeat split; reflexivity. Qed.

Example parse_u32_cases :
  parse_u32 "42" = Some 42%N /\ parse_u32 "+7" = Some 7%N /\ parse_u32 "+" = None /\
  parse_u32 "-1" = None /\ parse_u32 "" = None /\ parse_u32 "4294967295" = Some u32_max /\
  parse_u32 "4294967296" = None /\ split_dot "3.5.1" = ["3"; "5"; "1"].
Proof. repeat split; reflexivity. Qed.

(** C12: without an override and with adaptive learning off, the
    resolver never returns more than the larger of 200k and the configured
    default; in particular it does not auto-detect the 1M-token window
    that the documentation of [ContextConfig] and the example config
    announce for "Sonnet 4.5 (1M context)". *)
Theorem resolver_bounded_without_override from_name `{LearnedWindowSource} cfg m :
  model_windows (context cfg) !! m = None -> adaptive_learning (context cfg) = false ->
  (get_context_window_for_model from_name (Some m) cfg <= N.max 200000 (window_size (context cfg)))%N.
Proof.
  intros Hm Ha.
  pose proof (get_context_window_for_model_resolves from_name cfg (Some m)) as Hr.
  remember (get_context_window_for_model from_name (Some m) cfg) as w eqn:Ew.
  clear Ew. inversion Hr; subst; try congruence; lia.
Qed.

(** A parser that reads "Sonnet 4.5 (1M context)" as family Sonnet,
    version 4.5, and a learner that knows nothing. *)
Definition example_from_name (name : string) : ModelType :=
  if String.eqb name "Sonnet 4.5 (1M context)" then Model "Sonnet" "4.5" else Unknown.

#[export] Instance no_learner : LearnedWindowSource := {|
  get_learned_window := fun _ _ => Ok None
|}.

Lemma resolver_bounded_without_override_witness :
  get_context_window_for_model example_from_name (Some "Sonnet 4.5 (1M context)") default_config
    = 200000%N /\
  (get_context_window_for_model example_from_name (Some "Sonnet 4.5 (1M context)") default_config
     <= N.max 200000 (window_size (context default_config)))%N.
Proof.
  split; [reflexivity|].
  apply resolver_bounded_without_override; reflexivity.
Defined.

Lemma override_wins_witness :
  get_context_window_for_model example_from_name (Some "Claude 3 Haiku")
    {| display := default_display;
       context := {| window_size := 200000; model_windows := {["Claude 3 Haiku" := 100000%N]};
                     adaptive_learning := true; learning_confidence_threshold := 7 # 10;
                     buffer_size := 40000; auto_compact_threshold := 75;
                     percentage_mode := "full" |};
       cost := default_cost; database := default_database; retry := default_retry;
       transcript := default_transcript; git := default_git |} = 100000%N.
Proof. apply override_wins. reflexivity. Defined.

End Resolver.
