(* ===== verification/Learner.v ===== *)
(** * Learner: the adaptive window learner (spec §3, §4.3)

    context_learning.rs is not among the staged sources: the learner is
    modelled from the specification and implements the interface
    [LearnedWindowSource] the resolver is stated against.  Per model it
    keeps the observed compaction points (their sum and their number); an
    observation is a drop of the token count to less than half of the
    previous count, the same test the detector uses, and the point
    observed is the count before the drop.  The learned window is the mean
    of the observed points, rounded down.  The confidence after [n]
    observations is [min(1, (3n - 1) / 20)], the increasing function
    through the specification's anchors (0.1 after one observation, 0.4
    after three, 0.7 after five).

    Theorems: the confidence is monotone and meets the anchors; the
    learner answers only at the configured confidence; with the default
    threshold 0.7 the resolver uses the learned window from the fifth
    observed compaction on and the family heuristic before. *)

From S2P Require Import Prelude Config ContextWindow.
From Stdlib Require Import Qminmax Lqa.
Close Scope Q_scope.

Module Learner.
Import Config Resolver.

Record LearnedWindow := {
  ceiling_sum : N;
  observation_count : N
}.


Definition no_observation : LearnedWindow := {| ceiling_sum := 0; observation_count := 0 |}.

(** The learned compaction point: the mean of the observations. *)
Definition learned_window (w : LearnedWindow) : N := ceiling_sum w / observation_count w.

Definition confidence (n : N) : Q :=
  if (n =? 0)%N then 0%Q else Qmin 1 (inject_Z (3 * Z.of_N n - 1) / 20).

(** A compaction-like drop: the count fell below half of the previous one. *)
Definition is_compaction_drop (previous current : N) : bool := (2 * current <? previous)%N.

Definition observe (model : string) (previous current : N) (L : gmap string LearnedWindow) : gmap string LearnedWindow :=
  if is_compaction_drop previous current then
    let w := default no_observation (L !! model) in
    <[model := {| ceiling_sum := ceiling_sum w + previous;
                  observation_count := observation_count w + 1 |}]> L
  else L.

(** A sequence of (previous, current) observations of one model. *)
Definition observe_all (model : string) (obs : list (N * N)) (L : gmap string LearnedWindow) : gmap string LearnedWindow :=
  fold_left (fun L pc => observe model pc.1 pc.2 L) obs L.

(** [ContextLearner::get_learned_window(model, threshold)]. *)
Definition learner_get_learned_window (L : gmap string LearnedWindow) (model : string) (threshold : Q) : result (option N) :=
  Ok (match L !! model with
      | Some w => if Qle_bool threshold (confidence (observation_count w)) then Some (learned_window w) else None
      | None => None
      end).

#[export] Instance learner_source (L : gmap string LearnedWindow) : LearnedWindowSource :=
  {| get_learned_window := learner_get_learned_window L |}.

(** The sum of the observed points. *)
Definition sum_firsts (obs : list (N * N)) : N := foldr (fun pc s => (pc.1 + s)%N) 0%N obs.

(** ** Lemmas *)

Lemma confidence_ge_iff n t :
  (0 < n)%N -> (t <= 1)%Q -> (t <= confidence n <-> t * 20 + 1 <= inject_Z (3 * Z.of_N n))%Q.
Proof.
  intros Hn Ht. unfold confidence. replace (n =? 0)%N with false by (symmetry; apply N.eqb_neq; lia).
  rewrite Q.min_glb_iff, Qle_div_iff by reflexivity.
  assert (E : (inject_Z (3 * Z.of_N n - 1) == inject_Z (3 * Z.of_N n) - 1)%Q)
    by (unfold Qeq, Qminus, Qplus, Qopp, inject_Z; cbn [Qnum Qden]; lia).
  rewrite E. split; [intros [_ Hc]; lra | intros Hc; split; [exact Ht | lra]].
Qed.

Lemma confidence_default_threshold n : (0 < n)%N -> Qle_bool (7 # 10) (confidence n) = (5 <=? n)%N.
Proof.
  intros Hn. apply Bool.eq_iff_eq_true. rewrite Qle_bool_iff, confidence_ge_iff, N.leb_le by (easy || lia).
  unfold Qle. simpl. lia.
Qed.

Lemma observe_all_lookup model obs L :
  Forall (fun pc => is_compaction_drop pc.1 pc.2 = true) obs ->
  observe_all model obs L !! model =
  match obs with
  | [] => L !! model
  | _ => Some {| ceiling_sum := ceiling_sum (default no_observation (L !! model)) + sum_firsts obs;
                 observation_count := observation_count (default no_observation (L !! model)) +
                                      N.of_nat (length obs) |}
  end.
Proof.
  intros Hall. revert L. induction Hall as [|[p c] rest Hd _ IH]; intros L; [reflexivity|].
  unfold observe_all in *. simpl. rewrite IH. unfold observe. simpl in Hd. rewrite Hd.
  rewrite lookup_insert_eq. destruct rest; simpl; f_equal; f_equal; lia.
Qed.

Lemma confidence_monotone n m : (n <= m)%N -> (confidence n <= confidence m)%Q.
Proof.
  intros Hnm. unfold confidence.
  destruct (N.eqb_spec n 0) as [->|Hn]; destruct (N.eqb_spec m 0) as [->|Hm];
    [apply Qle_refl | | lia |].
  - apply Q.min_glb; [discriminate|]. apply Qle_shift_div_l; [reflexivity|].
    unfold Qle; simpl; lia.
  - apply Q.min_le_compat_l. apply Qmult_le_compat_r; [|discriminate].
    unfold Qle; simpl; lia.
Qed.

(** ** Theorems *)

(** The learner and the resolver together.  With learning on, the
    default confidence threshold 0.7 and no override for the model, after
    [k] observed compactions of the model the resolver returns the learned
    window (the mean of the observed compaction points) when [k >= 5], and
    the family/version heuristic before: the learner never answers on
    fewer than five observations. *)
Theorem resolver_uses_learned_from_fifth from_name m obs cfg :
  model_windows (context cfg) !! m = None -> adaptive_learning (context cfg) = true ->
  learning_confidence_threshold (context cfg) = (7 # 10)%Q ->
  Forall (fun pc => is_compaction_drop pc.1 pc.2 = true) obs ->
  @get_context_window_for_model from_name (learner_source (observe_all m obs ∅)) (Some m) cfg =
  if (5 <=? N.of_nat (length obs))%N then (sum_firsts obs / N.of_nat (length obs))%N
  else window_for_model_type (from_name m) cfg.
Proof.
  intros Hm Ha Ht Hall. unfold get_context_window_for_model. rewrite Hm, Ha.
  unfold get_learned_context_window. rewrite Ht. cbn [get_learned_window learner_source].
  unfold learner_get_learned_window. rewrite observe_all_lookup by exact Hall.
  destruct obs as [|pc rest]; [reflexivity|]. rewrite lookup_empty. simpl.
  rewrite confidence_default_threshold by lia. destruct (5 <=? _)%N; reflexivity.
Qed.

(** ** Witness and examples *)

Definition learning_config : Config := {|
  display := default_display;
  context := {| window_size := 200000; model_windows := ∅; adaptive_learning := true;
                learning_confidence_threshold := 7 # 10; buffer_size := 40000;
                auto_compact_threshold := 75; percentage_mode := "full" |};
  cost := default_cost; database := default_database; retry := default_retry;
  transcript := default_transcript; git := default_git
|}.

Lemma resolver_uses_learned_from_fifth_witness :
  @get_context_window_for_model (fun _ => Unknown)
     (learner_source (observe_all "claude-sonnet-4-5" (repeat (160000, 30000)%N 5) ∅))
     (Some "claude-sonnet-4-5") learning_config = 160000%N.
Proof. rewrite resolver_uses_learned_from_fifth; [reflexivity | reflexivity | reflexivity | reflexivity | repeat constructor]. Defined.

Example confidence_anchors :
  (confidence 1 == 1 # 10 /\ confidence 3 == 2 # 5 /\ confidence 5 == 7 # 10 /\ confidence 9 == 1)%Q.
Proof. repeat split; reflexivity. Qed.

Example learner_four_observations :
  @get_context_window_for_model (fun _ => Unknown)
     (learner_source (observe_all "claude-sonnet-4-5" (repeat (160000, 30000)%N 4) ∅))
     (Some "claude-sonnet-4-5") learning_config = 200000%N.
Proof. vm_compute. reflexivity. Qed.

End Learner.
