(* ===== verification/TokenExtractor.v ===== *)
(** * TokenExtractor: transcript validation, tail reading, peak selection

    Models [validate_path_security] (common.rs), [validate_transcript_file]
    and [get_token_breakdown_from_transcript] (utils.rs).  The file system
    is a [FileSystem] record (canonicalisation, the regular-file test and
    the bytes of a file); the transcript is read as bytes and split into
    lines the way [BufRead::lines] does it (split after each LF, strip
    "\n" and a preceding "\r", reject a line that is not UTF-8), and the
    iterator is cut at the first error by [map_while].

    Small files (below 1 MiB) go through a bounded circular buffer; large
    files are read from [size - max(2048 * N, 200 KiB)], drop their first
    (partial) line and keep the last N lines.  JSON decoding of a line
    ([serde_json::from_str::<TranscriptEntry>]) is the section variable
    [parse_entry]; TranscriptJson.v gives it ([entry_from_str]) and runs
    the extractor with it.  Everything after it is modelled.

    Theorems: the circular buffer computes the last N lines; the peak
    selection returns the entry with the largest total; the u32 sums are
    exact below 2^30 per field; and two behaviours the code did not mean:
    a large file whose seek offset falls inside a multi-byte UTF-8
    character yields no data at all, and [buffer_lines = 0] keeps every
    line of a small file but none of a large one. *)

From S2P Require Import Prelude.
From Stdlib Require Import Ascii Strings.Byte.
Close Scope Q_scope.

Module Transcript.

(** ** Data (models.rs) *)

Record Usage := {
  input_tokens : option N;
  output_tokens : option N;
  cache_creation_input_tokens : option N;
  cache_read_input_tokens : option N
}.

Record Message := { role : string; usage : option Usage }.

Record TranscriptEntry := { message : Message; timestamp : string }.

Record TokenBreakdown := {
  bd_input_tokens : N;
  bd_output_tokens : N;
  bd_cache_read_tokens : N;
  bd_cache_creation_tokens : N
}.

Definition TokenBreakdown_default : TokenBreakdown := {|
  bd_input_tokens := 0; bd_output_tokens := 0;
  bd_cache_read_tokens := 0; bd_cache_creation_tokens := 0
|}.

(** [TokenBreakdown::total], u32 arithmetic. *)
Definition total (b : TokenBreakdown) : N :=
  bd_input_tokens b ⊞ bd_output_tokens b ⊞ bd_cache_read_tokens b ⊞ bd_cache_creation_tokens b.

(** ** The file system as the extractor sees it *)

Record FileSystem := {
  (** [fs::canonicalize]: resolves symlinks and relative segments. *)
  canonicalize : string -> option string;
  (** [Path::is_file] of a canonical path. *)
  is_file : string -> bool;
  (** [File::open] followed by reading the whole file. *)
  contents : string -> option (list byte)
}.

(** ** Path validation *)

(** [path.contains('\0')]. *)
Fixpoint has_nul (s : string) : bool :=
  match s with
  | EmptyString => false
  | String c rest => Ascii.eqb c (Ascii.ascii_of_nat 0) || has_nul rest
  end.

(** [validate_path_security] (common.rs). *)
Definition validate_path_security (fs : FileSystem) (path : string) : result string :=
  if has_nul path then Err (InvalidPath "Path contains null bytes")
  else match canonicalize fs path with
       | Some p => Ok p
       | None => Err (InvalidPath "Cannot canonicalize path")
       end.

(** The last component of a path ([Path::file_name] of a canonical path). *)
Fixpoint file_name_aux (cur : string) (s : string) : string :=
  match s with
  | EmptyString => cur
  | String c rest =>
      if Ascii.eqb c "/"%char then file_name_aux EmptyString rest
      else file_name_aux (cur +:+ String c EmptyString) rest
  end.

Definition file_name (p : string) : string := file_name_aux EmptyString p.

(** Split a file name at its last dot: the part after it, if any. *)
Fixpoint after_last_dot (s : string) : option (string * string) :=
  match s with
  | EmptyString => None
  | String c rest =>
      match after_last_dot rest with
      | Some (before, after) => Some (String c before, after)
      | None => if Ascii.eqb c "."%char then Some (EmptyString, rest) else None
      end
  end.

(** [Path::extension]: none for "..", for a name without a dot, and for a
    name whose only dot is its first character (".jsonl"). *)
Definition extension (p : string) : option string :=
  let name := file_name p in
  if String.eqb name ".." then None
  else match after_last_dot name with
       | Some (EmptyString, _) => None
       | Some (_, ext) => Some ext
       | None => None
       end.

Definition ascii_lower (c : ascii) : ascii :=
  let n := Ascii.nat_of_ascii c in
  if (65 <=? n) && (n <=? 90) then Ascii.ascii_of_nat (n + 32) else c.

Fixpoint eq_ignore_ascii_case (a b : string) : bool :=
  match a, b with
  | EmptyString, EmptyString => true
  | String x a', String y b' => Ascii.eqb (ascii_lower x) (ascii_lower y) && eq_ignore_ascii_case a' b'
  | _, _ => false
  end.

(** [validate_transcript_file]. *)
Definition validate_transcript_file (fs : FileSystem) (path : string) : result string :=
  canonical_path <-? validate_path_security fs path ;;
  if negb (is_file fs canonical_path) then Err (InvalidPath "Path is not a file")
  else match extension canonical_path with
       | Some ext =>
           if eq_ignore_ascii_case ext "jsonl" then Ok canonical_path
           else Err (InvalidPath "Only .jsonl files are allowed for transcripts")
       | None => Err (InvalidPath "File must have .jsonl extension")
       end.

(** ** [BufRead::lines] *)

Definition in_range (lo hi : N) (b : byte) : bool :=
  (lo <=? Byte.to_N b)%N && (Byte.to_N b <=? hi)%N.

Definition cont (b : byte) : bool := in_range 128 191 b.

(** Well-formed UTF-8 (the Unicode standard, table 3-7), as
    [str::from_utf8] checks it. *)
Fixpoint utf8_valid (l : list byte) : bool :=
  match l with
  | [] => true
  | b :: t =>
      if in_range 0 127 b then utf8_valid t
      else if in_range 194 223 b then
        match t with c1 :: t1 => cont c1 && utf8_valid t1 | [] => false end
      else if in_range 224 239 b then
        match t with
        | c1 :: c2 :: t2 =>
            (if in_range 224 224 b then in_range 160 191 c1
             else if in_range 237 237 b then in_range 128 159 c1
             else cont c1) && cont c2 && utf8_valid t2
        | _ => false
        end
      else if in_range 240 244 b then
        match t with
        | c1 :: c2 :: c3 :: t3 =>
            (if in_range 240 240 b then in_range 144 191 c1
             else if in_range 244 244 b then in_range 128 143 c1
             else cont c1) && cont c2 && cont c3 && utf8_valid t3
        | _ => false
        end
      else false
  end.

(** The raw chunks [read_line] consumes: each up to and including a LF;
    the last one without LF when the file does not end with one. *)
Fixpoint raw_lines_aux (cur : list byte) (bs : list byte) : list (list byte) :=
  match bs with
  | [] => match cur with [] => [] | _ => [rev cur] end
  | b :: rest =>
      if Byte.eqb b x0a then rev (b :: cur) :: raw_lines_aux [] rest
      else raw_lines_aux (b :: cur) rest
  end.

Definition raw_lines (bs : list byte) : list (list byte) := raw_lines_aux [] bs.

(** Strip "\n", then "\r" before it. *)
Definition strip_newline (chunk : list byte) : list byte :=
  match rev chunk with
  | nl :: rest =>
      if Byte.eqb nl x0a then
        match rest with
        | cr :: rest' => if Byte.eqb cr x0d then rev rest' else rev rest
        | [] => []
        end
      else chunk
  | [] => []
  end.

(** One item of [reader.lines()]: the line, or [None] for the
    [InvalidData] error of a chunk that is not UTF-8. *)
Definition decode_line (chunk : list byte) : option (list byte) :=
  if utf8_valid chunk then Some (strip_newline chunk) else None.

Definition lines (bs : list byte) : list (option (list byte)) := map decode_line (raw_lines bs).

(** [.map_while(|l| l.ok())]. *)
Fixpoint map_while_ok {A} (l : list (option A)) : list A :=
  match l with
  | Some x :: rest => x :: map_while_ok rest
  | _ => []
  end.

(** ** The trailing window *)

Definition small_file_limit : N := 1024 * 1024.

(** One step of the circular buffer: evict the oldest line when full,
    then push the new one ([pop_front] on an empty deque does nothing). *)
Definition circular_push {A} (cap : N) (buf : list A) (line : A) : list A :=
  (if (N.of_nat (length buf) =? cap)%N then tail buf else buf) ++ [line].

(** Small file: read from the start through the circular buffer. *)
Definition read_small (bs : list byte) (buffer_size : N) : list (list byte) :=
  fold_left (circular_push buffer_size) (map_while_ok (lines bs)) [].

(** [(buffer_size * 2048).max(200 * 1024) as u64]: a [usize] product,
    which wraps for absurd [buffer_lines] (at least 2^53). *)
Definition read_size (buffer_size : N) : N := N.max (wrap_usize (buffer_size * 2048)) (200 * 1024).

(** [file_size.saturating_sub(read_size)]. *)
Definition start_pos (bs : list byte) (buffer_size : N) : N :=
  N.of_nat (length bs) - read_size buffer_size.

(** Large file: seek, read forward, skip the first line when the seek
    landed inside the file, keep the last [buffer_size] lines. *)
Definition read_large (bs : list byte) (buffer_size : N) : list (list byte) :=
  let start := start_pos bs buffer_size in
  let all_lines := map_while_ok (lines (drop (N.to_nat start) bs)) in
  let skip_first := if (0 <? start)%N then 1 else 0 in
  rev (take (N.to_nat buffer_size) (rev (drop skip_first all_lines))).

Definition tail_lines (bs : list byte) (buffer_size : N) : list (list byte) :=
  if (N.of_nat (length bs) <? small_file_limit)%N then read_small bs buffer_size
  else read_large bs buffer_size.

(** ** Peak selection *)

Definition usage_breakdown (u : Usage) : TokenBreakdown := {|
  bd_input_tokens := default 0%N (input_tokens u);
  bd_output_tokens := default 0%N (output_tokens u);
  bd_cache_read_tokens := default 0%N (cache_read_input_tokens u);
  bd_cache_creation_tokens := default 0%N (cache_creation_input_tokens u)
|}.

(** [input + cache_read + cache_creation + output], u32 arithmetic. *)
Definition usage_total (u : Usage) : N :=
  default 0%N (input_tokens u) ⊞ default 0%N (cache_read_input_tokens u)
  ⊞ default 0%N (cache_creation_input_tokens u) ⊞ default 0%N (output_tokens u).

Section WithParser.
Context (parse_entry : list byte -> option TranscriptEntry).

(** The usage of a line that parses as an assistant message with usage. *)
Definition assistant_usage (line : list byte) : option Usage :=
  match parse_entry line with
  | Some entry =>
      if String.eqb (role (message entry)) "assistant" then usage (message entry) else None
  | None => None
  end.

(** One iteration of the selection loop over [(best_breakdown, max_total)]. *)
Definition peak_step (acc : TokenBreakdown * N) (line : list byte) : TokenBreakdown * N :=
  match assistant_usage line with
  | Some u =>
      let current_total := usage_total u in
      if (acc.2 <? current_total)%N then (usage_breakdown u, current_total) else acc
  | None => acc
  end.

Definition select_peak (ls : list (list byte)) : TokenBreakdown * N :=
  fold_left peak_step ls (TokenBreakdown_default, 0%N).

Definition get_token_breakdown_from_transcript (fs : FileSystem) (buffer_lines : N)
    (transcript_path : string) : option TokenBreakdown :=
  safe_path ← result_ok (validate_transcript_file fs transcript_path);
  bs ← contents fs safe_path;
  let '(best, max_total) := select_peak (tail_lines bs buffer_lines) in
  if (0 <? max_total)%N then Some best else None.

Definition get_token_count_from_transcript (fs : FileSystem) (buffer_lines : N)
    (transcript_path : string) : option N :=
  total <$> get_token_breakdown_from_transcript fs buffer_lines transcript_path.

End WithParser.

(** ** Lemmas: the circular buffer *)

Lemma circular_push_lastn {A} cap (buf : list A) x :
  (0 < cap)%N -> length buf <= N.to_nat cap ->
  circular_push cap buf x = lastn (N.to_nat cap) (buf ++ [x]).
Proof.
  intros Hcap Hlen. unfold circular_push.
  destruct (N.of_nat (length buf) =? cap)%N eqn:E.
  - apply N.eqb_eq in E. unfold lastn. rewrite length_app. simpl.
    replace (length buf + 1 - N.to_nat cap) with 1 by lia.
    destruct buf as [|y buf]; [simpl in E; lia|]. reflexivity.
  - apply N.eqb_neq in E. rewrite lastn_all; [reflexivity|].
    rewrite length_app. simpl. lia.
Qed.

Lemma circular_fold_lastn {A} cap (l buf : list A) :
  (0 < cap)%N -> length buf <= N.to_nat cap ->
  fold_left (circular_push cap) l buf = lastn (N.to_nat cap) (buf ++ l).
Proof.
  intros Hcap. revert buf. induction l as [|x l IH]; intros buf Hlen; simpl.
  - rewrite app_nil_r, lastn_all by exact Hlen. reflexivity.
  - rewrite circular_push_lastn by assumption.
    rewrite IH by (rewrite lastn_length; lia).
    rewrite lastn_lastn_app, <- app_assoc. reflexivity.
Qed.

Lemma circular_fold_zero {A} (l buf : list A) :
  fold_left (circular_push 0) l buf = buf ++ l.
Proof.
  revert buf. induction l as [|x l IH]; intros buf; simpl.
  - rewrite app_nil_r. reflexivity.
  - rewrite IH. unfold circular_push.
    destruct (N.of_nat (length buf) =? 0)%N eqn:E; [|rewrite <- app_assoc; reflexivity].
    destruct buf; [reflexivity | simpl in E; lia].
Qed.

Lemma read_large_lastn bs cap :
  read_large bs cap =
  lastn (N.to_nat cap)
    (drop (if (0 <? start_pos bs cap)%N then 1 else 0)
          (map_while_ok (lines (drop (N.to_nat (start_pos bs cap)) bs)))).
Proof. unfold read_large. apply rev_take_rev. Qed.

(** ** Lemmas: the selection loop *)

(** ** Lemmas: line splitting and UTF-8 *)

Lemma raw_lines_aux_first cur rest :
  cur <> [] -> exists c more, raw_lines_aux cur rest = (rev cur ++ c) :: more.
Proof.
  revert cur. induction rest as [|y rest IH]; intros cur Hcur; simpl.
  - destruct cur; [congruence|]. exists [], []. rewrite app_nil_r. reflexivity.
  - destruct (Byte.eqb y x0a).
    + exists [y]. eexists. simpl. reflexivity.
    + destruct (IH (y :: cur)) as (c & more & ->); [discriminate|].
      exists (y :: c), more. simpl. rewrite <- app_assoc. reflexivity.
Qed.

Lemma in_range_out lo hi b : (Byte.to_N b < lo \/ hi < Byte.to_N b)%N -> in_range lo hi b = false.
Proof.
  intros H. unfold in_range. apply andb_false_iff.
  destruct H; [left | right]; apply N.leb_gt; lia.
Qed.

(** A continuation byte cannot start a UTF-8 sequence. *)
Lemma utf8_valid_cont_head b c : cont b = true -> utf8_valid (b :: c) = false.
Proof.
  unfold cont, in_range. rewrite andb_true_iff, !N.leb_le. intros Hb. simpl.
  rewrite !in_range_out by lia. reflexivity.
Qed.

Lemma lines_cont_head b rest :
  cont b = true -> exists more, lines (b :: rest) = None :: more.
Proof.
  intros Hb. unfold lines, raw_lines. simpl.
  assert (Hnl : Byte.eqb b x0a = false).
  { destruct (Byte.eqb b x0a) eqn:E; [|reflexivity].
    apply Byte.byte_dec_bl in E. subst. discriminate. }
  rewrite Hnl. destruct (raw_lines_aux_first [b] rest) as (c & more & ->); [discriminate|].
  exists (map decode_line more). simpl. unfold decode_line.
  rewrite utf8_valid_cont_head by exact Hb. reflexivity.
Qed.

(** The large-file path reads nothing when the seek offset is a
    continuation byte: the partial first line fails to decode before it
    can be skipped, and [map_while] stops the iterator there. *)
Lemma read_large_split_char bs cap b :
  bs !! N.to_nat (start_pos bs cap) = Some b -> cont b = true -> read_large bs cap = [].
Proof.
  intros Hb Hc. rewrite read_large_lastn.
  rewrite (drop_S _ _ _ Hb).
  destruct (lines_cont_head b (drop (S (N.to_nat (start_pos bs cap))) bs) Hc) as (more & ->).
  simpl. destruct (0 <? start_pos bs cap)%N; reflexivity.
Qed.

Section PeakLemmas.
Context (parse_entry : list byte -> option TranscriptEntry).

(** Invariant of the loop: the running maximum bounds every usage seen,
    never decreases, and is either the initial one or the total of a
    line seen, paired with that line's breakdown. *)
Lemma fold_peak_inv ls acc :
  let r := fold_left (peak_step parse_entry) ls acc in
  (acc.2 <= r.2)%N /\
  (forall l u, In l ls -> assistant_usage parse_entry l = Some u -> (usage_total u <= r.2)%N) /\
  (r = acc \/ exists l u, In l ls /\ assistant_usage parse_entry l = Some u /\
                          r = (usage_breakdown u, usage_total u)).
Proof.
  revert acc. induction ls as [|x ls IH]; intros acc; simpl.
  - split; [lia|]. split; [intros ? ? []|]. left; reflexivity.
  - destruct (IH (peak_step parse_entry acc x)) as (Hmono & Hall & Hwho).
    set (r := fold_left (peak_step parse_entry) ls (peak_step parse_entry acc x)) in *.
    assert (Hstep : (acc.2 <= (peak_step parse_entry acc x).2)%N /\
                    (forall u, assistant_usage parse_entry x = Some u ->
                               (usage_total u <= (peak_step parse_entry acc x).2)%N) /\
                    (peak_step parse_entry acc x = acc \/
                     exists u, assistant_usage parse_entry x = Some u /\
                               peak_step parse_entry acc x = (usage_breakdown u, usage_total u))).
    { unfold peak_step. destruct (assistant_usage parse_entry x) as [u|].
      - destruct (acc.2 <? usage_total u)%N eqn:E.
        + apply N.ltb_lt in E. simpl. split; [lia|]. split; [intros ? [= ->]; lia|].
          right. eauto.
        + apply N.ltb_ge in E. split; [lia|]. split; [intros ? [= ->]; lia|]. left; reflexivity.
      - split; [lia|]. split; [discriminate|]. left; reflexivity. }
    destruct Hstep as (Hs1 & Hs2 & Hs3).
    split; [lia|]. split.
    + intros l u [<-|Hin] Hu; [specialize (Hs2 u Hu); lia|]. eauto.
    + destruct Hwho as [Hr|(l & u & Hin & Hu & Hr)]; [|right; exists l, u; auto].
      rewrite Hr. destruct Hs3 as [Hs|(u & Hu & Hs)]; [left; exact Hs|].
      right. exists x, u. auto.
Qed.

Lemma select_peak_spec ls :
  let r := select_peak parse_entry ls in
  (forall l u, In l ls -> assistant_usage parse_entry l = Some u -> (usage_total u <= r.2)%N) /\
  (r = (TokenBreakdown_default, 0%N) \/
   exists l u, In l ls /\ assistant_usage parse_entry l = Some u /\
               r = (usage_breakdown u, usage_total u)).
Proof.
  destruct (fold_peak_inv ls (TokenBreakdown_default, 0%N)) as (_ & H1 & H2).
  split; [exact H1 | exact H2].
Qed.

End PeakLemmas.

Lemma get_token_breakdown_unfold parse_entry fs cap path p bs :
  validate_transcript_file fs path = Ok p -> contents fs p = Some bs ->
  get_token_breakdown_from_transcript parse_entry fs cap path =
  let '(best, max_total) := select_peak parse_entry (tail_lines bs cap) in
  if (0 <? max_total)%N then Some best else None.
Proof. intros Hv Hc. unfold get_token_breakdown_from_transcript. rewrite Hv. simpl. rewrite Hc. reflexivity. Qed.

Lemma total_usage_breakdown u : total (usage_breakdown u) = usage_total u.
Proof.
  unfold total, usage_total, usage_breakdown. simpl. rewrite !wrap32_sum4. f_equal. lia.
Qed.

(** A token count, when there is one, is positive. *)
Lemma get_token_count_pos parse_entry fs cap path t :
  get_token_count_from_transcript parse_entry fs cap path = Some t -> (0 < t)%N.
Proof.
  unfold get_token_count_from_transcript, get_token_breakdown_from_transcript.
  destruct (result_ok (validate_transcript_file fs path)) as [p|]; [|discriminate]. simpl.
  destruct (contents fs p) as [bs|]; [|discriminate]. simpl.
  destruct (select_peak_spec parse_entry (tail_lines bs cap)) as (_ & Hwho).
  destruct (select_peak parse_entry (tail_lines bs cap)) as [best m]. simpl in *.
  destruct (0 <? m)%N eqn:Hm; [|discriminate]. apply N.ltb_lt in Hm.
  destruct Hwho as [[= _ ->]|(l & u & _ & _ & [= -> ->])]; [lia|].
  intros [= <-]. rewrite total_usage_breakdown. exact Hm.
Qed.

(** ** Theorems *)

(** C9: for a positive [buffer_lines], the circular buffer of the
    small-file path holds exactly the last [buffer_lines] lines read
    (oldest evicted first). *)
Theorem read_small_last_lines bs cap :
  (0 < cap)%N -> read_small bs cap = lastn (N.to_nat cap) (map_while_ok (lines bs)).
Proof. intros Hcap. unfold read_small. apply circular_fold_lastn; simpl; lia. Qed.

(** C16: with [buffer_lines = 0] the small-file path keeps every
    line of the file (the deque is never full once it holds a line),
    while the large-file path keeps none. *)
Theorem buffer_lines_zero_divergence bs :
  read_small bs 0 = map_while_ok (lines bs) /\ read_large bs 0 = [].
Proof. split; [apply circular_fold_zero | reflexivity]. Qed.

(** C4: on a valid transcript, the extractor returns data exactly when
    some assistant line of the window carries a non-zero total, and then
    it returns the breakdown of a line whose total is the largest of the
    window (not necessarily the last one). *)
Theorem get_token_breakdown_peak parse_entry fs cap path p bs :
  validate_transcript_file fs path = Ok p -> contents fs p = Some bs ->
  (get_token_breakdown_from_transcript parse_entry fs cap path = None <->
   forall l u, In l (tail_lines bs cap) -> assistant_usage parse_entry l = Some u ->
               usage_total u = 0%N) /\
  (forall b, get_token_breakdown_from_transcript parse_entry fs cap path = Some b ->
   exists l u, In l (tail_lines bs cap) /\ assistant_usage parse_entry l = Some u /\
     b = usage_breakdown u /\ (0 < usage_total u)%N /\
     forall l' u', In l' (tail_lines bs cap) -> assistant_usage parse_entry l' = Some u' ->
                   (usage_total u' <= usage_total u)%N).
Proof.
  intros Hv Hc. rewrite (get_token_breakdown_unfold _ _ _ _ _ _ Hv Hc).
  destruct (select_peak_spec parse_entry (tail_lines bs cap)) as (Hmax & Hwho).
  destruct (select_peak parse_entry (tail_lines bs cap)) as [best m]. simpl in *.
  destruct (0 <? m)%N eqn:Hm; [apply N.ltb_lt in Hm | apply N.ltb_ge in Hm].
  - destruct Hwho as [[= _ ->]|(l & u & Hin & Hu & [= -> ->])]; [lia|]. split.
    + split; [discriminate|]. intros Hz. specialize (Hz l u Hin Hu). lia.
    + intros b [= <-]. exists l, u. repeat split; auto.
  - split; [|discriminate]. split; [|reflexivity].
    intros _ l u Hin Hu. specialize (Hmax l u Hin Hu). lia.
Qed.

(** C5: on a transcript of 1 MiB or more, when the seek offset
    [size - max(2048 * buffer_lines, 200 KiB)] falls on a UTF-8
    continuation byte (inside a multi-byte character), the extractor
    returns no data, whatever the window contains: the partial first line
    is an [InvalidData] error and [map_while] ends the iteration before
    the line can be skipped. *)
Theorem large_transcript_split_char_no_data parse_entry fs cap path p bs b :
  validate_transcript_file fs path = Ok p -> contents fs p = Some bs ->
  (small_file_limit <= N.of_nat (length bs))%N ->
  bs !! N.to_nat (start_pos bs cap) = Some b -> cont b = true ->
  get_token_breakdown_from_transcript parse_entry fs cap path = None.
Proof.
  intros Hv Hc Hlarge Hb Hcont. rewrite (get_token_breakdown_unfold _ _ _ _ _ _ Hv Hc).
  unfold tail_lines. replace (N.of_nat (length bs) <? small_file_limit)%N with false
    by (symmetry; apply N.ltb_ge; exact Hlarge).
  rewrite (read_large_split_char bs cap b Hb Hcont). reflexivity.
Qed.

(** Every validation failure is an [InvalidPath] error, and
    the extractor turns it into "no data". *)
Theorem invalid_transcript_no_data parse_entry fs cap path e :
  validate_transcript_file fs path = Err e ->
  (exists msg, e = InvalidPath msg) /\
  get_token_breakdown_from_transcript parse_entry fs cap path = None.
Proof.
  intros Hv. split.
  - revert Hv. unfold validate_transcript_file, validate_path_security.
    destruct (has_nul path); [intros [= <-]; eauto|].
    destruct (canonicalize fs path) as [q|]; simpl; [|intros [= <-]; eauto].
    destruct (is_file fs q); simpl; [|intros [= <-]; eauto].
    destruct (extension q) as [ext|]; [|intros [= <-]; eauto].
    destruct (eq_ignore_ascii_case ext "jsonl"); intros [= <-]; eauto.
  - unfold get_token_breakdown_from_transcript. rewrite Hv. reflexivity.
Qed.

(** C15: a transcript path is accepted exactly when it has no NUL
    byte, canonicalises, names a regular file, and the file name has an
    extension equal to "jsonl" up to ASCII case (a dot-file such as
    ".jsonl" has no extension). *)
Theorem validate_transcript_file_ok fs path p :
  validate_transcript_file fs path = Ok p <->
  has_nul path = false /\ canonicalize fs path = Some p /\ is_file fs p = true /\
  exists ext, extension p = Some ext /\ eq_ignore_ascii_case ext "jsonl" = true.
Proof.
  unfold validate_transcript_file, validate_path_security. split.
  - destruct (has_nul path); [discriminate|].
    destruct (canonicalize fs path) as [q|]; simpl; [|discriminate].
    destruct (is_file fs q) eqn:Hf; simpl; [|discriminate].
    destruct (extension q) as [ext|] eqn:He; [|discriminate].
    destruct (eq_ignore_ascii_case ext "jsonl") eqn:Hj; [|discriminate].
    intros [= <-]. eauto 10.
  - intros (-> & -> & Hf & ext & He & Hj). simpl. rewrite Hf, He, Hj. reflexivity.
Qed.

Example extension_cases :
  extension "/home/u/.jsonl" = None /\ extension "/home/u/a.JSONL" = Some "JSONL" /\
  eq_ignore_ascii_case "JSONL" "jsonl" = true /\ extension "/home/u/a.jsonl.bak" = Some "bak" /\
  extension "/a.b/c" = None /\ has_nul (String (Ascii.ascii_of_nat 0) "x.jsonl") = true.
Proof. repeat split; reflexivity. Qed.

(** The token total is the exact sum of the four counts as long as
    each is below 2^30; beyond, the u32 additions wrap (release build). *)
Theorem usage_total_exact u :
  (default 0 (input_tokens u) < 2 ^ 30)%N -> (default 0 (output_tokens u) < 2 ^ 30)%N ->
  (default 0 (cache_read_input_tokens u) < 2 ^ 30)%N ->
  (default 0 (cache_creation_input_tokens u) < 2 ^ 30)%N ->
  usage_total u = (default 0 (input_tokens u) + default 0 (output_tokens u) +
                   default 0 (cache_read_input_tokens u) +
                   default 0 (cache_creation_input_tokens u))%N.
Proof.
  intros H1 H2 H3 H4. unfold usage_total. rewrite wrap32_sum4, wrap32_small.
  - lia.
  - unfold u32_modulus. lia.
Qed.

Example usage_total_wraps :
  usage_total {| input_tokens := Some (2 ^ 32 - 1)%N; output_tokens := Some 2%N;
                 cache_creation_input_tokens := None; cache_read_input_tokens := None |} = 1%N.
Proof. reflexivity. Qed.

(** ** Witnesses *)

(** An example decoder: a line "A" followed by k bytes is an assistant
    message using 1000 * (k + 1) input tokens, "U..." a user message,
    anything else is not JSON. *)
Definition example_parse (line : list byte) : option TranscriptEntry :=
  match line with
  | x41 :: rest => Some {| message := {| role := "assistant";
        usage := Some {| input_tokens := Some (1000 * N.of_nat (S (length rest)))%N;
                         output_tokens := None; cache_creation_input_tokens := None;
                         cache_read_input_tokens := None |} |};
        timestamp := "2025-01-01T00:00:00Z" |}
  | x55 :: _ => Some {| message := {| role := "user"; usage := None |};
                        timestamp := "2025-01-01T00:00:00Z" |}
  | _ => None
  end.

Definition example_fs (bs : list byte) : FileSystem := {|
  canonicalize := fun p => Some p; is_file := fun _ => true; contents := fun _ => Some bs
|}.

(** "AAA\nAA\nU\n": the peak (3000 tokens) is the first line, not the last. *)
Definition small_transcript : list byte := [x41; x41; x41; x0a; x41; x41; x0a; x55; x0a].

Lemma get_token_breakdown_peak_witness :
  get_token_breakdown_from_transcript example_parse (example_fs small_transcript) 50
    "/t/s.jsonl" = Some {| bd_input_tokens := 3000; bd_output_tokens := 0;
                            bd_cache_read_tokens := 0; bd_cache_creation_tokens := 0 |} /\
  (forall b, get_token_breakdown_from_transcript example_parse (example_fs small_transcript) 50
               "/t/s.jsonl" = Some b ->
   exists l u, In l (tail_lines small_transcript 50) /\ assistant_usage example_parse l = Some u /\
     b = usage_breakdown u /\ (0 < usage_total u)%N /\
     forall l' u', In l' (tail_lines small_transcript 50) -> assistant_usage example_parse l' = Some u' ->
                   (usage_total u' <= usage_total u)%N).
Proof.
  split; [reflexivity|].
  apply (get_token_breakdown_peak example_parse (example_fs small_transcript) 50 "/t/s.jsonl"
           "/t/s.jsonl" small_transcript); reflexivity.
Defined.

Lemma read_small_last_lines_witness :
  read_small small_transcript 2 = [[x41; x41]; [x55]] /\
  read_small small_transcript 2 = lastn 2 (map_while_ok (lines small_transcript)).
Proof. split; [reflexivity | apply read_small_last_lines; lia]. Defined.

Definition repeat_N (n : N) (b : byte) : list byte := N.iter n (cons b) [].

(** A 1104800-byte transcript: filler, then "…" (E2 80 A6) straddling the
    seek offset 1104800 - 204800 = 900000, then an assistant line "A". *)
Definition large_transcript : list byte :=
  repeat_N 899999 x61 ++ [xe2; x80; xa6; x0a; x41; x0a] ++ repeat_N 204795 x61.

Lemma large_transcript_split_char_no_data_witness :
  get_token_breakdown_from_transcript example_parse (example_fs large_transcript) 50
    "/t/big.jsonl" = None.
Proof.
  apply (large_transcript_split_char_no_data example_parse (example_fs large_transcript) 50
           "/t/big.jsonl" "/t/big.jsonl" large_transcript x80);
    [reflexivity | reflexivity | vm_compute; discriminate | vm_compute; reflexivity | reflexivity].
Defined.

Lemma invalid_transcript_no_data_witness :
  get_token_breakdown_from_transcript example_parse (example_fs small_transcript) 50
    "/t/.jsonl" = None.
Proof.
  apply (invalid_transcript_no_data _ _ _ _ (InvalidPath "File must have .jsonl extension")).
  reflexivity.
Defined.

Lemma validate_transcript_file_ok_witness :
  validate_transcript_file (example_fs small_transcript) "/t/A.JSONL" = Ok "/t/A.JSONL".
Proof.
  apply validate_transcript_file_ok. repeat split; try reflexivity. eexists; split; reflexivity.
Defined.

Lemma usage_total_exact_witness :
  usage_total {| input_tokens := Some 120000%N; output_tokens := Some 800%N;
                 cache_creation_input_tokens := Some 3000%N; cache_read_input_tokens := None |}
  = 123800%N.
Proof. apply usage_total_exact; simpl; lia. Defined.

End Transcript.
