(* ===== verification/Usage.v ===== *)
(** * Usage: the usage estimator (utils.rs, calculate_context_usage)

    [calculate_context_usage] composes the components: the token count of
    the transcript ([Transcript.get_token_count_from_transcript]), the
    compaction state ([Detector.detect_compaction_state]), the resolved
    window ([Resolver.get_context_window_for_model]) and the configuration
    ([Config.get_effective_threshold]).  The collaborators (file system,
    JSON decoder, detector environment, model-name parser, learner) are
    the [Context] of the section [Estimator].

    The resolved window is the working window when adaptive learning is on
    (full = working + buffer) and the full window when it is off
    (working = full - buffer, saturating).  The percentage is an [f64]:
    a division by a zero window gives +inf, which [min(100.0)] clamps.

    On f64 rounding: the token total is below 2^32 and the windows are
    configuration values below 2^53, so [total as f64] and [window as f64]
    are exact; the quotient and the product by 100 are correctly rounded,
    and the comparisons the theorems make against thresholds with one
    decimal digit are decided by the exact value unless the exact value
    lies within one ulp of the threshold.  The exact-rational model is
    used throughout and this residual rounding is not modelled. *)

From S2P Require Import Prelude Config Compaction TokenExtractor ContextWindow.
From Stdlib Require Import Strings.Byte.
Close Scope Q_scope.

Module Estimator.
Import Config Detector Transcript Resolver.

(** [ContextUsage] (models.rs). *)
Record ContextUsage := {
  percentage : f64;
  approaching_limit : bool;
  tokens_remaining : N;
  compaction_state : CompactionState
}.

(** [(full_window, working_window)] from the resolved window. *)
Definition windows (cfg : Config) (base_window : N) : N * N :=
  if adaptive_learning (context cfg) then (base_window + buffer_size (context cfg), base_window)%N
  else (base_window, base_window - buffer_size (context cfg))%N.

(** The percentage before clamping, by display mode. *)
Definition raw_percentage (cfg : Config) (total_tokens : N) (full_window working_window : N) : f64 :=
  if String.eqb (percentage_mode (context cfg)) "working" then
    f64_mul_fin (f64_div_N total_tokens working_window) 100
  else f64_mul_fin (f64_div_N total_tokens full_window) 100.

Section WithCollaborators.
Context (parse_entry : list byte -> option TranscriptEntry) (fs : FileSystem)
        (env : Env) (from_name : string -> ModelType) `{LearnedWindowSource}.

(** [config_override.unwrap_or_else(|| config::get_config())]; the
    transcript reader always uses the global configuration's
    [transcript.buffer_lines]. *)
Definition calculate_context_usage (global : Config) (transcript_path : string)
    (model_name : option string) (session_id : option string)
    (config_override : option Config) : option ContextUsage :=
  total_tokens ← get_token_count_from_transcript parse_entry fs
                   (buffer_lines (transcript global)) transcript_path;
  let cfg := default global config_override in
  let state := detect_compaction_state env transcript_path total_tokens session_id in
  let base_window := get_context_window_for_model from_name model_name cfg in
  let '(full_window, working_window) := windows cfg base_window in
  let pct := raw_percentage cfg total_tokens full_window working_window in
  Some {| percentage := f64_min pct 100;
          approaching_limit := f64_geb pct (get_effective_threshold (context cfg));
          tokens_remaining := working_window - total_tokens;
          compaction_state := state |}.

(** The result of an invocation with token count [t]. *)
Lemma calculate_context_usage_eq global path model sid ov t :
  get_token_count_from_transcript parse_entry fs (buffer_lines (transcript global)) path = Some t ->
  let cfg := default global ov in
  let '(full_window, working_window) :=
    windows cfg (get_context_window_for_model from_name model cfg) in
  let pct := raw_percentage cfg t full_window working_window in
  calculate_context_usage global path model sid ov =
  Some {| percentage := f64_min pct 100;
          approaching_limit := f64_geb pct (get_effective_threshold (context cfg));
          tokens_remaining := working_window - t;
          compaction_state := detect_compaction_state env path t sid |}.
Proof.
  intros Ht. unfold calculate_context_usage. rewrite Ht. simpl.
  destruct (windows _ _). reflexivity.
Qed.

End WithCollaborators.

Lemma raw_percentage_nonneg cfg t fw ww : f64_nonneg (raw_percentage cfg t fw ww).
Proof.
  unfold raw_percentage.
  destruct (String.eqb _ _); apply f64_mul_fin_nonneg; try apply f64_div_N_nonneg;
    unfold Qle; simpl; lia.
Qed.

(** The percentage of [t] tokens in a window [w >= t > 0], in f64. *)
Lemma pct_of_window t w :
  (0 < w)%N -> f64_mul_fin (f64_div_N t w) 100 = Fin (inject_Z (Z.of_N t) / inject_Z (Z.of_N w) * 100).
Proof.
  intros Hw. unfold f64_div_N. destruct (decide (w = 0%N)); [lia|]. reflexivity.
Qed.

Lemma pct_le_100 t w :
  (0 < w)%N -> (t <= w)%N -> (inject_Z (Z.of_N t) / inject_Z (Z.of_N w) * 100 <= 100)%Q.
Proof.
  intros Hw Ht. rewrite Qmult_div_swap, Qdiv_le_iff by (apply inject_Z_N_pos; exact Hw).
  unfold Qle. simpl. lia.
Qed.

Lemma windows_not_adaptive cfg base :
  adaptive_learning (context cfg) = false ->
  windows cfg base = (base, base - buffer_size (context cfg))%N.
Proof. intros Ha. unfold windows. rewrite Ha. reflexivity. Qed.

(** A configuration with another display mode or another context record. *)
Definition with_context (cfg : Config) (c : ContextConfig) : Config := {|
  display := display cfg; context := c; cost := cost cfg; database := database cfg;
  retry := retry cfg; transcript := transcript cfg; git := git cfg |}.

Definition with_mode (c : ContextConfig) (mode : string) : ContextConfig := {|
  window_size := window_size c; model_windows := model_windows c;
  adaptive_learning := adaptive_learning c;
  learning_confidence_threshold := learning_confidence_threshold c;
  buffer_size := buffer_size c; auto_compact_threshold := auto_compact_threshold c;
  percentage_mode := mode |}.

Definition working_default : Config := with_context default_config (with_mode default_context "working").

Section Properties.
Context (parse_entry : list byte -> option TranscriptEntry) (fs : FileSystem)
        (env : Env) (from_name : string -> ModelType) `{LearnedWindowSource}.


(** C2: whenever the estimator returns a usage, its percentage is a
    finite number between 0 and 100 (a zero window gives +inf before the
    clamp, never NaN). *)
Theorem context_usage_percentage_bounded global path model sid ov u :
  calculate_context_usage parse_entry fs env from_name global path model sid ov = Some u ->
  exists q, percentage u = Fin q /\ (0 <= q <= 100)%Q.
Proof.
  unfold calculate_context_usage.
  destruct (get_token_count_from_transcript _ _ _ path) as [t|]; simpl; [|discriminate].
  destruct (windows _ _) as [fw ww]. intros [= <-]. simpl.
  apply f64_min_bounds; [apply raw_percentage_nonneg | unfold Qle; simpl; lia].
Qed.

(** C6: with adaptive learning off and the "full" display mode, the
    percentage is [100 * tokens / window] of the resolved window. *)
Theorem percentage_full_mode global path model sid ov t w :
  get_token_count_from_transcript parse_entry fs (buffer_lines (transcript global)) path = Some t ->
  adaptive_learning (context (default global ov)) = false ->
  String.eqb (percentage_mode (context (default global ov))) "working" = false ->
  get_context_window_for_model from_name model (default global ov) = w -> (t <= w)%N ->
  exists u, calculate_context_usage parse_entry fs env from_name global path model sid ov = Some u /\
            percentage u = Fin (inject_Z (Z.of_N t) / inject_Z (Z.of_N w) * 100).
Proof.
  intros Ht Ha Hm Hw Htw. pose proof (get_token_count_pos _ _ _ _ _ Ht) as Hpos.
  pose proof (calculate_context_usage_eq parse_entry fs env from_name global path model sid ov t Ht) as E.
  simpl in E. rewrite Hw, windows_not_adaptive in E by exact Ha. simpl in E.
  eexists; split; [exact E|]. simpl. unfold raw_percentage. rewrite Hm.
  rewrite pct_of_window by lia. apply f64_min_small, pct_le_100; lia.
Qed.

(** C7: with adaptive learning off and the "working" display mode,
    the percentage is taken of the working window [window - buffer]. *)
Theorem percentage_working_mode global path model sid ov t w :
  get_token_count_from_transcript parse_entry fs (buffer_lines (transcript global)) path = Some t ->
  adaptive_learning (context (default global ov)) = false ->
  String.eqb (percentage_mode (context (default global ov))) "working" = true ->
  get_context_window_for_model from_name model (default global ov) = w ->
  (t + buffer_size (context (default global ov)) <= w)%N ->
  exists u, calculate_context_usage parse_entry fs env from_name global path model sid ov = Some u /\
    percentage u = Fin (inject_Z (Z.of_N t) /
                        inject_Z (Z.of_N (w - buffer_size (context (default global ov)))) * 100).
Proof.
  intros Ht Ha Hm Hw Htw. pose proof (get_token_count_pos _ _ _ _ _ Ht) as Hpos.
  pose proof (calculate_context_usage_eq parse_entry fs env from_name global path model sid ov t Ht) as E.
  simpl in E. rewrite Hw, windows_not_adaptive in E by exact Ha. simpl in E.
  eexists; split; [exact E|]. simpl. unfold raw_percentage. rewrite Hm.
  rewrite pct_of_window by lia. apply f64_min_small, pct_le_100; lia.
Qed.

(** C13: when the buffer swallows the whole advertised window (learning
    off, "working" mode), the division by the zero working window gives
    +inf: the usage reads 100%, warns, and has no tokens remaining. *)
Theorem zero_working_window_saturates global path model sid ov t :
  get_token_count_from_transcript parse_entry fs (buffer_lines (transcript global)) path = Some t ->
  adaptive_learning (context (default global ov)) = false ->
  String.eqb (percentage_mode (context (default global ov))) "working" = true ->
  (get_context_window_for_model from_name model (default global ov) <=
   buffer_size (context (default global ov)))%N ->
  exists u, calculate_context_usage parse_entry fs env from_name global path model sid ov = Some u /\
    percentage u = Fin 100 /\ approaching_limit u = true /\ tokens_remaining u = 0%N.
Proof.
  intros Ht Ha Hm Hw. pose proof (get_token_count_pos _ _ _ _ _ Ht) as Hpos.
  pose proof (calculate_context_usage_eq parse_entry fs env from_name global path model sid ov t Ht) as E.
  simpl in E. rewrite windows_not_adaptive in E by exact Ha. simpl in E.
  eexists; split; [exact E|]. simpl. unfold raw_percentage. rewrite Hm.
  replace (get_context_window_for_model _ _ _ - _)%N with 0%N by lia.
  unfold f64_div_N. destruct (decide (0%N = 0%N)) as [_|]; [|congruence].
  destruct (decide (t = 0%N)); [lia|]. simpl. repeat split; lia.
Qed.

(** C8: with the default configuration (200k window, 40k buffer, the
    default threshold 75), the "full" display warns from 150000 tokens on,
    but the "working" display, whose threshold is adjusted to 94%, warns
    only from 150400 tokens on: the two modes do not warn at the same
    token count, as the specification and the comment in config.rs say
    (94% of 160k is 150.4k, not 150k). *)
Theorem default_warning_points path sid t :
  get_token_count_from_transcript parse_entry fs (buffer_lines (transcript default_config)) path = Some t ->
  (exists u, calculate_context_usage parse_entry fs env from_name default_config path None sid None = Some u /\
             (approaching_limit u = true <-> (150000 <= t)%N)) /\
  (exists u, calculate_context_usage parse_entry fs env from_name default_config path None sid (Some working_default) = Some u /\
             (approaching_limit u = true <-> (150400 <= t)%N)).
Proof.
  intros Ht. pose proof (get_token_count_pos _ _ _ _ _ Ht) as Hpos. split.
  - pose proof (calculate_context_usage_eq parse_entry fs env from_name default_config
                  path None sid None t Ht) as E.
    simpl in E. eexists; split; [exact E|]. simpl.
    replace (get_effective_threshold default_context) with 75%Q by reflexivity.
    rewrite Qle_bool_iff, Qmult_div_swap, Qle_div_iff by reflexivity.
    unfold Qle. simpl. lia.
  - pose proof (calculate_context_usage_eq parse_entry fs env from_name default_config
                  path None sid (Some working_default) t Ht) as E.
    simpl in E. eexists; split; [exact E|]. simpl.
    replace (get_effective_threshold _) with 94%Q by reflexivity.
    rewrite Qle_bool_iff, Qmult_div_swap, Qle_div_iff by reflexivity.
    unfold Qle. simpl. lia.
Qed.

End Properties.

(** ** Witnesses *)

(** One assistant line of [1000 * (k + 1)] tokens, with [example_parse]. *)
Definition usage_transcript (k : N) : list byte := x41 :: repeat_N k x61 ++ [x0a].

Definition ex_calc (k : N) :=
  calculate_context_usage example_parse (example_fs (usage_transcript k)) (example_env 30)
    example_from_name.

Definition ex_usage : ContextUsage :=
  {| percentage := NaN; approaching_limit := false; tokens_remaining := 0; compaction_state := Normal |}.

Lemma context_usage_percentage_bounded_witness :
  exists q, percentage (default ex_usage (ex_calc 124 default_config "/t/u.jsonl" None None None))
            = Fin q /\ (0 <= q <= 100)%Q.
Proof.
  apply (context_usage_percentage_bounded example_parse (example_fs (usage_transcript 124))
           (example_env 30) example_from_name default_config "/t/u.jsonl" None None None).
  vm_compute. reflexivity.
Defined.

(** The specification's example: 125000 tokens of a 200000 window, "full"
    mode, is 62.5%. *)
Lemma percentage_full_mode_witness :
  (exists u, ex_calc 124 default_config "/t/u.jsonl" None None None = Some u /\
     percentage u = Fin (inject_Z (Z.of_N 125000) / inject_Z (Z.of_N 200000) * 100)) /\
  (inject_Z (Z.of_N 125000) / inject_Z (Z.of_N 200000) * 100 == 125 # 2)%Q.
Proof.
  split; [|reflexivity].
  apply (percentage_full_mode example_parse (example_fs (usage_transcript 124)) (example_env 30)
           example_from_name default_config "/t/u.jsonl" None None None 125000 200000);
    vm_compute; try reflexivity; discriminate.
Defined.

(** The specification's example: the same 125000 tokens in "working" mode
    against 200000 - 40000 = 160000 is 78.125%. *)
Lemma percentage_working_mode_witness :
  (exists u, ex_calc 124 default_config "/t/u.jsonl" None None (Some working_default) = Some u /\
     percentage u = Fin (inject_Z (Z.of_N 125000) / inject_Z (Z.of_N (200000 - 40000)) * 100)) /\
  (inject_Z (Z.of_N 125000) / inject_Z (Z.of_N (200000 - 40000)) * 100 == 625 # 8)%Q.
Proof.
  split; [|reflexivity].
  apply (percentage_working_mode example_parse (example_fs (usage_transcript 124)) (example_env 30)
           example_from_name default_config "/t/u.jsonl" None None (Some working_default)
           125000 200000);
    vm_compute; try reflexivity; discriminate.
Defined.

Definition tiny_window_working : Config :=
  with_context default_config
    (with_mode {| window_size := 30000; model_windows := ∅; adaptive_learning := false;
                  learning_confidence_threshold := 7 # 10; buffer_size := 40000;
                  auto_compact_threshold := 75; percentage_mode := "full" |} "working").

Lemma zero_working_window_saturates_witness :
  exists u, ex_calc 4 default_config "/t/u.jsonl" None None (Some tiny_window_working) = Some u /\
    percentage u = Fin 100 /\ approaching_limit u = true /\ tokens_remaining u = 0%N.
Proof.
  apply (zero_working_window_saturates example_parse (example_fs (usage_transcript 4))
           (example_env 30) example_from_name default_config "/t/u.jsonl" None None
           (Some tiny_window_working) 5000);
    vm_compute; first [reflexivity | discriminate].
Defined.

(** At 150000 tokens the "full" mode warns and the "working" mode does not. *)
Lemma default_warning_points_witness :
  (exists u, ex_calc 149 default_config "/t/u.jsonl" None None None = Some u /\
             (approaching_limit u = true <-> (150000 <= 150000)%N)) /\
  (exists u, ex_calc 149 default_config "/t/u.jsonl" None None (Some working_default) = Some u /\
             (approaching_limit u = true <-> (150400 <= 150000)%N)).
Proof.
  apply (default_warning_points example_parse (example_fs (usage_transcript 149))
           (example_env 30) example_from_name "/t/u.jsonl" None 150000).
  vm_compute. reflexivity.
Defined.

End Estimator.
