(* ===== verification/Format.v ===== *)
(** * Format: number, duration and context-bar formatting

    [format_token_count] (utils.rs), [format_duration], the context colour
    thresholds ([Colors::context_color], [Colors::cost_color]) and
    [format_context_bar] (display.rs).  Decimal output of integers is the
    Standard Library's printer of [Decimal.uint]; [f64::round] is
    [round_half_away] of the prelude; the theme's colour strings are the
    fields of a [Palette] (all empty under NO_COLOR).

    Theorems: [format_token_count] equals the integer formula
    [max(1, (n + 500) / 1000)] followed by "k" (the f64 division and
    rounding introduce no error); the progress bar always has exactly
    [progress_bar_width] characters; the colour level is monotone in the
    percentage. *)

From S2P Require Import Prelude Config Compaction.
From Stdlib Require Import DecimalString DecimalN.
Close Scope Q_scope.

Module Fmt.
Import Config Detector.

(** [format!("{}", n)] for an unsigned integer. *)
Definition N_to_string (n : N) : string :=
  NilEmpty.string_of_uint (N.to_uint n).

(** [(tokens as f64 / 1000.0).round() as usize], [k.max(1)]. *)
Definition format_token_count (tokens : N) : string :=
  if (tokens =? 0)%N then "0"
  else let k := Z_as_usize (round_half_away (inject_Z (Z.of_N tokens) / 1000)%Q) in
       (N_to_string (N.max k 1) +:+ "k")%string.

Definition format_duration (seconds : N) : string :=
  if (seconds <? 60)%N then (N_to_string seconds +:+ "s")%string
  else if (seconds <? 3600)%N then (N_to_string (seconds / 60) +:+ "m")%string
  else (N_to_string (seconds / 3600) +:+ "h" +:+ N_to_string ((seconds mod 3600) / 60) +:+ "m")%string.

(** ** Colours *)

Inductive ContextLevel := CtxNormal | CtxCaution | CtxWarning | CtxCritical.

Definition context_level_rank (l : ContextLevel) : nat :=
  match l with CtxNormal => 0 | CtxCaution => 1 | CtxWarning => 2 | CtxCritical => 3 end.

(** The branch [Colors::context_color] takes. *)
Definition context_level (d : DisplayConfig) (percentage : f64) : ContextLevel :=
  if f64_gtb percentage (context_critical_threshold d) then CtxCritical
  else if f64_gtb percentage (context_warning_threshold d) then CtxWarning
  else if f64_gtb percentage (context_caution_threshold d) then CtxCaution
  else CtxNormal.

Inductive CostLevel := CostLow | CostMedium | CostHigh.

(** The branch [Colors::cost_color] takes. *)
Definition cost_level (c : CostConfig) (cost : Q) : CostLevel :=
  if Qle_bool (medium_threshold c) cost then CostHigh
  else if Qle_bool (low_threshold c) cost then CostMedium
  else CostLow.

(** The colour strings of the current theme ([Colors::*]). *)
Record Palette := {
  c_reset : string;
  c_yellow : string;
  c_green : string;
  c_orange : string;
  c_light_gray : string;
  c_context : ContextLevel -> string
}.

Definition no_color : Palette := {|
  c_reset := ""; c_yellow := ""; c_green := ""; c_orange := ""; c_light_gray := "";
  c_context := fun _ => ""
|}.

(** ** The context bar *)

Definition usize_max : N := 2 ^ 64 - 1.

(** [x.round() as usize] (saturating cast: NaN gives 0, +inf the maximum). *)
Definition f64_round_as_usize (x : f64) : N :=
  match x with
  | Fin q => N.min (Z_as_usize (round_half_away q)) usize_max
  | PosInf => usize_max
  | NaN => 0%N
  end.

Fixpoint repeat_str (s : string) (n : nat) : string :=
  match n with O => EmptyString | S k => (s +:+ repeat_str s k)%string end.

(** [filled] and the bar string of [format_context_bar]. *)
Definition bar_filled (percentage : f64) (bar_width : N) : N :=
  N.min (f64_round_as_usize (f64_mul_fin (match percentage with
                                           | Fin q => Fin (q / 100)%Q
                                           | other => other end) (inject_Z (Z.of_N bar_width))))
        bar_width.

Definition progress_bar (percentage : f64) (bar_width : N) : string :=
  let filled := bar_filled percentage bar_width in
  let empty := (bar_width - filled)%N in
  (repeat_str "=" (N.to_nat filled) +:+
   (if (filled <? bar_width)%N then ">" else "") +:+
   repeat_str "-" (N.to_nat (empty - (if (filled <? bar_width)%N then 1 else 0))))%string.

(** [percentage.round() as u32] (the percentage is in [0, 100]). *)
Definition percentage_digits (percentage : f64) : string :=
  N_to_string (f64_round_as_usize percentage).

Definition format_context_bar (pal : Palette) (d : DisplayConfig) (percentage : f64)
    (approaching_limit : bool) (state : CompactionState)
    (current_tokens : option N) (window_size : option N) : string :=
  let token_display :=
    match current_tokens, window_size with
    | Some current, Some window =>
        if show_context_tokens d then
          (" " +:+ c_light_gray pal +:+ format_token_count current +:+ "/" +:+
           format_token_count window +:+ c_reset pal)%string
        else ""
    | _, _ => ""
    end in
  let color := c_context pal (context_level d percentage) in
  let bar := progress_bar percentage (progress_bar_width d) in
  match state with
  | InProgress => (c_yellow pal +:+ "Compacting..." +:+ c_reset pal +:+ token_display)%string
  | RecentlyCompleted =>
      (color +:+ percentage_digits percentage +:+ "%" +:+ c_reset pal +:+ " " +:+ color +:+
       "[" +:+ bar +:+ "]" +:+ c_reset pal +:+ " " +:+ c_green pal +:+ "✓" +:+ c_reset pal +:+
       token_display)%string
  | Normal =>
      let warning := if approaching_limit then (" " +:+ c_orange pal +:+ "⚠" +:+ c_reset pal)%string
                     else "" in
      (color +:+ percentage_digits percentage +:+ "%" +:+ c_reset pal +:+ " " +:+ color +:+
       "[" +:+ bar +:+ "]" +:+ c_reset pal +:+ warning +:+ token_display)%string
  end.

(** ** Lemmas *)

Lemma repeat_str_length s n : String.length (repeat_str s n) = n * String.length s.
Proof. induction n as [|n IH]; simpl; [reflexivity|]. rewrite string_length_app, IH. lia. Qed.
#[export] Hint Rewrite repeat_str_length : statusline_rw.

Lemma bar_filled_le p w : (bar_filled p w <= w)%N.
Proof. unfold bar_filled. lia. Qed.

Lemma f64_gtb_mono p p' c : (p <= p')%Q -> f64_gtb (Fin p) c = true -> f64_gtb (Fin p') c = true.
Proof. simpl. rewrite !Qltb_iff. intros H1 H2. eapply Qlt_le_trans; eassumption. Qed.

(** *** No escape characters without colours *)

Lemma string_of_uint_esc_free d : esc_free (NilEmpty.string_of_uint d).
Proof. induction d; simpl; try (constructor; [discriminate | exact IHd]); apply esc_free_empty. Qed.

Lemma N_to_string_esc_free n : esc_free (N_to_string n).
Proof. apply string_of_uint_esc_free. Qed.
#[export] Hint Resolve N_to_string_esc_free : esc.

Lemma format_token_count_esc_free n : esc_free (format_token_count n).
Proof. unfold format_token_count. destruct (_ =? _)%N; auto with esc. Qed.

Lemma format_duration_esc_free n : esc_free (format_duration n).
Proof. unfold format_duration. destruct (_ <? _)%N; [|destruct (_ <? _)%N]; auto 8 with esc. Qed.

Lemma repeat_str_esc_free s n : esc_free s -> esc_free (repeat_str s n).
Proof. intros Hs. induction n; simpl; auto with esc. Qed.

Lemma progress_bar_esc_free p w : esc_free (progress_bar p w).
Proof.
  unfold progress_bar. apply esc_free_app_2; [apply repeat_str_esc_free; esc_const|].
  apply esc_free_app_2; [destruct (_ <? _)%N; auto with esc | apply repeat_str_esc_free; esc_const].
Qed.
#[export] Hint Resolve format_token_count_esc_free format_duration_esc_free progress_bar_esc_free : esc.

(** Without colours the context bar is plain text. *)
Lemma format_context_bar_no_color_esc_free d p a st cur win :
  esc_free (format_context_bar no_color d p a st cur win).
Proof.
  unfold format_context_bar, percentage_digits.
  assert (Ht : esc_free (match cur, win with
                         | Some current, Some window =>
                             if show_context_tokens d then
                               (" " +:+ c_light_gray no_color +:+ format_token_count current +:+ "/" +:+
                                format_token_count window +:+ c_reset no_color)%string
                             else ""
                         | _, _ => "" end)).
  { destruct cur, win; try destruct (show_context_tokens d); simpl; auto 10 with esc. }
  destruct st; simpl; [destruct a|..]; auto 20 with esc.
Qed.
#[export] Hint Resolve format_context_bar_no_color_esc_free : esc.

(** ** Theorems *)

(** C17: [format_token_count] of a positive count is the integer
    formula [max(1, (n + 500) / 1000)] followed by "k": the f64 division by
    1000 and [round] (ties away from zero) agree with integer rounding, so
    500 and 999 print "1k", 1500 prints "2k" and 179000 prints "179k". *)
Theorem format_token_count_spec tokens :
  (0 < tokens)%N ->
  format_token_count tokens = (N_to_string (N.max ((tokens + 500) / 1000) 1) +:+ "k")%string.
Proof.
  intros Hpos. unfold format_token_count.
  replace (tokens =? 0)%N with false by (symmetry; apply N.eqb_neq; lia).
  assert (Hq : (inject_Z (Z.of_N tokens) / 1000 == Z.of_N tokens # 1000)%Q).
  { unfold Qeq, Qdiv, Qmult, Qinv. simpl. lia. }
  rewrite Hq, round_half_away_div. unfold Z_as_usize. rewrite N2Z.id.
  do 3 f_equal. replace (2 * tokens + N.pos 1000)%N with ((tokens + 500) * 2)%N by lia.
  replace (2 * N.pos 1000)%N with (1000 * 2)%N by reflexivity.
  apply N.Div0.div_mul_cancel_r. lia.
Qed.

Lemma format_token_count_spec_witness :
  format_token_count 179000 = "179k" /\
  format_token_count 179000 = (N_to_string (N.max ((179000 + 500) / 1000) 1) +:+ "k")%string.
Proof. split; [reflexivity | apply format_token_count_spec; lia]. Defined.

(** The progress bar of the context display always has exactly
    [progress_bar_width] characters, whatever the percentage (also +inf
    and NaN). *)
Theorem progress_bar_length p w : String.length (progress_bar p w) = N.to_nat w.
Proof.
  unfold progress_bar. pose proof (bar_filled_le p w).
  autorewrite with statusline_rw. simpl.
  destruct (bar_filled p w <? w)%N eqn:E; [apply N.ltb_lt in E | apply N.ltb_ge in E]; simpl; lia.
Qed.

(** A larger percentage never gets a lower colour level, for
    any thresholds (the cascade tests critical, then warning, then
    caution). *)
Theorem context_level_monotone d p p' :
  (p <= p')%Q ->
  context_level_rank (context_level d (Fin p)) <= context_level_rank (context_level d (Fin p')).
Proof.
  intros Hp. unfold context_level.
  destruct (f64_gtb (Fin p) (context_critical_threshold d)) eqn:Ec;
    [rewrite (f64_gtb_mono _ _ _ Hp Ec); simpl; lia|].
  destruct (f64_gtb (Fin p) (context_warning_threshold d)) eqn:Ew;
    [rewrite (f64_gtb_mono _ _ _ Hp Ew);
     destruct (f64_gtb (Fin p') (context_critical_threshold d)); simpl; lia|].
  destruct (f64_gtb (Fin p) (context_caution_threshold d)) eqn:Ea;
    [rewrite (f64_gtb_mono _ _ _ Hp Ea);
     destruct (f64_gtb (Fin p') (context_critical_threshold d)),
              (f64_gtb (Fin p') (context_warning_threshold d)); simpl; lia|].
  simpl. lia.
Qed.

Lemma context_level_monotone_witness :
  context_level default_display (Fin 60) = CtxCaution /\
  context_level default_display (Fin 95) = CtxCritical /\
  context_level_rank (context_level default_display (Fin 60)) <=
  context_level_rank (context_level default_display (Fin 95)).
Proof.
  split; [reflexivity|]. split; [reflexivity|].
  apply context_level_monotone. unfold Qle; simpl; lia.
Defined.

Example format_token_count_cases :
  format_token_count 0 = "0" /\ format_token_count 500 = "1k" /\ format_token_count 999 = "1k" /\
  format_token_count 1500 = "2k" /\ format_token_count 179000 = "179k" /\
  format_token_count 1234 = "1k" /\ format_token_count 2500 = "3k" /\ format_token_count 1 = "1k".
Proof. repeat split; reflexivity. Qed.

Example format_duration_cases :
  format_duration 59 = "59s" /\ format_duration 61 = "1m" /\ format_duration 3725 = "1h2m".
Proof. repeat split; reflexivity. Qed.

Example context_bar_cases :
  format_context_bar no_color default_display (Fin (125 # 2)) false Normal None None
    = "63% [======>---]" /\
  format_context_bar no_color default_display (Fin 100) true RecentlyCompleted None None
    = "100% [==========] ✓" /\
  format_context_bar no_color default_display (Fin 5) false InProgress None None = "Compacting...".
Proof. repeat split; vm_compute; reflexivity. Qed.

End Fmt.
