(* ===== verification/Sanitize.v ===== *)
(** * Sanitize: terminal sanitisation and path shortening (utils.rs)

    [sanitize_for_terminal] removes every match of the regex
    [\x1b\[[0-9;]*m] (SGR colour sequences; [Regex::replace_all] finds
    leftmost matches and resumes after each one) and then keeps only tab,
    LF, CR and the characters with code >= 0x20 outside 0x7F..0x9F.  Text
    is a list of Unicode scalar values.  The scanner [strip_sgr] is a
    one-pass state machine; [replace_all_sgr] is the reference matcher
    that tries a match at each position, and the two are proved equal.

    [shorten_path] replaces the value of HOME at the start of a path by
    "~" ([str::replacen(home, "~", 1)]); the value of the environment
    variable is an argument. *)

From S2P Require Import Prelude.
From Stdlib Require Import Ascii.
Close Scope Q_scope.

Module Terminal.

Definition ESC : N := 27.
Definition LBRACKET : N := 91.
Definition LETTER_M : N := 109.

(** [[0-9;]]. *)
Definition is_sgr_param (c : N) : bool := ((48 <=? c) && (c <=? 57))%N || (c =? 59)%N.

(** ** The reference: leftmost-first [replace_all] of [\x1b\[[0-9;]*m] *)

(** A match of [[0-9;]*m] at the start of [l]: the text after it.  The
    class excludes 'm', so the greedy star has one way to succeed. *)
Fixpoint params_then_m (l : list N) : option (list N) :=
  match l with
  | [] => None
  | c :: rest =>
      if (c =? LETTER_M)%N then Some rest
      else if is_sgr_param c then params_then_m rest else None
  end.

(** A match of the whole regex at the start of [l]. *)
Definition match_at (l : list N) : option (list N) :=
  match l with
  | e :: b :: rest => if (e =? ESC)%N && (b =? LBRACKET)%N then params_then_m rest else None
  | _ => None
  end.

(** Try a match at each position; after a match resume behind it. *)
Fixpoint replace_all_fuel (fuel : nat) (l : list N) : list N :=
  match fuel with
  | O => l
  | S fuel' =>
      match l with
      | [] => []
      | c :: rest =>
          match match_at l with
          | Some after => replace_all_fuel fuel' after
          | None => c :: replace_all_fuel fuel' rest
          end
      end
  end.

Definition replace_all_sgr (l : list N) : list N := replace_all_fuel (length l) l.

(** ** The one-pass scanner *)

(** [pending = Some ps]: an ESC '[' and the parameters [ps] have been
    read and are held back until an 'm' (drop them) or another character
    (emit them, then treat the character afresh). *)
Fixpoint strip_sgr (pending : option (list N)) (l : list N) : list N :=
  match pending, l with
  | None, [] => []
  | Some ps, [] => ESC :: LBRACKET :: ps
  | None, c :: rest =>
      match rest with
      | b :: rest' =>
          if (c =? ESC)%N && (b =? LBRACKET)%N then strip_sgr (Some []) rest'
          else c :: strip_sgr None rest
      | [] => [c]
      end
  | Some ps, c :: rest =>
      if (c =? LETTER_M)%N then strip_sgr None rest
      else if is_sgr_param c then strip_sgr (Some (ps ++ [c])) rest
      else ESC :: LBRACKET :: ps ++
           match rest with
           | b :: rest' =>
               if (c =? ESC)%N && (b =? LBRACKET)%N then strip_sgr (Some []) rest'
               else c :: strip_sgr None rest
           | [] => [c]
           end
  end.

(** The characters the filter keeps. *)
Definition allowed_char (c : N) : bool :=
  (c =? 9)%N || (c =? 10)%N || (c =? 13)%N ||
  ((32 <=? c)%N && negb (c =? 127)%N && negb ((128 <=? c) && (c <=? 159))%N).

Definition sanitize_for_terminal (input : list N) : list N :=
  List.filter allowed_char (strip_sgr None input).

(** ** [shorten_path] *)

Fixpoint str_prefix (p s : string) : bool :=
  match p, s with
  | EmptyString, _ => true
  | String a p', String b s' => Ascii.eqb a b && str_prefix p' s'
  | _, _ => false
  end.

(** [str::replacen(pat, rep, 1)]: replace the leftmost occurrence. *)
Fixpoint replacen1 (s pat rep : string) : string :=
  if str_prefix pat s then (rep +:+ String.substring (String.length pat) (String.length s) s)%string
  else match s with
       | EmptyString => EmptyString
       | String c rest => String c (replacen1 rest pat rep)
       end.

(** [home] is [env::var("HOME").ok()]. *)
Definition shorten_path (home : option string) (path : string) : string :=
  if String.eqb path "" then ""
  else match home with
       | Some h =>
           if String.eqb path h then "~"
           else if str_prefix h path then replacen1 path h "~"
           else path
       | None => path
       end.

(** ** Lemmas: the reference matcher without fuel *)

Definition all_params (ps : list N) : Prop := Forall (fun c => is_sgr_param c = true) ps.

(** What may reach the terminal, stated independently of [allowed_char]:
    tab, LF, CR, printable ASCII, and every code point from U+00A0 on
    (no C0 control, no DEL, no C1 control). *)
Definition safe_cp (c : N) : Prop := (c = 9 \/ c = 10 \/ c = 13 \/ (32 <= c < 127) \/ 160 <= c)%N.

Lemma params_then_m_shorter l after : params_then_m l = Some after -> length after < length l.
Proof.
  induction l as [|c rest IH]; simpl; [discriminate|].
  destruct (c =? LETTER_M)%N; [intros [= <-]; lia|].
  destruct (is_sgr_param c); [intros H; specialize (IH H); lia | discriminate].
Qed.

Lemma match_at_shorter l after : match_at l = Some after -> length after < length l.
Proof.
  destruct l as [|e [|b rest]]; simpl; try discriminate.
  destruct ((e =? ESC)%N && (b =? LBRACKET)%N); [|discriminate].
  intros H. apply params_then_m_shorter in H. lia.
Qed.

Lemma replace_all_fuel_S_cons f c rest :
  replace_all_fuel (S f) (c :: rest) =
  match match_at (c :: rest) with
  | Some after => replace_all_fuel f after
  | None => c :: replace_all_fuel f rest
  end.
Proof. reflexivity. Qed.

Lemma replace_all_fuel_enough n l f1 f2 :
  length l <= n -> n <= f1 -> n <= f2 -> replace_all_fuel f1 l = replace_all_fuel f2 l.
Proof.
  revert l f1 f2. induction n as [|n IH]; intros l f1 f2 Hl H1 H2.
  - destruct l; [|simpl in Hl; lia]. destruct f1, f2; reflexivity.
  - destruct f1 as [|f1], f2 as [|f2]; try lia. destruct l as [|c rest]; [reflexivity|].
    rewrite !replace_all_fuel_S_cons.
    destruct (match_at (c :: rest)) as [after|] eqn:E.
    + apply match_at_shorter in E. apply IH; simpl in *; lia.
    + f_equal. apply IH; simpl in *; lia.
Qed.

Lemma replace_all_sgr_cons c rest :
  replace_all_sgr (c :: rest) =
  match match_at (c :: rest) with
  | Some after => replace_all_sgr after
  | None => c :: replace_all_sgr rest
  end.
Proof.
  unfold replace_all_sgr at 1. cbn [length]. rewrite replace_all_fuel_S_cons.
  destruct (match_at (c :: rest)) as [after|] eqn:E.
  - apply match_at_shorter in E. unfold replace_all_sgr.
    apply (replace_all_fuel_enough (length after)); simpl in *; lia.
  - reflexivity.
Qed.

Lemma params_then_m_app ps l : all_params ps -> params_then_m (ps ++ l) = params_then_m l.
Proof.
  induction 1 as [|p ps Hp _ IH]; [reflexivity|]. simpl. rewrite IH, Hp.
  destruct (p =? LETTER_M)%N eqn:E; [|reflexivity].
  apply N.eqb_eq in E. subst. discriminate.
Qed.

Lemma param_not_esc p : is_sgr_param p = true -> (p =? ESC)%N = false.
Proof.
  unfold is_sgr_param. intros H. apply N.eqb_neq. intros ->. discriminate.
Qed.

Lemma match_at_not_esc c l : (c =? ESC)%N = false -> match_at (c :: l) = None.
Proof. intros H. destruct l; simpl; [reflexivity|]. rewrite H. reflexivity. Qed.

Lemma replace_all_sgr_params ps l : all_params ps -> replace_all_sgr (ps ++ l) = ps ++ replace_all_sgr l.
Proof.
  induction 1 as [|p ps Hp _ IH]; [reflexivity|]. simpl app.
  rewrite replace_all_sgr_cons, <- IH, match_at_not_esc by (apply param_not_esc; exact Hp).
  reflexivity.
Qed.

Lemma replace_all_sgr_pending_fail ps c rest :
  all_params ps -> (c =? LETTER_M)%N = false -> is_sgr_param c = false ->
  replace_all_sgr (ESC :: LBRACKET :: ps ++ c :: rest) =
  ESC :: LBRACKET :: ps ++ replace_all_sgr (c :: rest).
Proof.
  intros Hps Hm Hp. rewrite replace_all_sgr_cons. simpl match_at at 1.
  rewrite params_then_m_app by exact Hps. simpl. rewrite Hm, Hp.
  rewrite replace_all_sgr_cons, match_at_not_esc by reflexivity.
  rewrite replace_all_sgr_params by exact Hps. reflexivity.
Qed.

(** The scanner in the idle state agrees with the reference on [c :: rest]
    once it does on the shorter lists. *)
Lemma strip_sgr_idle_step c rest :
  (forall l', length l' < S (length rest) ->
     strip_sgr None l' = replace_all_sgr l' /\
     forall ps, all_params ps -> strip_sgr (Some ps) l' = replace_all_sgr (ESC :: LBRACKET :: ps ++ l')) ->
  strip_sgr None (c :: rest) = replace_all_sgr (c :: rest).
Proof.
  intros IH. rewrite replace_all_sgr_cons. simpl.
  destruct rest as [|b rest'].
  - reflexivity.
  - destruct ((c =? ESC)%N && (b =? LBRACKET)%N) eqn:E.
    + apply andb_true_iff in E as [E1 E2]. apply N.eqb_eq in E1, E2. subst.
      rewrite (proj2 (IH rest' ltac:(simpl; lia)) [] (List.Forall_nil _)). simpl.
      rewrite replace_all_sgr_cons. reflexivity.
    + f_equal. apply (proj1 (IH (b :: rest') ltac:(lia))).
Qed.

Lemma strip_sgr_replace_all l :
  strip_sgr None l = replace_all_sgr l /\
  forall ps, all_params ps -> strip_sgr (Some ps) l = replace_all_sgr (ESC :: LBRACKET :: ps ++ l).
Proof.
  induction l as [l IH] using (induction_ltof1 _ (@length N)). unfold ltof in IH.
  destruct l as [|c rest].
  - split; [reflexivity|]. intros ps Hps. rewrite app_nil_r.
    pose proof (params_then_m_app ps [] Hps) as Hm. rewrite app_nil_r in Hm.
    pose proof (replace_all_sgr_params ps [] Hps) as Hr. rewrite !app_nil_r in Hr.
    rewrite replace_all_sgr_cons. simpl. rewrite Hm.
    rewrite replace_all_sgr_cons, match_at_not_esc by reflexivity. rewrite Hr. reflexivity.
  - split; [apply strip_sgr_idle_step; exact IH|].
    intros ps Hps. simpl.
    destruct (c =? LETTER_M)%N eqn:Em.
    + apply N.eqb_eq in Em. subst.
      rewrite replace_all_sgr_cons. simpl. rewrite params_then_m_app by exact Hps. simpl.
      apply (proj1 (IH rest ltac:(simpl; lia))).
    + destruct (is_sgr_param c) eqn:Ep.
      * rewrite (proj2 (IH rest ltac:(simpl; lia)) (ps ++ [c])).
        -- rewrite <- app_assoc. reflexivity.
        -- apply Forall_app. split; [exact Hps | constructor; [exact Ep | constructor]].
      * rewrite replace_all_sgr_pending_fail by assumption.
        do 2 f_equal. rewrite <- (strip_sgr_idle_step c rest IH). reflexivity.
Qed.

Lemma strip_sgr_no_esc l : Forall (fun c => (c =? ESC)%N = false) l -> strip_sgr None l = l.
Proof.
  induction 1 as [|c rest Hc Hrest IH]; [reflexivity|]. simpl.
  destruct rest as [|b rest']; [reflexivity|]. rewrite Hc. simpl. f_equal. exact IH.
Qed.

Lemma filter_idem {A} (f : A -> bool) (l : list A) : List.filter f (List.filter f l) = List.filter f l.
Proof.
  induction l as [|x l IH]; simpl; [reflexivity|].
  destruct (f x) eqn:E; simpl; [rewrite E, IH | rewrite IH]; reflexivity.
Qed.

Lemma filter_allowed_no_esc l : Forall (fun c => (c =? ESC)%N = false) (List.filter allowed_char l).
Proof.
  apply List.Forall_forall. intros c Hc. apply filter_In in Hc as [_ Hc].
  apply N.eqb_neq. intros ->. discriminate.
Qed.

Lemma params_then_m_suffix l after : params_then_m l = Some after -> exists pre, l = pre ++ after.
Proof.
  induction l as [|c rest IH]; simpl; [discriminate|].
  destruct (c =? LETTER_M)%N; [intros [= <-]; exists [c]; reflexivity|].
  destruct (is_sgr_param c); [|discriminate].
  intros H. destruct (IH H) as [pre ->]. exists (c :: pre). reflexivity.
Qed.

Lemma match_at_suffix l after : match_at l = Some after -> exists pre, l = pre ++ after.
Proof.
  destruct l as [|e [|b rest]]; simpl; try discriminate.
  destruct (_ && _); [|discriminate]. intros H. destruct (params_then_m_suffix _ _ H) as [pre ->].
  exists (e :: b :: pre). reflexivity.
Qed.

Lemma allowed_char_safe c : allowed_char c = true <-> safe_cp c.
Proof.
  unfold allowed_char, safe_cp.
  repeat match goal with
         | |- context [(?a =? ?b)%N] => destruct (N.eqb_spec a b)
         | |- context [(?a <=? ?b)%N] => destruct (N.leb_spec a b)
         end; cbn; split; intros Hc; try discriminate; try reflexivity; lia.
Qed.

Lemma params_then_m_app_esc y r :
  params_then_m (y ++ ESC :: r) = option_map (fun a => a ++ ESC :: r) (params_then_m y).
Proof.
  induction y as [|c y IH]; [reflexivity|]. cbn [app params_then_m].
  destruct (c =? LETTER_M)%N; [reflexivity|]. destruct (is_sgr_param c); [exact IH | reflexivity].
Qed.

(** A match that starts inside [y] cannot reach an ESC that follows it. *)
Lemma match_at_app_esc y r :
  y <> [] -> match_at (y ++ ESC :: r) = option_map (fun a => a ++ ESC :: r) (match_at y).
Proof.
  intros Hy. destruct y as [|e [|b y]]; [done| |].
  - cbn. rewrite andb_false_r. reflexivity.
  - cbn [app match_at]. destruct (_ && _); [apply params_then_m_app_esc | reflexivity].
Qed.

(** [replace_all] splits at an ESC: no match spans it from the left. *)
Lemma replace_all_sgr_app_esc pre r :
  replace_all_sgr (pre ++ ESC :: r) = replace_all_sgr pre ++ replace_all_sgr (ESC :: r).
Proof.
  induction pre as [pre IH] using (induction_ltof1 _ (@length N)). unfold ltof in IH.
  destruct pre as [|c rest]; [reflexivity|].
  change ((c :: rest) ++ ESC :: r) with (c :: (rest ++ ESC :: r)).
  rewrite (replace_all_sgr_cons c (rest ++ ESC :: r)), (replace_all_sgr_cons c rest).
  change (c :: rest ++ ESC :: r) with ((c :: rest) ++ ESC :: r).
  rewrite match_at_app_esc by discriminate.
  destruct (match_at (c :: rest)) as [after|] eqn:Hm; cbn [option_map].
  - apply IH. exact (match_at_shorter _ _ Hm).
  - rewrite IH by (cbn; lia). reflexivity.
Qed.

Lemma replace_all_sgr_sgr ps post :
  all_params ps -> replace_all_sgr (ESC :: LBRACKET :: ps ++ LETTER_M :: post) = replace_all_sgr post.
Proof. intros Hps. rewrite replace_all_sgr_cons. cbn. rewrite params_then_m_app by exact Hps. reflexivity. Qed.

Lemma filter_all {A} (f : A -> bool) l : Forall (fun x => f x = true) l -> List.filter f l = l.
Proof. induction 1 as [|x l Hx _ IH]; cbn; [|rewrite Hx, IH]; reflexivity. Qed.

(** Every character sanitising keeps comes from the input and passes the filter. *)
Lemma sanitize_for_terminal_sub (P : N -> Prop) l :
  Forall P l -> Forall (fun c => P c /\ allowed_char c = true) (sanitize_for_terminal l).
Proof.
  intros HP. unfold sanitize_for_terminal. rewrite (proj1 (strip_sgr_replace_all l)).
  assert (Hsub : Forall P (replace_all_sgr l)).
  { unfold replace_all_sgr. generalize (length l) as f. intros f. revert l HP. induction f as [|f IH]; intros l HP; simpl; [exact HP|].
  destruct l as [|c rest]; [constructor|].
  destruct (match_at (c :: rest)) as [after|] eqn:Hm.
  - apply IH. destruct (match_at_suffix _ _ Hm) as [pre Heq]. rewrite Heq in HP.
    apply Forall_app in HP. apply HP.
  - inversion HP; subst. constructor; [assumption | apply IH; assumption]. }
  apply List.Forall_forall. intros c Hc. apply filter_In in Hc as [Hc Ha]. split; [|exact Ha].
  exact (proj1 (List.Forall_forall _ _) Hsub c Hc).
Qed.

(** ** Theorems *)

(** The one-pass scanner computes exactly what
    [Regex::replace_all(r"\x1b\[[0-9;]*m", "")] computes: leftmost
    matches, each removed, scanning resumed after it, and an unfinished
    sequence left in place. *)
Theorem strip_sgr_spec l : strip_sgr None l = replace_all_sgr l.
Proof. exact (proj1 (strip_sgr_replace_all l)). Qed.

(** Sanitising is idempotent: sanitised text contains no ESC, so a
    second pass removes nothing. *)
Theorem sanitize_for_terminal_idempotent l :
  sanitize_for_terminal (sanitize_for_terminal l) = sanitize_for_terminal l.
Proof.
  unfold sanitize_for_terminal at 1 2.
  rewrite strip_sgr_no_esc by apply filter_allowed_no_esc.
  apply filter_idem.
Qed.

(** C19: what [sanitize_for_terminal] does to terminal text.  A complete
    SGR colour sequence (ESC, '[', digits and semicolons, 'm') is removed
    entirely wherever it stands, the text on either side being sanitised
    on its own; text made only of safe characters (tab, LF, CR, printable
    ASCII, U+00A0 and above) comes out unchanged; and whatever the input,
    every character of the output is safe: no C0 control (ESC
    included), no DEL and no C1 control. *)
Theorem sanitize_for_terminal_spec pre ps post l :
  (Forall (fun c => is_sgr_param c = true) ps ->
   sanitize_for_terminal (pre ++ ESC :: LBRACKET :: ps ++ LETTER_M :: post) =
   sanitize_for_terminal pre ++ sanitize_for_terminal post) /\
  (Forall safe_cp l -> sanitize_for_terminal l = l) /\
  Forall safe_cp (sanitize_for_terminal l).
Proof.
  split; [|split].
  - intros Hps. unfold sanitize_for_terminal. rewrite !(proj1 (strip_sgr_replace_all _)).
    rewrite replace_all_sgr_app_esc, replace_all_sgr_sgr by exact Hps. apply List.filter_app.
  - intros Hl. unfold sanitize_for_terminal. rewrite strip_sgr_no_esc.
    + apply filter_all. eapply List.Forall_impl; [|exact Hl]. intros c Hc. apply allowed_char_safe, Hc.
    + eapply List.Forall_impl; [|exact Hl]. intros c Hc. apply N.eqb_neq. intros ->.
      unfold safe_cp, ESC in Hc. lia.
  - eapply List.Forall_impl; [|apply (sanitize_for_terminal_sub (fun _ => True)), List.Forall_forall; auto].
    intros c [_ Hc]. apply allowed_char_safe, Hc.
Qed.

Lemma string_substring_all (r : string) m : String.length r <= m -> String.substring 0 m r = r.
Proof.
  revert m. induction r as [|c r IH]; intros m Hm; destruct m as [|m]; simpl in *; try lia; try reflexivity.
  f_equal. apply IH. lia.
Qed.

Lemma string_substring_app h r m :
  String.length r <= m -> String.substring (String.length h) m (h +:+ r) = r.
Proof.
  intros Hm. induction h as [|c h IH]; simpl; [|exact IH].
  apply string_substring_all. exact Hm.
Qed.

Lemma str_prefix_app h r : str_prefix h (h +:+ r) = true.
Proof. induction h as [|c h IH]; simpl; [reflexivity|]. rewrite Ascii.eqb_refl. exact IH. Qed.

Lemma replacen1_prefix s pat rep :
  str_prefix pat s = true ->
  replacen1 s pat rep = (rep +:+ String.substring (String.length pat) (String.length s) s)%string.
Proof. intros H. destruct s; simpl; rewrite H; reflexivity. Qed.

Lemma string_app_eq_self h r : (h +:+ r)%string = h -> r = EmptyString.
Proof.
  intros H. apply (f_equal String.length) in H. rewrite string_length_app in H.
  destruct r; [reflexivity | simpl in H; lia].
Qed.

(** C21: when HOME is a prefix of the path, the prefix is replaced by "~"
    whatever follows it: there is no path-component boundary check, so
    with HOME=/home/u the directory /home/user2/src is shown as
    "~ser2/src". *)
Theorem shorten_path_home_prefix h rest :
  rest <> EmptyString ->
  shorten_path (Some h) (h +:+ rest) = ("~" +:+ rest)%string.
Proof.
  intros Hr. unfold shorten_path.
  destruct (String.eqb_spec (h +:+ rest) "") as [E|_].
  - destruct h, rest; simpl in E; try discriminate. congruence.
  - destruct (String.eqb_spec (h +:+ rest) h) as [E|_]; [apply string_app_eq_self in E; congruence|].
    rewrite str_prefix_app, replacen1_prefix by apply str_prefix_app.
    rewrite string_substring_app; [reflexivity|]. rewrite string_length_app. lia.
Qed.

Lemma shorten_path_home_prefix_witness :
  shorten_path (Some "/home/u") "/home/user2/src" = "~ser2/src".
Proof. apply (shorten_path_home_prefix "/home/u" "ser2/src"). discriminate. Defined.


Local Open Scope N_scope.

(** "ok" ESC[31;1m "hi": the colour code goes, the text stays. *)
Lemma sanitize_for_terminal_spec_witness :
  sanitize_for_terminal ([111; 107] ++ ESC :: LBRACKET :: [51; 49; 59; 49] ++ LETTER_M :: [104; 105]) =
    sanitize_for_terminal [111; 107] ++ sanitize_for_terminal [104; 105] /\
  sanitize_for_terminal [104; 105] = [104; 105].
Proof.
  destruct (sanitize_for_terminal_spec [111; 107] [51; 49; 59; 49] [104; 105] [104; 105])
    as (H1 & H2 & _).
  split; [apply H1 | apply H2].
  - repeat (apply List.Forall_cons; [reflexivity|]). apply List.Forall_nil.
  - repeat (apply List.Forall_cons; [unfold safe_cp; lia|]). apply List.Forall_nil.
Defined.

Example sanitize_cases :
  sanitize_for_terminal [27; 91; 51; 49; 109; 114; 101; 100; 27; 91; 48; 109] = [114; 101; 100] /\
  sanitize_for_terminal [27; 91; 49; 50; 27; 91; 48; 109; 120] = [91; 49; 50; 120] /\
  sanitize_for_terminal [97; 7; 9; 155; 98] = [97; 9; 98] /\
  replace_all_sgr [27; 91; 49; 50; 27; 91; 48; 109; 120] = [27; 91; 49; 50; 120] /\
  strip_sgr None [27; 91; 49; 50; 27; 91; 48; 109; 120] = [27; 91; 49; 50; 120] /\
  strip_sgr None [27; 91; 49] = [27; 91; 49].
Proof. repeat split; reflexivity. Qed.

Example shorten_path_cases :
  shorten_path (Some "/home/u") "/home/u" = "~" /\
  shorten_path (Some "/home/u") "/home/u/src" = "~/src" /\
  shorten_path (Some "/home/u") "/home/user2/src" = "~ser2/src" /\
  shorten_path (Some "") "/etc" = "~/etc" /\
  shorten_path None "/etc" = "/etc" /\ shorten_path (Some "/home/u") "" = "".
Proof. repeat split; reflexivity. Qed.

End Terminal.
