(* ===== verification/Duration.v ===== *)
(** * Duration: session duration from the transcript (utils.rs)

    [parse_iso8601_to_unix] tries three chrono parsers in order (RFC 3339,
    then naive date-times with and without fractional seconds, read as
    UTC) and casts the i64 timestamp to u64 with [as] (two's complement
    wrap-around).  The chrono parsers are the section variables; the
    order, the fallbacks and the cast are modelled.

    [parse_duration] reads every line of the transcript: the first line's
    timestamp (when the first line is an entry) and the timestamp of the
    last line that is an entry; the duration is their difference when the
    last one is strictly later. *)

From S2P Require Import Prelude TokenExtractor.
From Stdlib Require Import Strings.Byte.
Close Scope Q_scope.

Module Duration.
Import Transcript.

Definition u64_modulus : Z := 2 ^ 64.

(** [t as u64] for an i64 [t]. *)
Definition i64_as_u64 (t : Z) : N := Z.to_N (t mod u64_modulus).

Section WithParsers.
Context (parse_from_rfc3339 : string -> option Z)
        (parse_naive_frac : string -> option Z)
        (parse_naive : string -> option Z)
        (parse_entry : list byte -> option TranscriptEntry).

Definition parse_iso8601_to_unix (ts : string) : option N :=
  match parse_from_rfc3339 ts with
  | Some t => Some (i64_as_u64 t)
  | None =>
      match parse_naive_frac ts with
      | Some t => Some (i64_as_u64 t)
      | None =>
          match parse_naive ts with
          | Some t => Some (i64_as_u64 t)
          | None => None
          end
      end
  end.

(** The timestamp of a line that is an entry: [None] when the line is not
    an entry, [Some None] when its timestamp does not parse. *)
Definition line_timestamp (line : list byte) : option (option N) :=
  match parse_entry line with
  | Some entry => Some (parse_iso8601_to_unix (timestamp entry))
  | None => None
  end.

(** One iteration: [(first_line seen, first_timestamp, last_timestamp)]. *)
Definition duration_step (acc : bool * option N * option N) (line : list byte)
    : bool * option N * option N :=
  let '(seen, first_ts, last_ts) := acc in
  let first_ts' :=
    if seen then first_ts
    else match line_timestamp line with Some t => t | None => first_ts end in
  let last_ts' := match line_timestamp line with Some t => t | None => last_ts end in
  (true, first_ts', last_ts').

Definition duration_of_lines (ls : list (list byte)) : option N :=
  let '(_, first_ts, last_ts) := fold_left duration_step ls (false, None, None) in
  match first_ts, last_ts with
  | Some first, Some last => if (first <? last)%N then Some (last - first)%N else None
  | _, _ => None
  end.

Definition parse_duration (fs : FileSystem) (transcript_path : string) : option N :=
  safe_path ← result_ok (validate_transcript_file fs transcript_path);
  bs ← contents fs safe_path;
  duration_of_lines (map_while_ok (lines bs)).

(** The value of [last_timestamp] after reading [ls], starting from [acc]. *)
Definition last_timestamp_from (acc : option N) (ls : list (list byte)) : option N :=
  fold_left (fun acc x => match line_timestamp x with Some t => t | None => acc end) ls acc.

(** The timestamp the first line contributes. *)
Definition first_timestamp_of (l0 : list byte) : option N :=
  match line_timestamp l0 with Some t => t | None => None end.

Lemma fold_duration_seen ls f l :
  fold_left duration_step ls (true, f, l) = (true, f, last_timestamp_from l ls).
Proof.
  revert l. induction ls as [|x ls IH]; intros l; simpl; [reflexivity|].
  rewrite <- IH. destruct (line_timestamp x); reflexivity.
Qed.

Lemma duration_of_lines_cons l0 rest :
  duration_of_lines (l0 :: rest) =
  match first_timestamp_of l0, last_timestamp_from (first_timestamp_of l0) rest with
  | Some first, Some last => if (first <? last)%N then Some (last - first)%N else None
  | _, _ => None
  end.
Proof.
  unfold duration_of_lines. simpl. unfold first_timestamp_of.
  destruct (line_timestamp l0) as [t|]; rewrite fold_duration_seen; reflexivity.
Qed.

Lemma last_timestamp_from_snoc acc ls x t :
  line_timestamp x = Some t -> last_timestamp_from acc (ls ++ [x]) = t.
Proof. intros H. unfold last_timestamp_from. rewrite fold_left_app. simpl. rewrite H. reflexivity. Qed.

End WithParsers.

(** ** Theorems *)

Section Properties.
Context (rfc naive_frac naive : string -> option Z) (parse_entry : list byte -> option TranscriptEntry).

(** C22: the duration of a transcript is defined exactly when its first
    line is an entry with a parseable timestamp [f] and the last entry
    read has a parseable timestamp [l > f]; it is then [l - f]. *)
Theorem duration_of_lines_some l0 rest d :
  duration_of_lines rfc naive_frac naive parse_entry (l0 :: rest) = Some d <->
  exists f l, first_timestamp_of rfc naive_frac naive parse_entry l0 = Some f /\
              last_timestamp_from rfc naive_frac naive parse_entry (Some f) rest = Some l /\
              (f < l)%N /\ d = (l - f)%N.
Proof.
  rewrite duration_of_lines_cons. split.
  - destruct (first_timestamp_of _ _ _ _ l0) as [f|]; [|discriminate].
    destruct (last_timestamp_from _ _ _ _ (Some f) rest) as [l|] eqn:El; [|discriminate].
    destruct (f <? l)%N eqn:E; [|discriminate]. apply N.ltb_lt in E.
    intros [= <-]. exists f, l. repeat split; auto.
  - intros (f & l & -> & -> & Hlt & ->). apply N.ltb_lt in Hlt. rewrite Hlt. reflexivity.
Qed.

(** A transcript whose first line is not an entry (a summary or any
    other record the decoder rejects) never gets a duration, whatever the
    later lines hold. *)
Theorem duration_first_line_not_entry l0 rest :
  line_timestamp rfc naive_frac naive parse_entry l0 = None ->
  duration_of_lines rfc naive_frac naive parse_entry (l0 :: rest) = None.
Proof.
  intros H. rewrite duration_of_lines_cons. unfold first_timestamp_of. rewrite H. reflexivity.
Qed.

(** When the last line is an entry whose timestamp does not parse,
    the duration is undefined, although earlier entries had valid
    timestamps: the last timestamp is overwritten with [None]. *)
Theorem duration_last_entry_bad_timestamp l0 rest x :
  line_timestamp rfc naive_frac naive parse_entry x = Some None ->
  duration_of_lines rfc naive_frac naive parse_entry (l0 :: rest ++ [x]) = None.
Proof.
  intros H. rewrite duration_of_lines_cons, (last_timestamp_from_snoc _ _ _ _ _ _ _ _ H).
  destruct (first_timestamp_of _ _ _ _ l0); reflexivity.
Qed.

End Properties.

(** ** Witnesses *)

Definition example_rfc3339 (ts : string) : option Z :=
  if String.eqb ts "2025-01-01T00:00:00Z" then Some 1735689600%Z else None.

Definition no_parse (_ : string) : option Z := None.

Lemma duration_first_line_not_entry_witness :
  duration_of_lines example_rfc3339 no_parse no_parse example_parse [[x61]; [x41]; [x41; x41]] = None.
Proof. apply duration_first_line_not_entry. reflexivity. Defined.

Lemma duration_last_entry_bad_timestamp_witness :
  duration_of_lines no_parse no_parse no_parse example_parse ([x41] :: [] ++ [[x41; x41]]) = None.
Proof. apply duration_last_entry_bad_timestamp. reflexivity. Defined.

Example parse_iso8601_cases :
  parse_iso8601_to_unix example_rfc3339 no_parse no_parse "2025-01-01T00:00:00Z" = Some 1735689600%N /\
  parse_iso8601_to_unix (fun _ => Some (-1)%Z) no_parse no_parse "1969-12-31T23:59:59Z"
    = Some 18446744073709551615%N.
Proof. split; reflexivity. Qed.

End Duration.
