(* ===== verification/Stats.v ===== *)
(** * Stats: the stats store (spec §3, §4.5; stats.rs and database.rs)

    The store's implementation is not among the staged sources: this file
    models the store from the specification and from the end-to-end tests
    in src/tests/sqlite_integration_tests.rs.  Its state is the session
    table, the daily and monthly buckets and the all-time record; the one
    mutating operation is [record] (one invocation's transaction); the
    retention pruning is [prune].

    Costs are values of any commutative group presented by the class
    [CostArith] (the store's f64 values are modelled by exact rationals,
    [Qc]; [Z] is a second instance).  Line counts are integers.

    Theorems: [record] replaces a session's absolute values; daily,
    monthly and all-time aggregates move by deltas; the invariant [Inv]
    (all-time total = sum of current session costs, session count =
    number of sessions, the days' and months' totals sum to the same
    value, every bucket's sessions are known) holds in every reachable
    state; the store refines the abstract map "session -> latest absolute
    values and largest token count"; the high-water mark never decreases.
    The store is the compaction detector's database ([store_env] through
    [get_session_max_tokens]): a drop below half of any earlier count of
    a session is always flagged.  [get_session_duration] gives the
    display its session span. *)

From S2P Require Import Prelude Compaction.
From Stdlib Require Import Qcanon.
Close Scope Q_scope.

Module Store.

(** ** Cost arithmetic *)

Class CostArith (C : Type) := {
  czero : C;
  cadd : C -> C -> C;
  csub : C -> C -> C;
  cadd_comm : forall a b, cadd a b = cadd b a;
  cadd_assoc : forall a b c, cadd a (cadd b c) = cadd (cadd a b) c;
  cadd_zero_l : forall a, cadd czero a = a;
  csub_cadd : forall a b, cadd (csub a b) b = a;
  cadd_csub : forall a b, csub (cadd a b) b = a
}.

#[export] Instance Z_cost : CostArith Z.
Proof.
  refine {| czero := 0%Z; cadd := Z.add; csub := Z.sub |}; intros; lia.
Defined.

#[export] Instance Qc_cost : CostArith Qc.
Proof.
  refine {| czero := Q2Qc 0; cadd := Qcplus; csub := Qcminus |}.
  - apply Qcplus_comm.
  - apply Qcplus_assoc.
  - apply Qcplus_0_l.
  - intros a b. unfold Qcminus. rewrite <- Qcplus_assoc, (Qcplus_comm (- b)), Qcplus_opp_r.
    apply Qcplus_0_r.
  - intros a b. unfold Qcminus. rewrite <- Qcplus_assoc, Qcplus_opp_r. apply Qcplus_0_r.
Defined.

(** ** Sums over a map *)

Section Sums.
Context {D : Type} `{CostArith D}.

(** The sum of [g v] over the values [v] of [m]. *)
Definition sum_map {V} (g : V -> D) (m : gmap string V) : D :=
  map_fold (fun _ v acc => cadd (g v) acc) czero m.

Lemma cadd_zero_r a : cadd a czero = a.
Proof. rewrite cadd_comm. apply cadd_zero_l. Qed.

Lemma csub_zero a : csub a czero = a.
Proof. rewrite <- (cadd_zero_r (csub a czero)). apply csub_cadd. Qed.

Lemma csub_cadd_l a d : csub (cadd a d) a = d.
Proof. rewrite cadd_comm. apply cadd_csub. Qed.

Lemma sum_map_empty {V} (g : V -> D) : sum_map g ∅ = czero.
Proof. apply map_fold_empty. Qed.

Lemma sum_map_insert_None {V} (g : V -> D) m i x :
  m !! i = None -> sum_map g (<[i:=x]> m) = cadd (g x) (sum_map g m).
Proof.
  intros Hi. unfold sum_map.
  rewrite (map_fold_insert_L (fun _ v acc => cadd (g v) acc)); [reflexivity| |exact Hi].
  intros. rewrite !cadd_assoc, (cadd_comm (g z1)). reflexivity.
Qed.

(** Inserting [x] at [i] moves the sum by [g x] minus the value it
    replaces; [dflt] stands for an absent entry and weighs nothing. *)
Lemma sum_map_insert {V} (g : V -> D) dflt m i x :
  g dflt = czero ->
  sum_map g (<[i:=x]> m) = cadd (sum_map g m) (csub (g x) (g (default dflt (m !! i)))).
Proof.
  intros Hd. destruct (m !! i) as [y|] eqn:Hi; simpl.
  - rewrite <- (insert_delete_id m i y Hi) at 2. rewrite <- insert_delete_eq.
    rewrite !sum_map_insert_None by apply lookup_delete_eq.
    rewrite (cadd_comm (g y)), <- cadd_assoc, (cadd_comm (g y)), csub_cadd, cadd_comm. reflexivity.
  - rewrite sum_map_insert_None, Hd, csub_zero, cadd_comm by exact Hi. reflexivity.
Qed.

End Sums.

Section WithCost.
Context {C : Type} `{CostArith C}.

(** ** State *)

Record Session := {
  start_time : N;
  last_updated : N;
  cost : C;
  lines_added : Z;
  lines_removed : Z;
  max_tokens_seen : N
}.

Record Bucket := {
  total_cost : C;
  total_lines_added : Z;
  total_lines_removed : Z;
  bucket_sessions : gset string
}.

Record AllTime := { all_time_total_cost : C; session_count : N }.

Record StatsData := {
  sessions : gmap string Session;
  daily : gmap string Bucket;
  monthly : gmap string Bucket;
  all_time : AllTime
}.

Definition empty_stats : StatsData := {|
  sessions := ∅; daily := ∅; monthly := ∅;
  all_time := {| all_time_total_cost := czero; session_count := 0 |}
|}.

Definition empty_bucket : Bucket := {|
  total_cost := czero; total_lines_added := 0; total_lines_removed := 0; bucket_sessions := ∅
|}.

(** One invocation's report. *)
Record Report := {
  r_session_id : string;
  r_cost : C;
  r_lines_added : Z;
  r_lines_removed : Z;
  r_timestamp : N;
  r_date : string;
  r_month : string;
  r_tokens : N
}.

(** ** [record] *)

(** Apply the deltas to a bucket and add the session to its set. *)
Definition apply_delta (sid : string) (dc : C) (dla dlr : Z) (b : Bucket) : Bucket := {|
  total_cost := cadd (total_cost b) dc;
  total_lines_added := total_lines_added b + dla;
  total_lines_removed := total_lines_removed b + dlr;
  bucket_sessions := {[ sid ]} ∪ bucket_sessions b
|}.

Definition bump (key sid : string) (dc : C) (dla dlr : Z) (m : gmap string Bucket) : gmap string Bucket :=
  <[key := apply_delta sid dc dla dlr (default empty_bucket (m !! key))]> m.

(** The session's stored values before the invocation, zero if unseen. *)
Definition unseen_session (r : Report) : Session := {|
  start_time := r_timestamp r; last_updated := r_timestamp r; cost := czero;
  lines_added := 0; lines_removed := 0; max_tokens_seen := 0
|}.

Definition previous (r : Report) (st : StatsData) : Session :=
  default (unseen_session r) (sessions st !! r_session_id r).

(** The session's stored values after the invocation: the reported
    absolutes replace the previous ones; the high-water mark grows. *)
Definition recorded_session (r : Report) (st : StatsData) : Session :=
  let prev := previous r st in
  {| start_time := start_time prev; last_updated := r_timestamp r; cost := r_cost r;
     lines_added := r_lines_added r; lines_removed := r_lines_removed r;
     max_tokens_seen := N.max (max_tokens_seen prev) (r_tokens r) |}.

Definition record (r : Report) (st : StatsData) : StatsData :=
  let sid := r_session_id r in
  let prev := previous r st in
  let dc := csub (r_cost r) (cost prev) in
  let dla := (r_lines_added r - lines_added prev)%Z in
  let dlr := (r_lines_removed r - lines_removed prev)%Z in
  {| sessions := <[sid := recorded_session r st]> (sessions st);
     daily := bump (r_date r) sid dc dla dlr (daily st);
     monthly := bump (r_month r) sid dc dla dlr (monthly st);
     all_time := {| all_time_total_cost := cadd (all_time_total_cost (all_time st)) dc;
                    session_count := if decide (sid ∈ dom (sessions st))
                                     then session_count (all_time st)
                                     else N.succ (session_count (all_time st)) |} |}.

(** Retention pruning: drop sessions last updated before [cutoff] and
    buckets whose key is older than the given keys (0 = keep forever is
    [None]); the all-time record is kept. *)
Definition prune (session_cutoff : option N) (day_keep month_keep : string -> bool)
    (st : StatsData) : StatsData := {|
  sessions := match session_cutoff with
              | Some cutoff => filter (fun kv => (cutoff <=? last_updated kv.2)%N) (sessions st)
              | None => sessions st
              end;
  daily := filter (fun kv => day_keep kv.1 = true) (daily st);
  monthly := filter (fun kv => month_keep kv.1 = true) (monthly st);
  all_time := all_time st
|}.

(** ** Sums and the invariant *)

Record Inv (st : StatsData) : Prop := {
  inv_total : all_time_total_cost (all_time st) = sum_map cost (sessions st);
  inv_count : session_count (all_time st) = N.of_nat (size (sessions st));
  inv_daily_cost : sum_map total_cost (daily st) = sum_map cost (sessions st);
  inv_monthly_cost : sum_map total_cost (monthly st) = sum_map cost (sessions st);
  inv_daily_lines : sum_map total_lines_added (daily st) = sum_map lines_added (sessions st);
  inv_daily_sessions : forall d b, daily st !! d = Some b -> bucket_sessions b ⊆ dom (sessions st);
  inv_monthly_sessions : forall d b, monthly st !! d = Some b -> bucket_sessions b ⊆ dom (sessions st)
}.

(** The states a sequence of invocations can produce. *)
Inductive reachable : StatsData -> Prop :=
| reach_init : reachable empty_stats
| reach_record r st : reachable st -> reachable (record r st).

(** [get_session_max_tokens]: the high-water mark the compaction detector
    reads. *)
Definition get_session_max_tokens (st : StatsData) (sid : string) : option N :=
  max_tokens_seen <$> sessions st !! sid.

(** [stats::get_session_duration]: seconds between the session's first
    report and its last update. *)
Definition get_session_duration (st : StatsData) (sid : string) : option N :=
  (fun s => last_updated s - start_time s)%N <$> sessions st !! sid.

(** The reports of one session, in order. *)
Definition reports_of (sid : string) (rs : list Report) : list Report :=
  List.filter (fun r => String.eqb (r_session_id r) sid) rs.

(** The detector's environment when its database is this store. *)
Definition store_env (read_state : string -> option Detector.HookState)
    (modified_elapsed_secs : string -> option N) (st : StatsData) : Detector.Env := {|
  Detector.read_state := read_state;
  Detector.open_db := Ok (get_session_max_tokens st);
  Detector.modified_elapsed_secs := modified_elapsed_secs
|}.

(** ** Lemmas on [record] *)

Lemma bump_sum {D} `{CostArith D} (g : Bucket -> D) d key sid dc dla dlr m :
  g empty_bucket = czero ->
  (forall b, g (apply_delta sid dc dla dlr b) = cadd (g b) d) ->
  sum_map g (bump key sid dc dla dlr m) = cadd (sum_map g m) d.
Proof.
  intros Hz Hg. unfold bump. rewrite (sum_map_insert g empty_bucket) by exact Hz.
  rewrite Hg, csub_cadd_l. reflexivity.
Qed.

Lemma bump_sessions key sid dc dla dlr m (X Y : gset string) :
  (forall d b, m !! d = Some b -> bucket_sessions b ⊆ X) -> sid ∈ Y -> X ⊆ Y ->
  forall d b, bump key sid dc dla dlr m !! d = Some b -> bucket_sessions b ⊆ Y.
Proof.
  intros Hm Hsid HXY d b. unfold bump. rewrite lookup_insert_Some.
  intros [[<- <-]|[_ Hd]]; [|specialize (Hm _ _ Hd); set_solver].
  simpl. destruct (m !! key) as [b0|] eqn:Hk; simpl; [specialize (Hm _ _ Hk)|]; set_solver.
Qed.

Lemma dom_bump key sid dc dla dlr m : dom (bump key sid dc dla dlr m) = {[ key ]} ∪ dom m.
Proof. apply dom_insert_L. Qed.

Lemma sum_sessions_record {D} `{CostArith D} (g : Session -> D) r st :
  g (unseen_session r) = czero ->
  sum_map g (sessions (record r st)) =
  cadd (sum_map g (sessions st)) (csub (g (recorded_session r st)) (g (previous r st))).
Proof.
  intros Hz. simpl. rewrite (sum_map_insert g (unseen_session r)) by exact Hz. reflexivity.
Qed.

Lemma session_count_record r st :
  session_count (all_time (record r st)) =
  if decide (r_session_id r ∈ dom (sessions st)) then session_count (all_time st)
  else N.succ (session_count (all_time st)).
Proof. reflexivity. Qed.

Lemma size_sessions_record r st :
  N.of_nat (size (sessions (record r st))) =
  if decide (r_session_id r ∈ dom (sessions st)) then N.of_nat (size (sessions st))
  else N.succ (N.of_nat (size (sessions st))).
Proof.
  simpl. case_decide as Hin.
  - rewrite elem_of_dom in Hin. rewrite map_size_insert_Some by exact Hin. reflexivity.
  - rewrite not_elem_of_dom in Hin. rewrite map_size_insert_None by exact Hin. lia.
Qed.

Lemma dom_sessions_record r st : dom (sessions (record r st)) = {[ r_session_id r ]} ∪ dom (sessions st).
Proof. apply dom_insert_L. Qed.

Lemma record_preserves_inv_aux r st : Inv st -> Inv (record r st).
Proof.
  intros [Ht Hc Hd Hm Hl Hds Hms].
  assert (Hs : sum_map cost (sessions (record r st)) =
               cadd (sum_map cost (sessions st)) (csub (r_cost r) (cost (previous r st)))).
  { rewrite (sum_sessions_record cost) by reflexivity. reflexivity. }
  assert (Hsl : sum_map lines_added (sessions (record r st)) =
               (sum_map lines_added (sessions st) + (r_lines_added r - lines_added (previous r st)))%Z).
  { rewrite (sum_sessions_record lines_added) by reflexivity. reflexivity. }
  constructor.
  - rewrite Hs, <- Ht. reflexivity.
  - rewrite session_count_record, size_sessions_record, Hc. reflexivity.
  - rewrite Hs, <- Hd. simpl. apply bump_sum; reflexivity.
  - rewrite Hs, <- Hm. simpl. apply bump_sum; reflexivity.
  - rewrite Hsl, <- Hl. simpl. exact (bump_sum (D:=Z) total_lines_added _ _ _ _ _ _ _ eq_refl (fun _ => eq_refl)).
  - rewrite dom_sessions_record. simpl. eapply bump_sessions; [exact Hds | set_solver | set_solver].
  - rewrite dom_sessions_record. simpl. eapply bump_sessions; [exact Hms | set_solver | set_solver].
Qed.

Lemma inv_empty : Inv empty_stats.
Proof.
  constructor; simpl; rewrite ?sum_map_empty; try reflexivity.
  - intros d b Hb. rewrite lookup_empty in Hb. discriminate.
  - intros d b Hb. rewrite lookup_empty in Hb. discriminate.
Qed.

(** ** The abstract store

    What the store promises (spec §3): for every session ever reported,
    its latest absolute cost and line counts and the largest token count
    reported. *)

Definition abs_entry (s : Session) : C * Z * Z * N :=
  (cost s, lines_added s, lines_removed s, max_tokens_seen s).

Definition abs (st : StatsData) : gmap string (C * Z * Z * N) := abs_entry <$> sessions st.

Definition abs_record (r : Report) (A : gmap string (C * Z * Z * N)) : gmap string (C * Z * Z * N) :=
  <[r_session_id r := (r_cost r, r_lines_added r, r_lines_removed r,
                       N.max (default 0%N ((fun e => e.2) <$> A !! r_session_id r)) (r_tokens r))]> A.

(** A sequence of invocations, in order, from [st]. *)
Definition replay_from (rs : list Report) (st : StatsData) : StatsData :=
  fold_left (fun st r => record r st) rs st.

Definition replay (rs : list Report) : StatsData := replay_from rs empty_stats.

Definition abs_replay (rs : list Report) : gmap string (C * Z * Z * N) :=
  fold_left (fun A r => abs_record r A) rs ∅.

Lemma csub_self a : csub a a = czero.
Proof. rewrite <- (cadd_zero_l a) at 1. apply cadd_csub. Qed.

Lemma abs_record_commute r st : abs (record r st) = abs_record r (abs st).
Proof.
  unfold abs, abs_record. simpl. rewrite fmap_insert, lookup_fmap.
  unfold recorded_session, previous. destruct (sessions st !! r_session_id r); reflexivity.
Qed.

Lemma sum_map_fmap {V W} (g : W -> C) (f : V -> W) (m : gmap string V) :
  sum_map g (f <$> m) = sum_map (fun v => g (f v)) m.
Proof. unfold sum_map. rewrite map_fold_fmap. reflexivity. Qed.

Lemma inv_fold rs st : Inv st -> Inv (replay_from rs st).
Proof. revert st. induction rs as [|r rs IH]; intros st Hst; [exact Hst|]. apply IH, record_preserves_inv_aux, Hst. Qed.

Lemma dom_sessions_fold rs st :
  dom (sessions (replay_from rs st)) = dom (sessions st) ∪ list_to_set (r_session_id <$> rs).
Proof.
  revert st. induction rs as [|r rs IH]; intros st; simpl; [set_solver|].
  unfold replay_from in *. simpl. rewrite IH, dom_sessions_record. set_solver.
Qed.

Lemma previous_record r st : previous r (record r st) = recorded_session r st.
Proof. unfold previous. simpl. rewrite lookup_insert_eq. reflexivity. Qed.

Lemma recorded_session_twice r st : recorded_session r (record r st) = recorded_session r st.
Proof.
  unfold recorded_session at 1. rewrite previous_record. unfold recorded_session. simpl.
  f_equal. lia.
Qed.

Lemma apply_delta_zero sid dc dla dlr b :
  apply_delta sid czero 0 0 (apply_delta sid dc dla dlr b) = apply_delta sid dc dla dlr b.
Proof.
  unfold apply_delta. simpl. rewrite cadd_zero_r, !Z.add_0_r. f_equal. set_solver.
Qed.

Lemma bump_twice key sid dc dla dlr m :
  bump key sid czero 0 0 (bump key sid dc dla dlr m) = bump key sid dc dla dlr m.
Proof. unfold bump at 1 2. rewrite lookup_insert_eq. simpl. rewrite apply_delta_zero. apply insert_insert_eq. Qed.

Lemma tokens_le_recorded r st : (r_tokens r <= max_tokens_seen (recorded_session r st))%N.
Proof. simpl. lia. Qed.

Lemma hwm_record (sid : string) r st (s : Session) :
  sessions st !! sid = Some s ->
  exists s', sessions (record r st) !! sid = Some s' /\ (max_tokens_seen s <= max_tokens_seen s')%N.
Proof.
  intros Hs. simpl. destruct (decide (r_session_id r = sid)) as [<-|Hne].
  - rewrite lookup_insert_eq. eexists; split; [reflexivity|]. unfold recorded_session, previous.
    rewrite Hs. simpl. lia.
  - rewrite lookup_insert_ne by exact Hne. eexists; split; [exact Hs | lia].
Qed.

Lemma hwm_fold rs st (sid : string) (s : Session) :
  sessions st !! sid = Some s ->
  exists s', sessions (replay_from rs st) !! sid = Some s' /\ (max_tokens_seen s <= max_tokens_seen s')%N.
Proof.
  revert st s. induction rs as [|r rs IH]; intros st s Hs; [exists s; split; [exact Hs | lia]|].
  destruct (hwm_record sid r st s Hs) as (s1 & H1 & Hle1).
  destruct (IH _ _ H1) as (s2 & H2 & Hle2). exists s2. split; [exact H2 | lia].
Qed.

Lemma abs_replay_from rs st :
  abs (replay_from rs st) = fold_left (fun A r => abs_record r A) rs (abs st).
Proof.
  revert st. induction rs as [|r rs IH]; intros st; [reflexivity|].
  unfold replay_from in *. simpl. rewrite IH, abs_record_commute. reflexivity.
Qed.

Lemma replay_from_times sid rs st :
  start_time <$> sessions (replay_from rs st) !! sid =
    match sessions st !! sid with
    | Some s => Some (start_time s)
    | None => r_timestamp <$> head (reports_of sid rs)
    end /\
  last_updated <$> sessions (replay_from rs st) !! sid =
    match last (reports_of sid rs) with
    | Some r => Some (r_timestamp r)
    | None => last_updated <$> sessions st !! sid
    end.
Proof.
  revert st. induction rs as [|r rs IH]; intros st.
  - simpl. destruct (sessions st !! sid); auto.
  - unfold replay_from in *. simpl. destruct (IH (record r st)) as [H1 H2].
    rewrite H1, H2. unfold reports_of. simpl.
    destruct (String.eqb_spec (r_session_id r) sid) as [<-|Hne]; simpl.
    + rewrite lookup_insert_eq. unfold recorded_session, previous. simpl.
      rewrite last_cons. destruct (sessions st !! r_session_id r); simpl;
        destruct (last _); split; reflexivity.
    + rewrite lookup_insert_ne by exact Hne. auto.
Qed.

Lemma get_session_duration_replay sid rs :
  get_session_duration (replay rs) sid =
  match head (reports_of sid rs), last (reports_of sid rs) with
  | Some r0, Some rl => Some (r_timestamp rl - r_timestamp r0)%N
  | _, _ => None
  end.
Proof.
  destruct (replay_from_times sid rs empty_stats) as [H1 H2]. simpl in H1, H2.
  rewrite lookup_empty in H1, H2. unfold get_session_duration, replay.
  destruct (sessions (replay_from rs empty_stats) !! sid) as [s|]; simpl in *.
  - destruct (head _) as [r0|]; [|discriminate]. destruct (last _) as [rl|]; [|discriminate].
    injection H1 as <-. injection H2 as <-. reflexivity.
  - destruct (head _) as [r0|]; [discriminate|]. reflexivity.
Qed.

Lemma inv_replay rs : Inv (replay rs).
Proof. apply inv_fold, inv_empty. Qed.

Lemma high_water_mark_bounds rs r :
  r ∈ rs ->
  exists s, sessions (replay rs) !! r_session_id r = Some s /\ (r_tokens r <= max_tokens_seen s)%N.
Proof.
  intros Hin. apply list_elem_of_split in Hin as (l1 & l2 & ->).
  unfold replay, replay_from. rewrite fold_left_app. simpl. fold (replay_from l2 (record r (replay_from l1 empty_stats))).
  destruct (hwm_fold l2 (record r (replay_from l1 empty_stats)) (r_session_id r) (recorded_session r (replay_from l1 empty_stats)))
    as (s & Hs & Hle); [apply lookup_insert_eq|].
  exists s. split; [exact Hs|]. pose proof (tokens_le_recorded r (replay_from l1 empty_stats)). lia.
Qed.

End WithCost.

(** ** Theorems *)

Section Properties.
Context {C : Type} `{CostArith C}.

(** Every state a sequence of invocations can produce satisfies the
    store's invariant: the all-time total is the sum of the sessions'
    current costs and so is the sum of the daily totals and of the monthly
    totals; the daily line totals sum to the sessions' line counts; the
    session count is the number of stored sessions; every session a
    bucket lists is stored. *)
Theorem reachable_inv (st : StatsData (C:=C)) : reachable st -> Inv st.
Proof.
  induction 1 as [|r st _ IH]; [apply inv_empty | apply record_preserves_inv_aux, IH].
Qed.

(** C24: refinement of the abstract store.  After any sequence of
    invocations the concrete sessions, seen through [abs], are the map
    "session -> latest reported absolutes and largest token count" that
    [abs_record] builds; the all-time total is the sum of the latest costs
    over that map and the session count its size (historical values are
    replaced, never accumulated); and the compaction detector, reading the
    store through [get_session_max_tokens], sees the abstract high-water
    mark. *)
Theorem store_refines (rs : list (Report (C:=C))) :
  abs (replay rs) = abs_replay rs /\
  all_time_total_cost (all_time (replay rs)) = sum_map (fun e => e.1.1.1) (abs_replay rs) /\
  session_count (all_time (replay rs)) = N.of_nat (size (abs_replay rs)) /\
  (forall read_state modified sid,
     Detector.last_known_tokens (store_env read_state modified (replay rs)) (Some sid) =
     (fun e => e.2) <$> abs_replay rs !! sid).
Proof.
  assert (Habs : abs (replay rs) = abs_replay rs).
  { unfold replay, abs_replay. rewrite abs_replay_from. unfold abs. simpl. rewrite fmap_empty. reflexivity. }
  destruct (inv_replay rs) as [Ht Hc _ _ _ _ _].
  rewrite <- Habs. unfold abs. rewrite sum_map_fmap, map_size_fmap. repeat split; [exact Ht | exact Hc|].
  intros rd md sid. simpl. unfold get_session_max_tokens. rewrite lookup_fmap.
  destruct (sessions (replay rs) !! sid); reflexivity.
Qed.

(** The session count after a sequence of invocations is the number
    of distinct session ids among them (a session seen on three days
    counts once). *)
Theorem session_count_distinct (rs : list (Report (C:=C))) :
  session_count (all_time (replay rs)) = N.of_nat (size (list_to_set (r_session_id <$> rs) : gset string)).
Proof.
  rewrite (inv_count _ (inv_replay rs)), <- size_dom. unfold replay.
  rewrite dom_sessions_fold. simpl. rewrite dom_empty_L, union_empty_l_L. reflexivity.
Qed.

(** Reporting the same values twice is the same as reporting them
    once: the second report's deltas are zero, its session is already in
    the day's and month's sets and is not counted again. *)
Theorem record_idempotent (r : Report (C:=C)) st : record r (record r st) = record r st.
Proof.
  unfold record at 1. rewrite previous_record, recorded_session_twice. simpl.
  rewrite !Z.sub_diag, csub_self, !bump_twice, insert_insert_eq, cadd_zero_r.
  rewrite decide_True by (rewrite dom_insert_L; set_solver). reflexivity.
Qed.

(** C25: the store and the compaction detector together: once a session
    has reported [n] tokens, any later count below [n / 2] for that
    session is flagged as a compaction ([InProgress] or
    [RecentlyCompleted], never [Normal]), whatever was reported in
    between, because the high-water mark only grows. *)
Theorem compaction_flagged_after_drop (rs : list (Report (C:=C))) r read_state modified path current :
  r ∈ rs -> (2 * current < r_tokens r)%N ->
  Detector.detect_compaction_state (store_env read_state modified (replay rs)) path current
    (Some (r_session_id r)) <> Detector.Normal.
Proof.
  intros Hin Hlt. destruct (high_water_mark_bounds rs r Hin) as (s & Hs & Hle).
  rewrite Detector.detect_eq_classify_spec. unfold Detector.classify_spec.
  destruct (Detector.hook_reports_compacting _ _); [discriminate|].
  simpl. unfold get_session_max_tokens. rewrite Hs. simpl.
  replace (2 * current <? max_tokens_seen s)%N with true by (symmetry; apply N.ltb_lt; lia).
  destruct (Detector.recently_modified _ _); discriminate.
Qed.

End Properties.

(** ** Witnesses and the examples of the specification (costs in [Qc]) *)

Definition rep (sid : string) (c : Q) (la lr : Z) (ts : N) (date month : string) (tok : N) : Report (C:=Qc) := {|
  r_session_id := sid; r_cost := Q2Qc c; r_lines_added := la; r_lines_removed := lr;
  r_timestamp := ts; r_date := date; r_month := month; r_tokens := tok
|}.

Lemma reachable_inv_witness :
  reachable (record (rep "S" 10 200 50 1 "2025-01-01" "2025-01" 1000) empty_stats) /\
  Inv (record (rep "S" 10 200 50 1 "2025-01-01" "2025-01" 1000) empty_stats).
Proof.
  assert (Hr : reachable (record (rep "S" 10 200 50 1 "2025-01-01" "2025-01" 1000) empty_stats))
    by (apply reach_record, reach_init).
  split; [exact Hr | apply reachable_inv, Hr].
Defined.

Lemma compaction_flagged_after_drop_witness :
  Detector.detect_compaction_state
    (store_env (fun _ => None) (fun _ => Some 3%N)
       (replay [rep "S" 10 0 0 1 "d" "m" 150000; rep "S" 11 0 0 2 "d" "m" 40000]))
    "t.jsonl" 40000 (Some "S") <> Detector.Normal.
Proof.
  apply (compaction_flagged_after_drop _ (rep "S" 10 0 0 1 "d" "m" 150000)); [constructor | vm_compute; reflexivity].
Defined.

(** Spec §6: "S" reports 10.0 then 15.0: all-time total 15.0, one session. *)
Example cost_replaced_example :
  this (all_time_total_cost (all_time (replay [rep "S" 10 0 0 1 "2025-01-01" "2025-01" 0;
                                               rep "S" 15 0 0 2 "2025-01-01" "2025-01" 0]))) = 15%Q /\
  session_count (all_time (replay [rep "S" 10 0 0 1 "2025-01-01" "2025-01" 0;
                                   rep "S" 15 0 0 2 "2025-01-01" "2025-01" 0])) = 1%N.
Proof. split; vm_compute; reflexivity. Qed.

(** Spec §6: 10.0 then 6.0 on the same day: the daily total is 6.0; the
    line counts of the regression test (200/50 then 210/55) give deltas. *)
Example daily_delta_example :
  option_map (fun b => (this (total_cost b), total_lines_added b, total_lines_removed b))
    (daily (replay [rep "S" 10 200 50 1 "2025-01-01" "2025-01" 0;
                    rep "S" 6 210 55 2 "2025-01-01" "2025-01" 0]) !! "2025-01-01")
  = Some (6%Q, 210%Z, 55%Z).
Proof. vm_compute. reflexivity. Qed.

(** Spec §6: one session on three days of one month counts once and
    touches exactly those three days. *)
Example multi_day_example :
  session_count (all_time (replay [rep "S" 10 100 20 1 "2025-01-01" "2025-01" 0;
                                   rep "S" 12 120 25 2 "2025-01-02" "2025-01" 0;
                                   rep "S" 15 150 30 3 "2025-01-03" "2025-01" 0])) = 1%N /\
  dom (daily (replay [rep "S" 10 100 20 1 "2025-01-01" "2025-01" 0;
                      rep "S" 12 120 25 2 "2025-01-02" "2025-01" 0;
                      rep "S" 15 150 30 3 "2025-01-03" "2025-01" 0]))
    = list_to_set ["2025-01-01"; "2025-01-02"; "2025-01-03"] /\
  option_map (fun b => this (total_cost b))
    (monthly (replay [rep "S" 10 100 20 1 "2025-01-01" "2025-01" 0;
                      rep "S" 12 120 25 2 "2025-01-02" "2025-01" 0;
                      rep "S" 15 150 30 3 "2025-01-03" "2025-01" 0]) !! "2025-01") = Some 15%Q.
Proof. repeat split; vm_compute; reflexivity. Qed.

End Store.
