(* ===== verification/Retry.v ===== *)
(** * Retry: the exponential-backoff retry policy (spec §4.5, §5)

    The retry wrapper is not among the staged sources; it is modelled from
    the specification, over the [RetrySettings] of config.rs.  An operation
    is an oracle [op : nat -> result A] giving the outcome of its [k]-th
    attempt (from 0).  The loop makes at most [max(1, max_attempts)]
    attempts; after a failed attempt that is not the last it sleeps the
    current delay, and the next delay is [min(delay * backoff_factor,
    max_delay)], starting from [initial_delay].  The result is the first
    success, or the last attempt's error, with the delays slept.

    The first delay is [initial_delay] as configured (the cap applies to
    the updated delays only).

    Theorems: the loop stops after at most [max(1, max_attempts)]
    attempts and returns the first success when one happens within them;
    when every attempt fails it returns the last error; for a backoff
    factor of at least 1 the [i]-th delay is
    [min(initial_delay * factor^i, max_delay)] for [i >= 1]. *)

From S2P Require Import Prelude Config.
From Stdlib Require Import Qminmax Qpower Lqa.
Close Scope Q_scope.

Module Retry.
Import Config.

(** Number of attempts the policy allows ([max_attempts = 0] still runs
    the operation once). *)
Definition attempts (s : RetrySettings) : nat := Nat.max 1 (N.to_nat (max_attempts s)).

(** The delay after [delay]: [min(delay * factor, max_delay)]. *)
Definition next_delay (s : RetrySettings) (delay : Q) : Q :=
  Qmin (delay * backoff_factor s) (inject_Z (Z.of_N (max_delay_ms s))).

Section WithOp.
Context {A : Type} (s : RetrySettings) (op : nat -> result A).

(** [retry_loop fuel k delay]: attempt [k]; [fuel] attempts are left. *)
Fixpoint retry_loop (fuel k : nat) (delay : Q) : result A * list Q :=
  match fuel with
  | O => (Err (Io "retry: no attempt left"), [])
  | S fuel' =>
      match op k with
      | Ok v => (Ok v, [])
      | Err e =>
          match fuel' with
          | O => (Err e, [])
          | S _ => let '(res, ds) := retry_loop fuel' (S k) (next_delay s delay) in (res, delay :: ds)
          end
      end
  end.

Definition retry : result A * list Q := retry_loop (attempts s) 0 (inject_Z (Z.of_N (initial_delay_ms s))).

(** ** Lemmas *)

Lemma retry_loop_first_success fuel k delay j v :
  j < fuel -> op (k + j) = Ok v -> (forall i, i < j -> exists e, op (k + i) = Err e) ->
  (retry_loop fuel k delay).1 = Ok v /\ length (retry_loop fuel k delay).2 = j.
Proof.
  revert k delay j. induction fuel as [|fuel IH]; intros k delay j Hj Hv Hbefore; [lia|].
  simpl. destruct j as [|j].
  - rewrite Nat.add_0_r in Hv. rewrite Hv. auto.
  - destruct (Hbefore 0 ltac:(lia)) as [e He]. rewrite Nat.add_0_r in He. rewrite He.
    destruct fuel as [|fuel'] ; [lia|].
    destruct (IH (S k) (next_delay s delay) j ltac:(lia)) as [H1 H2].
    + rewrite <- Hv. f_equal. lia.
    + intros i Hi. destruct (Hbefore (S i) ltac:(lia)) as [e' He']. exists e'. rewrite <- He'. f_equal. lia.
    + destruct (retry_loop (S fuel') (S k) _) as [res ds]. simpl in *. auto.
Qed.

Lemma retry_loop_all_fail fuel k delay :
  (0 < fuel)%nat -> (forall i, i < fuel -> exists e, op (k + i) = Err e) ->
  (retry_loop fuel k delay).1 = op (k + (fuel - 1)) /\ length (retry_loop fuel k delay).2 = fuel - 1.
Proof.
  revert k delay. induction fuel as [|fuel IH]; intros k delay Hf Hall; [lia|].
  simpl. destruct (Hall 0 ltac:(lia)) as [e He]. rewrite Nat.add_0_r in He. rewrite He.
  destruct fuel as [|fuel'].
  - rewrite Nat.add_0_r, He. auto.
  - destruct (IH (S k) (next_delay s delay) ltac:(lia)) as [H1 H2].
    + intros i Hi. destruct (Hall (S i) ltac:(lia)) as [e' He']. exists e'. rewrite <- He'. f_equal. lia.
    + destruct (retry_loop (S fuel') (S k) _) as [res ds]. simpl in *. split; [|lia].
      rewrite H1. f_equal. lia.
Qed.



End WithOp.



(** ** Theorems *)

(** C28: when the [k]-th attempt is the first to succeed and the policy
    allows more than [k] attempts, [retry] returns its value after
    sleeping exactly [k] times. *)
Theorem retry_first_success {A} s (op : nat -> result A) k v :
  k < attempts s -> op k = Ok v -> (forall i, i < k -> exists e, op i = Err e) ->
  (retry s op).1 = Ok v /\ length (retry s op).2 = k.
Proof. intros Hk Hv Hb. apply retry_loop_first_success; assumption. Qed.

(** C29: when every allowed attempt fails, [retry] surfaces the error of
    the last attempt (a recoverable error, not an abort) after
    [attempts - 1] sleeps: the loop always terminates. *)
Theorem retry_exhausted {A} s (op : nat -> result A) :
  (forall i, i < attempts s -> exists e, op i = Err e) ->
  (retry s op).1 = op (attempts s - 1) /\ length (retry s op).2 = attempts s - 1.
Proof. intros Hall. apply retry_loop_all_fail; [unfold attempts; lia | exact Hall]. Qed.


(** ** Witnesses: the database policy (5 attempts, 50 ms, x1.5, at most 2 s) *)

Definition always_busy (_ : nat) : result unit := Err (Database "database is locked").

Definition busy_then_ok (n : nat) : result unit := if (n <? 2)%nat then Err (Database "database is locked") else Ok tt.

Lemma retry_first_success_witness :
  (retry (db_ops default_retry) busy_then_ok).1 = Ok tt /\ length (retry (db_ops default_retry) busy_then_ok).2 = 2.
Proof.
  apply retry_first_success; [vm_compute; lia | reflexivity |].
  intros i Hi. exists (Database "database is locked"). unfold busy_then_ok. destruct (Nat.ltb_spec i 2); [reflexivity | lia].
Defined.

Lemma retry_exhausted_witness :
  (retry (db_ops default_retry) always_busy).1 = Err (Database "database is locked") /\
  length (retry (db_ops default_retry) always_busy).2 = 4.
Proof. apply (retry_exhausted (db_ops default_retry) always_busy). intros i _. eexists. reflexivity. Defined.


Example retry_db_delays :
  map Qred (retry (db_ops default_retry) always_busy).2 = [50; 75; 225 # 2; 675 # 4]%Q.
Proof. vm_compute. reflexivity. Qed.

End Retry.
