(* ===== verification/Durability.v ===== *)
(** * Durability: the two sinks of a stats update (spec §4.5, §5, §9)

    Every invocation that carries a cost reports it to two independent
    sinks invoked in order: the SQL database (primary) and, when
    [json_backup] is on, the JSON mirror.  Each write is wrapped in the
    retry policy of its category ([db_ops], [file_ops]) and applies
    [Store.record] as one transaction, or nothing when its retries are
    exhausted; a failure is reported, never propagated to the other sink.
    The outcomes of the attempts are the oracles [db_op] and [json_op].
    Modelled from the specification (the writers are not among the staged
    sources).

    Theorems: after any sequence of invocations with any failures, the
    database holds exactly [Store.replay] of the reports whose database
    write succeeded (so it satisfies the store's invariant: no half-applied
    delta is ever visible), and likewise the mirror; the database's
    outcome does not depend on the mirror's, nor the mirror's on the
    database's. *)

From S2P Require Import Prelude Config Retry Stats.
From Stdlib Require Import Qcanon.
Close Scope Q_scope.

Module Durability.
Import Config Store.

Section WithCost.
Context {C : Type} `{CostArith C}.

Record Sinks := { db : StatsData (C:=C); json : StatsData (C:=C) }.

Definition empty_sinks : Sinks := {| db := empty_stats; json := empty_stats |}.

(** One invocation's attempt outcomes at each sink. *)
Record Invocation := {
  report : Report (C:=C);
  db_op : nat -> result unit;
  json_op : nat -> result unit
}.

Definition db_result (cfg : Config) (i : Invocation) : result unit :=
  (Retry.retry (db_ops (Config.retry cfg)) (db_op i)).1.

(** [None] when the mirror is off. *)
Definition json_result (cfg : Config) (i : Invocation) : option (result unit) :=
  if json_backup (database cfg) then Some (Retry.retry (file_ops (Config.retry cfg)) (json_op i)).1
  else None.

Definition commit (res : result unit) (r : Report) (st : StatsData) : StatsData :=
  match res with Ok _ => record r st | Err _ => st end.

Definition errors_of (res : result unit) : list StatuslineError :=
  match res with Ok _ => [] | Err e => [e] end.

(** The database write, then the mirror write; the errors are collected
    for the log. *)
Definition persist (cfg : Config) (i : Invocation) (sk : Sinks) : Sinks * list StatuslineError :=
  let dres := db_result cfg i in
  let db' := commit dres (report i) (db sk) in
  match json_result cfg i with
  | Some jres => ({| db := db'; json := commit jres (report i) (json sk) |}, errors_of dres ++ errors_of jres)
  | None => ({| db := db'; json := json sk |}, errors_of dres)
  end.

Definition run (cfg : Config) (invs : list Invocation) (sk : Sinks) : Sinks :=
  fold_left (fun sk i => (persist cfg i sk).1) invs sk.

Definition is_ok (res : result unit) : bool := match res with Ok _ => true | Err _ => false end.

(** The reports the database committed, in order. *)
Definition db_committed (cfg : Config) (invs : list Invocation) : list Report :=
  report <$> List.filter (fun i => is_ok (db_result cfg i)) invs.

Definition json_committed (cfg : Config) (invs : list Invocation) : list Report :=
  report <$> List.filter (fun i => match json_result cfg i with Some res => is_ok res | None => false end) invs.

(** ** Lemmas *)

Lemma db_persist cfg i sk : db (persist cfg i sk).1 = commit (db_result cfg i) (report i) (db sk).
Proof. unfold persist. destruct (json_result cfg i); reflexivity. Qed.

Lemma json_persist cfg i sk :
  json (persist cfg i sk).1 =
  match json_result cfg i with Some res => commit res (report i) (json sk) | None => json sk end.
Proof. unfold persist. destruct (json_result cfg i); reflexivity. Qed.

Lemma commit_replay_from res r rs st :
  commit res r (replay_from rs st) = replay_from (rs ++ if is_ok res then [r] else []) st.
Proof. unfold replay_from. rewrite fold_left_app. destruct res; reflexivity. Qed.

Lemma db_committed_cons cfg i invs :
  db_committed cfg (i :: invs) = (if is_ok (db_result cfg i) then [report i] else []) ++ db_committed cfg invs.
Proof. unfold db_committed. simpl. destruct (is_ok (db_result cfg i)); reflexivity. Qed.

Lemma json_committed_cons cfg i invs :
  json_committed cfg (i :: invs) =
  (match json_result cfg i with Some res => if is_ok res then [report i] else [] | None => [] end)
  ++ json_committed cfg invs.
Proof. unfold json_committed. simpl. destruct (json_result cfg i) as [[]|]; reflexivity. Qed.

Lemma run_db_from cfg invs sk rs :
  db sk = replay rs -> db (run cfg invs sk) = replay (rs ++ db_committed cfg invs).
Proof.
  revert sk rs. induction invs as [|i invs IH]; intros sk rs Hsk; simpl.
  - rewrite app_nil_r. exact Hsk.
  - rewrite db_committed_cons, app_assoc. apply IH.
    rewrite db_persist, Hsk. apply commit_replay_from.
Qed.

Lemma run_json_from cfg invs sk rs :
  json sk = replay rs -> json (run cfg invs sk) = replay (rs ++ json_committed cfg invs).
Proof.
  revert sk rs. induction invs as [|i invs IH]; intros sk rs Hsk; simpl.
  - rewrite app_nil_r. exact Hsk.
  - rewrite json_committed_cons, app_assoc. apply IH.
    rewrite json_persist, Hsk. destruct (json_result cfg i) as [res|].
    + apply commit_replay_from.
    + rewrite app_nil_r. reflexivity.
Qed.

End WithCost.

(** ** Theorems *)

Section Properties.
Context {C : Type} `{CostArith C}.

(** C31: after any sequence of invocations, whatever their failures, the
    database holds exactly the replay of the reports whose database write
    succeeded, in order, and so satisfies the store's invariant (no
    half-applied delta is visible); the mirror holds the replay of the
    reports it committed. *)
Theorem run_replays_committed (cfg : Config) (invs : list (Invocation (C:=C))) :
  db (run cfg invs empty_sinks) = replay (db_committed cfg invs) /\
  Inv (db (run cfg invs empty_sinks)) /\
  json (run cfg invs empty_sinks) = replay (json_committed cfg invs).
Proof.
  assert (Hdb : db (run cfg invs empty_sinks) = replay (db_committed cfg invs))
    by exact (run_db_from cfg invs empty_sinks [] eq_refl).
  split; [exact Hdb|]. split; [rewrite Hdb; apply inv_replay|].
  exact (run_json_from cfg invs empty_sinks [] eq_refl).
Qed.

(** The two sinks of one invocation are independent fault domains: the
    database's new state does not depend on the mirror's attempts, nor
    the mirror's on the database's. *)
Lemma sinks_independent (cfg : Config) (r : Report (C:=C)) d d' j j' sk :
  db (persist cfg {| report := r; db_op := d; json_op := j |} sk).1 =
  db (persist cfg {| report := r; db_op := d; json_op := j' |} sk).1 /\
  json (persist cfg {| report := r; db_op := d; json_op := j |} sk).1 =
  json (persist cfg {| report := r; db_op := d'; json_op := j |} sk).1.
Proof. rewrite !db_persist, !json_persist. split; reflexivity. Qed.

(** C32: over a whole history, the database depends only on the
    reports and on how the database's own attempts went: two histories
    that differ only in the mirror's outcomes (and start from any two
    mirrors) leave the same database. *)
Theorem db_history_independent_of_mirror (cfg : Config) (invs invs' : list (Invocation (C:=C))) sk sk' :
  Forall2 (fun i i' => report i = report i' /\ db_op i = db_op i') invs invs' ->
  db sk = db sk' ->
  db (run cfg invs sk) = db (run cfg invs' sk').
Proof.
  intros Hall. revert sk sk'. induction Hall as [|i i' invs invs' [Hr Hd] _ IH]; intros sk sk' Hsk; [exact Hsk|].
  apply IH. rewrite !db_persist, Hsk. unfold db_result. rewrite Hr, Hd. reflexivity.
Qed.

End Properties.

(** ** Example: the database is locked for every attempt of the second
    invocation; the mirror commits both reports, the database only the
    first. *)

Definition locked (_ : nat) : result unit := Err (Database "database is locked").

Lemma db_history_independent_of_mirror_witness :
  db (run default_config
        [{| report := rep "S" 10 0 0 1 "2025-01-01" "2025-01" 0; db_op := fun _ => Ok tt; json_op := locked |}]
        empty_sinks) =
  db (run default_config
        [{| report := rep "S" 10 0 0 1 "2025-01-01" "2025-01" 0; db_op := fun _ => Ok tt; json_op := fun _ => Ok tt |}]
        empty_sinks).
Proof. apply db_history_independent_of_mirror; [repeat constructor | reflexivity]. Defined.

Example db_locked_example :
  let invs := [{| report := rep "S" 10 0 0 1 "2025-01-01" "2025-01" 0; db_op := fun _ => Ok tt;
                  json_op := fun _ => Ok tt |};
               {| report := rep "S" 15 0 0 2 "2025-01-01" "2025-01" 0; db_op := locked;
                  json_op := fun _ => Ok tt |}] in
  this (all_time_total_cost (all_time (db (run default_config invs empty_sinks)))) = 10%Q /\
  this (all_time_total_cost (all_time (json (run default_config invs empty_sinks)))) = 15%Q.
Proof. vm_compute. split; reflexivity. Qed.

End Durability.
