(* ===== verification/Statusline.v ===== *)
(** * Statusline: assembling the status line (display.rs)

    [format_statusline_string] builds the parts of the line in a fixed
    order (directory, git, context bar, model, duration, lines changed,
    cost) and joins them with the separator.  Each part is modelled as the
    code computes it, with its collaborators: [shorten_path] and
    [sanitize_for_terminal] (Sanitize.v), [calculate_context_usage]
    (Usage.v), [format_context_bar] and [format_duration] (Format.v),
    [parse_duration] (Duration.v), the cost colour of [Colors::cost_color]
    and the burn rate.  The I/O collaborators are section variables: the
    git status line ([get_git_status] and [format_git_info], git.rs), the
    model abbreviation ([ModelType::abbreviation], models.rs), the stats
    store's [get_session_duration] and the [{:.2}] formatting of an f64.

    Rust strings are UTF-8; a Rocq [string] here is the UTF-8 byte
    sequence, and [sanitize_for_terminal], which works on characters, is
    applied to the decoded code points ([utf8_decode]) and re-encoded
    ([utf8_encode]).  The decoder is the standard one on valid UTF-8,
    which every Rust [&str] is.

    Lemmas of the section [NoColor]: with the empty colours of
    [no_color_theme], every part of the line and the joined line are free
    of ESC bytes (for any input bytes: the sanitiser drops ESC, and no
    byte the encoder writes for another value is ESC). *)

From S2P Require Import Prelude Config Compaction TokenExtractor ContextWindow Usage Format Sanitize Duration Stats.
From Stdlib Require Import Ascii Strings.Byte Qcanon.
Close Scope Q_scope.

Module Statusline.
Import Config Detector Transcript Resolver Estimator Fmt Terminal Duration.

(** ** UTF-8 *)

Definition utf8_bytes (c : N) : list N :=
  if (c <? 128)%N then [c]
  else if (c <? 2048)%N then [192 + c / 64; 128 + c mod 64]%N
  else if (c <? 65536)%N then [224 + c / 4096; 128 + (c / 64) mod 64; 128 + c mod 64]%N
  else [240 + c / 262144; 128 + (c / 4096) mod 64; 128 + (c / 64) mod 64; 128 + c mod 64]%N.

Definition utf8_encode (cps : list N) : string :=
  String.string_of_list_ascii (map ascii_of_N (flat_map utf8_bytes cps)).

Fixpoint utf8_decode_bytes (l : list N) : list N :=
  match l with
  | [] => []
  | b :: rest =>
      if (b <? 128)%N then b :: utf8_decode_bytes rest
      else if (b <? 224)%N then
        match rest with
        | b2 :: r2 => ((b - 192) * 64 + (b2 - 128))%N :: utf8_decode_bytes r2
        | [] => [b]
        end
      else if (b <? 240)%N then
        match rest with
        | b2 :: b3 :: r3 => ((b - 224) * 4096 + (b2 - 128) * 64 + (b3 - 128))%N :: utf8_decode_bytes r3
        | _ => [b]
        end
      else
        match rest with
        | b2 :: b3 :: b4 :: r4 =>
            ((b - 240) * 262144 + (b2 - 128) * 4096 + (b3 - 128) * 64 + (b4 - 128))%N :: utf8_decode_bytes r4
        | _ => [b]
        end
  end.

Definition utf8_decode (s : string) : list N :=
  utf8_decode_bytes (map N_of_ascii (String.list_ascii_of_string s)).

(** [sanitize_for_terminal] on a Rust string. *)
Definition sanitize_str (s : string) : string := utf8_encode (sanitize_for_terminal (utf8_decode s)).

(** [str::trim_start] (ASCII white space). *)
Fixpoint trim_start (s : string) : string :=
  match s with
  | String c rest =>
      if (c =? " ")%char || (c =? "009")%char || (c =? "010")%char || (c =? "011")%char ||
         (c =? "012")%char || (c =? "013")%char
      then trim_start rest else s
  | EmptyString => EmptyString
  end.

(** [parts.join(sep)]. *)
Fixpoint join (sep : string) (parts : list string) : string :=
  match parts with
  | [] => ""
  | [p] => p
  | p :: rest => (p +:+ sep +:+ join sep rest)%string
  end.

(** ** Theme colours *)

(** The colour strings [Colors::*] returns under the current theme (all
    empty when colours are disabled). *)
Record Theme := {
  th_base : Palette;
  th_directory : string;
  th_model : string;
  th_duration : string;
  th_lines_added : string;
  th_lines_removed : string;
  th_separator : string;
  th_cost : CostLevel -> string
}.

Definition no_color_theme : Theme := {|
  th_base := no_color; th_directory := ""; th_model := ""; th_duration := "";
  th_lines_added := ""; th_lines_removed := ""; th_separator := ""; th_cost := fun _ => ""
|}.

(** The [Cost] record of the input JSON (models.rs). *)
Record Cost := {
  total_cost_usd : option Q;
  total_lines_added : option N;
  total_lines_removed : option N
}.

(** ** Parts *)

(** [duration.and_then(|d| if d > 60 { Some(total_cost * 3600.0 / d as f64) } else { None })]. *)
Definition burn_rate (total_cost : Q) (duration : option N) : option Q :=
  match duration with
  | Some d => if (60 <? d)%N then Some (total_cost * 3600 / inject_Z (Z.of_N d))%Q else None
  | None => None
  end.

(** The lines-changed part: ["+a -r"], either half omitted when zero. *)
Definition lines_part (th : Theme) (added removed : N) : option string :=
  if (0 <? added)%N || (0 <? removed)%N then
    Some ((if (0 <? added)%N then th_lines_added th +:+ "+" +:+ N_to_string added +:+ c_reset (th_base th)
           else "") +:+
          (if (0 <? removed)%N then
             (if (0 <? added)%N then " " else "") +:+
             th_lines_removed th +:+ "-" +:+ N_to_string removed +:+ c_reset (th_base th)
           else ""))%string
  else None.

Section WithCollaborators.
Context (parse_entry : list byte -> option TranscriptEntry) (fs : FileSystem) (env : Env)
        (from_name : string -> ModelType) `{LearnedWindowSource}
        (rfc naive_frac naive : string -> option Z)
        (abbreviation : ModelType -> string)
        (git_info : string -> option string)
        (get_session_duration : string -> option N)
        (fmt2 : Q -> string)
        (home : option string)
        (global : Config) (th : Theme).

(** [get_cost_color(x)]. *)
Definition cost_color (x : Q) : string := th_cost th (cost_level (cost global) x).

(** [session_id.and_then(get_session_duration).or_else(|| transcript_path.and_then(parse_duration))]. *)
Definition burn_duration (session_id transcript_path : option string) : option N :=
  match session_id ≫= get_session_duration with
  | Some d => Some d
  | None => transcript_path ≫= parse_duration rfc naive_frac naive parse_entry fs
  end.

Definition day_part (daily_total : Q) : string :=
  ("day: " +:+ cost_color daily_total +:+ "$" +:+ fmt2 daily_total +:+ c_reset (th_base th))%string.

(** Part 7. *)
Definition cost_part (cost : option Cost) (daily_total : Q) (session_id transcript_path : option string)
    : option string :=
  match cost with
  | Some cost_data =>
      match total_cost_usd cost_data with
      | Some total_cost =>
          let base := (cost_color total_cost +:+ "$" +:+ fmt2 total_cost +:+ c_reset (th_base th))%string in
          let with_rate :=
            match burn_rate total_cost (burn_duration session_id transcript_path) with
            | Some rate =>
                if Qltb 0 rate then
                  (base +:+ " " +:+ c_light_gray (th_base th) +:+ "($" +:+ fmt2 rate +:+ "/hr)" +:+
                   c_reset (th_base th))%string
                else base
            | None => base
            end in
          Some (if Qltb total_cost daily_total then
                  (with_rate +:+ " " +:+ c_reset (th_base th) +:+ "(day: " +:+ cost_color daily_total +:+
                   "$" +:+ fmt2 daily_total +:+ ")" +:+ c_reset (th_base th))%string
                else with_rate)
      | None => if Qltb 0 daily_total then Some (day_part daily_total) else None
      end
  | None => if Qltb 0 daily_total then Some (day_part daily_total) else None
  end.

Definition opt_part (b : bool) (p : option string) : list string :=
  if b then match p with Some s => [s] | None => [] end else [].

Definition format_statusline_string (current_dir : string) (model_name transcript_path : option string)
    (cost : option Cost) (daily_total : Q) (session_id : option string) (dc : DisplayConfig) : string :=
  let reset := c_reset (th_base th) in
  let dir := Some (th_directory th +:+ sanitize_str (shorten_path home current_dir) +:+ reset)%string in
  let git := match git_info current_dir with
             | Some g => if String.eqb g "" then None else Some (trim_start g)
             | None => None
             end in
  let ctx := transcript ← transcript_path;
             context ← calculate_context_usage parse_entry fs env from_name global transcript
                         model_name session_id None;
             let current_tokens := get_token_count_from_transcript parse_entry fs
                                     (buffer_lines (Config.transcript global)) transcript in
             let window_size := Some (get_context_window_for_model from_name model_name global) in
             Some (format_context_bar (th_base th) (display global) (percentage context)
                     (approaching_limit context) (compaction_state context) current_tokens window_size) in
  let model := name ← model_name;
               Some (th_model th +:+ sanitize_str (abbreviation (from_name (sanitize_str name))) +:+ reset)%string in
  let dur := transcript ← transcript_path;
             d ← parse_duration rfc naive_frac naive parse_entry fs transcript;
             Some (th_duration th +:+ format_duration d +:+ reset)%string in
  let lines := c ← cost;
               added ← total_lines_added c;
               removed ← total_lines_removed c;
               lines_part th added removed in
  let separator := (" " +:+ th_separator th +:+ "•" +:+ reset +:+ " ")%string in
  join separator
    (opt_part (show_directory dc) dir ++ opt_part (show_git dc) git ++ opt_part (show_context dc) ctx ++
     opt_part (show_model dc) model ++ opt_part (show_duration dc) dur ++
     opt_part (show_lines_changed dc) lines ++ opt_part (show_cost dc) (cost_part cost daily_total session_id transcript_path)).

End WithCollaborators.

(** ** Lemmas *)

Lemma div_chain c : (c / 4096 = c / 64 / 64 /\ c / 262144 = c / 64 / 64 / 64)%N.
Proof. rewrite !N.Div0.div_div. split; reflexivity. Qed.

(** Decoding the encoding of one scalar value gives it back. *)
Lemma utf8_decode_bytes_cp c rest :
  (c < 1114112)%N -> utf8_decode_bytes (utf8_bytes c ++ rest) = c :: utf8_decode_bytes rest.
Proof.
  intros Hc. destruct (div_chain c) as [E1 E2]. unfold utf8_bytes. rewrite E1, E2.
  divmod_as c 64%N q1 r1. divmod_as q1 64%N q2 r2. divmod_as q2 64%N q3 r3.
  ltb_cases; simpl; ltb_cases; f_equal; lia.
Qed.

(** The bytes of a scalar value: one byte below 128 for an ASCII
    character, bytes in [128, 256) otherwise. *)
Lemma utf8_bytes_range c :
  (c < 1114112)%N ->
  Forall (fun b => b < 256 /\ ((c < 128 /\ b = c) \/ 128 <= b))%N (utf8_bytes c).
Proof.
  intros Hc. destruct (div_chain c) as [E1 E2]. unfold utf8_bytes. rewrite E1, E2.
  divmod_as c 64%N q1 r1. divmod_as q1 64%N q2 r2. divmod_as q2 64%N q3 r3.
  ltb_cases; repeat constructor; lia.
Qed.

Lemma bytes_of_encode cps :
  Forall (fun c => c < 1114112)%N cps ->
  map N_of_ascii (String.list_ascii_of_string (utf8_encode cps)) = flat_map utf8_bytes cps.
Proof.
  intros Hcps. unfold utf8_encode. rewrite String.list_ascii_of_string_of_list_ascii, map_map.
  rewrite <- (List.map_id (flat_map utf8_bytes cps)) at 2. apply List.map_ext_in. intros b Hb. apply in_flat_map in Hb as (c & Hc & Hb).
  apply N_ascii_embedding.
  exact (proj1 (proj1 (List.Forall_forall _ _) (utf8_bytes_range c (proj1 (List.Forall_forall _ _) Hcps c Hc)) b Hb)).
Qed.

Lemma utf8_decode_encode_aux cps :
  Forall (fun c => c < 1114112)%N cps -> utf8_decode (utf8_encode cps) = cps.
Proof.
  intros Hcps. unfold utf8_decode. rewrite bytes_of_encode by exact Hcps.
  induction Hcps as [|c cps Hc _ IH]; [reflexivity|].
  simpl. rewrite utf8_decode_bytes_cp by exact Hc. f_equal. exact IH.
Qed.

(** *** No escape characters without colours *)

(** Decoding bytes gives values below 4460608, the largest a four-byte
    sequence can spell. *)
Lemma utf8_decode_bytes_bound l :
  Forall (fun b => b < 256)%N l -> Forall (fun c => c < 4460608)%N (utf8_decode_bytes l).
Proof.
  remember (length l) as n eqn:Hn. revert l Hn.
  induction n as [n IH] using lt_wf_ind. intros l -> Hl.
  destruct l as [|b rest]; [constructor|]. inversion Hl as [|? ? Hb Hrest]; subst. simpl.
  destruct (b <? 128)%N eqn:E1; [constructor; [lia | apply (IH (length rest)); simpl; auto with lia]|].
  destruct (b <? 224)%N eqn:E2; [|destruct (b <? 240)%N eqn:E3];
    [destruct rest as [|b2 r]| destruct rest as [|b2 [|b3 r]] | destruct rest as [|b2 [|b3 [|b4 r]]]];
    repeat match goal with H : Forall _ (_ :: _) |- _ => inversion H; subst; clear H end;
    (constructor; [lia | try constructor]);
    try (apply (IH (length r)); simpl; auto with lia).
Qed.

Lemma ascii_of_N_not_esc b : (b < 258)%N -> b <> 27%N -> ascii_of_N b <> "027"%char.
Proof.
  intros Hb Hne. destruct (N.ltb_spec b 256).
  - intros E. apply (f_equal N_of_ascii) in E. rewrite N_ascii_embedding in E by exact H. simpl in E. lia.
  - assert (b = 256 \/ b = 257)%N as [-> | ->] by lia; discriminate.
Qed.

Lemma utf8_bytes_not_esc c :
  (c < 4460608)%N -> c <> 27%N -> Forall (fun b => ascii_of_N b <> "027"%char) (utf8_bytes c).
Proof.
  intros Hc Hne. destruct (div_chain c) as [E1 E2]. unfold utf8_bytes. rewrite E1, E2.
  divmod_as c 64%N q1 r1. divmod_as q1 64%N q2 r2. divmod_as q2 64%N q3 r3.
  ltb_cases; repeat constructor; apply ascii_of_N_not_esc; lia.
Qed.

Lemma utf8_encode_esc_free cps :
  Forall (fun c => c < 4460608 /\ c <> 27)%N cps -> esc_free (utf8_encode cps).
Proof.
  intros Hcps. unfold esc_free, utf8_encode. rewrite String.list_ascii_of_string_of_list_ascii.
  apply Forall_map. induction Hcps as [|c cps [Hc Hne] _ IH]; simpl; [constructor|].
  apply Forall_app. split; [apply utf8_bytes_not_esc; assumption | exact IH].
Qed.

(** The sanitised text of any string has no ESC byte. *)
Lemma sanitize_str_esc_free s : esc_free (sanitize_str s).
Proof.
  apply utf8_encode_esc_free.
  assert (Hb : Forall (fun c => c < 4460608)%N (utf8_decode s)).
  { apply utf8_decode_bytes_bound, Forall_map, Forall_forall. intros c _. apply N_ascii_bounded. }
  eapply Forall_impl; [exact (sanitize_for_terminal_sub _ _ Hb)|].
  intros c [Hc Ha]. split; [exact Hc|]. intros ->. discriminate.
Qed.

Lemma trim_start_esc_free s : esc_free s -> esc_free (trim_start s).
Proof.
  induction s as [|c s IH]; simpl; [auto|]. intros Hs.
  destruct (_ || _); [apply IH; inversion Hs; assumption | exact Hs].
Qed.

Lemma join_esc_free sep parts : esc_free sep -> Forall esc_free parts -> esc_free (join sep parts).
Proof.
  intros Hsep Hp. induction Hp as [|p parts Hp Hps IH]; [apply esc_free_empty|].
  destruct parts; simpl; auto with esc.
Qed.

Lemma opt_part_esc_free b p : (forall x, p = Some x -> esc_free x) -> Forall esc_free (opt_part b p).
Proof. intros H. unfold opt_part. destruct b, p; repeat constructor. auto. Qed.

Lemma lines_part_no_color_esc_free a r x : lines_part no_color_theme a r = Some x -> esc_free x.
Proof.
  unfold lines_part. destruct (_ || _); [|discriminate]. intros [= <-]. simpl.
  repeat (destruct (0 <? _)%N); simpl; auto 20 with esc.
Qed.

#[export] Hint Resolve sanitize_str_esc_free trim_start_esc_free : esc.

Section NoColor.
Context (parse_entry : list byte -> option TranscriptEntry) (fs : FileSystem) (env : Env)
        (from_name : string -> ModelType) `{LearnedWindowSource}
        (rfc naive_frac naive : string -> option Z)
        (abbreviation : ModelType -> string)
        (git_info : string -> option string)
        (get_session_duration : string -> option N)
        (fmt2 : Q -> string)
        (home : option string)
        (global : Config).
Hypothesis fmt2_esc_free : forall q, esc_free (fmt2 q).
Hypothesis git_info_esc_free : forall d g, git_info d = Some g -> esc_free g.

Lemma cost_part_no_color_esc_free cost daily_total session_id transcript_path x :
  cost_part parse_entry fs rfc naive_frac naive get_session_duration fmt2 global no_color_theme
    cost daily_total session_id transcript_path = Some x -> esc_free x.
Proof.
  unfold cost_part, day_part, cost_color. simpl.
  destruct cost as [c|]; [destruct (total_cost_usd c) as [t|]|];
    try (destruct (Qltb 0 daily_total); [intros [= <-]; auto 20 with esc | discriminate]).
  intros [= <-]. cbv zeta.
  match goal with |- context [burn_rate t ?d] => destruct (burn_rate t d) as [rate|] end;
    try destruct (Qltb 0 rate); destruct (Qltb t daily_total); auto 40 with esc.
Qed.

(** Without colours every part of the line, and so the line, is free of
    ESC, provided the git status and the [{:.2}] formatting are. *)
Lemma format_statusline_string_no_color_esc_free current_dir model_name transcript_path cost daily_total
    session_id dc :
  esc_free (format_statusline_string parse_entry fs env from_name rfc naive_frac naive abbreviation git_info
              get_session_duration fmt2 home global no_color_theme
              current_dir model_name transcript_path cost daily_total session_id dc).
Proof.
  unfold format_statusline_string. apply join_esc_free; [simpl; auto 10 with esc|].
  repeat apply Forall_app_2; apply opt_part_esc_free; intros x Hx.
  - injection Hx as <-. simpl. auto with esc.
  - destruct (git_info current_dir) as [g|] eqn:Hg; [|discriminate].
    destruct (String.eqb g ""); [discriminate|]. injection Hx as <-. eauto with esc.
  - destruct transcript_path; [|discriminate]. simpl in Hx.
    destruct (calculate_context_usage _ _ _ _ _ _ _ _ _); [|discriminate]. injection Hx as <-. auto with esc.
  - destruct model_name; [|discriminate]. injection Hx as <-. simpl. auto with esc.
  - destruct transcript_path; [|discriminate]. simpl in Hx.
    destruct (parse_duration _ _ _ _ _ _); [|discriminate]. injection Hx as <-. simpl. auto with esc.
  - destruct cost as [c|]; [|discriminate]. simpl in Hx.
    destruct (total_lines_added c); [|discriminate]. destruct (total_lines_removed c); [|discriminate].
    exact (lines_part_no_color_esc_free _ _ _ Hx).
  - exact (cost_part_no_color_esc_free _ _ _ _ _ Hx).
Qed.

End NoColor.

(** ** Theorems *)

#[local] Existing Instance Store.Qc_cost.

(** C26: the burn rate uses the stats store's session duration whenever
    the store knows the session: from the first report to the last
    update of the session, [cost * 3600 / span] when the span exceeds 60
    seconds, and no rate otherwise, even when the transcript would give a
    longer duration. *)
Theorem burn_rate_from_store (rs : list (Store.Report (C:=Qc))) sid r0 rl total_cost
    parse_entry fs rfc naive_frac naive transcript_path :
  head (Store.reports_of sid rs) = Some r0 -> last (Store.reports_of sid rs) = Some rl ->
  burn_rate total_cost
    (burn_duration parse_entry fs rfc naive_frac naive (Store.get_session_duration (Store.replay rs))
       (Some sid) transcript_path) =
  if (60 <? Store.r_timestamp rl - Store.r_timestamp r0)%N
  then Some (total_cost * 3600 / inject_Z (Z.of_N (Store.r_timestamp rl - Store.r_timestamp r0)))%Q
  else None.
Proof.
  intros H0 H1. unfold burn_duration. simpl.
  rewrite Store.get_session_duration_replay, H0, H1. reflexivity.
Qed.

(** UTF-8 round trip: decoding the encoding of a list of Unicode
    scalar values gives the list back. *)
Theorem utf8_decode_encode cps :
  Forall (fun c => c < 1114112)%N cps -> utf8_decode (utf8_encode cps) = cps.
Proof. apply utf8_decode_encode_aux. Qed.


(** ** Witnesses *)

Lemma burn_rate_from_store_witness :
  burn_rate (Q2Qc 5) (burn_duration (fun _ => None) {| canonicalize := fun _ => None; is_file := fun _ => false;
                                                        contents := fun _ => None |}
                        (fun _ => None) (fun _ => None) (fun _ => None)
                        (Store.get_session_duration
                           (Store.replay [Store.rep "S" 1 0 0 1000 "d" "m" 0; Store.rep "S" 5 0 0 2800 "d" "m" 0]))
                        (Some "S") None) = Some (Q2Qc 5 * 3600 / inject_Z (Z.of_N 1800))%Q.
Proof. rewrite (burn_rate_from_store _ "S" (Store.rep "S" 1 0 0 1000 "d" "m" 0) (Store.rep "S" 5 0 0 2800 "d" "m" 0)); reflexivity. Defined.

Lemma utf8_decode_encode_witness : utf8_decode (utf8_encode [104; 233; 8364; 128512]%N) = [104; 233; 8364; 128512]%N.
Proof. apply utf8_decode_encode. repeat (apply List.Forall_cons; [lia|]). apply List.Forall_nil. Defined.


Example sanitize_str_cases :
  sanitize_str (String (ascii_of_N 27) ("[31mred" +:+ String (ascii_of_N 27) "[0m ok")%string) = "red ok".
Proof. vm_compute. reflexivity. Qed.

Example burn_rate_cases :
  burn_rate 5 (Some 1800%N) = Some (5 * 3600 / 1800)%Q /\ burn_rate 5 (Some 60%N) = None.
Proof. split; reflexivity. Qed.

(** An end-to-end line with colours off: directory under HOME, a git
    status line with a leading space, no model or transcript, a cost of
    $1.50 with 10/2 lines changed and a daily total of $3.00. *)
Definition fmt2_example (q : Q) : string :=
  let c := Z.to_N (round_half_away (q * 100)) in
  (N_to_string (c / 100) +:+ "." +:+ (if (c mod 100 <? 10)%N then "0" else "") +:+ N_to_string (c mod 100))%string.

Example format_statusline_string_example :
  format_statusline_string (fun _ => None)
    {| canonicalize := fun _ => None; is_file := fun _ => false; contents := fun _ => None |}
    {| read_state := fun _ => None; open_db := Err (Database "absent"); modified_elapsed_secs := fun _ => None |}
    (fun _ => Unknown) (fun _ => None) (fun _ => None) (fun _ => None)
    (fun _ => "") (fun _ => Some " main") (fun _ => None) fmt2_example (Some "/home/u") default_config
    no_color_theme "/home/u/proj" None None
    (Some {| total_cost_usd := Some (3 # 2)%Q; total_lines_added := Some 10%N; total_lines_removed := Some 2%N |})
    3%Q None default_display
  = "~/proj • main • +10 -2 • $1.50 (day: $3.00)".
Proof. vm_compute. reflexivity. Qed.

(** The unit tests of display.rs on the model: [test_format_duration],
    [test_format_context_bar] (colours off) and [test_sanitized_output]. *)
Example display_tests :
  format_duration 45 = "45s" /\ format_duration 90 = "1m" /\ format_duration 3665 = "1h1m" /\
  format_context_bar no_color default_display (Fin 10) false Normal None None = "10% [=>--------]" /\
  format_context_bar no_color default_display (Fin 95) true Normal None None = "95% [==========] ⚠" /\
  sanitize_str ("claude-" +:+ String (ascii_of_N 0) ("-opus" +:+ String (ascii_of_N 7) ""))%string
    = "claude--opus" /\
  sanitize_str (shorten_path None ("/home/user/" +:+ String (ascii_of_N 27)
                                    ("[31mdanger" +:+ String (ascii_of_N 27) "[0m/project"))%string)
    = "/home/user/danger/project".
Proof. repeat split; vm_compute; reflexivity. Qed.

End Statusline.
