(* ===== verification/TranscriptJson.v ===== *)
(** * TranscriptJson: decoding a transcript line (utils.rs, serde_json::from_str::<TranscriptEntry>)

    Both readers of the transcript, [get_token_breakdown_from_transcript]
    and [parse_duration], decode each line with
    [serde_json::from_str::<TranscriptEntry>] and skip the lines that do
    not decode.  The token extractor and the duration take that decoder
    as the parameter [parse_entry]; this file gives it.

    The JSON reader is written from the JSON grammar (RFC 8259; serde_json
    is a dependency, not code of the repository): whitespace, the
    literals, numbers (a leading zero only alone, an optional fraction
    and exponent), strings with their escapes (a [\u] escape of a
    surrogate pair is one character, a lone surrogate is an error, a raw
    control character is an error), arrays and objects; nothing may
    follow the value but whitespace.  A number with a fraction or an
    exponent is kept as the marker [JFloat]: no field of an entry
    accepts one.  The nesting is bounded by fuel, [2 * length + 2]: a
    value needs one unit for itself and one per element ([json_size]),
    at most twice the length of its text ([json_size_print]).

    The decoder follows [#[derive(Deserialize)]] on the records of
    models.rs as the specification describes them (models.rs is not
    among the sources): [timestamp], [message] and its [role] are
    required, [usage] and each of its four counts may be absent or
    [null], a count must be an integer in the range of u32, unknown keys
    are ignored and a repeated known key is an error.

    The printer is serde_json's [to_string] on the derived [Serialize]
    of the same records (fields in declaration order, [None] as [null],
    the short escapes and [\u00XX] for the other control characters).

    Lemmas: the escapes read back ([parse_chars_print]), integers read
    back ([parse_number_print], through [dec_digits_spec]), every printed
    value reads back followed by its end, a comma or a closing bracket
    ([parse_value_print], by nested induction [json_ind']), and the
    decoder accepts a printed entry exactly when its counts fit a u32
    ([decode_entry_json]).  Theorem: decoding the printed line of
    an entry gives the entry back when its counts fit a u32 and rejects
    it otherwise.  Examples run the decoder on transcript lines (unknown
    keys, [null], counts out of range, floats, leading zeros, repeated
    keys, trailing text) and the token extractor on a two-line
    transcript. *)

From S2P Require Import Prelude DateKeys TokenExtractor Statusline.
From Stdlib Require Import Ascii Strings.Byte.
Close Scope Q_scope.

Module TranscriptJson.
Import DateKeys Transcript Statusline.

(** ** JSON values *)

Inductive json :=
  | JNull
  | JBool (b : bool)
  | JInt (z : Z)
  | JFloat
  | JStr (s : string)
  | JArr (items : list json)
  | JObj (members : list (string * json)).

(** The quote (34) and the backslash (92), bit by bit from the lowest. *)
Definition dquote : ascii := Ascii false true false false false true false false.
Definition backslash : ascii := Ascii false false true true true false true false.

Definition is_ws (c : ascii) : bool :=
  (c =? " ")%char || (c =? "009")%char || (c =? "010")%char || (c =? "013")%char.

Fixpoint skip_ws (l : list ascii) : list ascii :=
  match l with
  | c :: r => if is_ws c then skip_ws r else l
  | [] => []
  end.

(** The rest of [l] after the character [c], if [l] starts with it. *)
Definition expect (c : ascii) (l : list ascii) : option (list ascii) :=
  match l with
  | x :: r => if (x =? c)%char then Some r else None
  | [] => None
  end.

(** The rest of [l] after the word [w]. *)
Fixpoint expect_word (w l : list ascii) : option (list ascii) :=
  match w with
  | [] => Some l
  | c :: w' => expect c l ≫= expect_word w'
  end.

(** ** Strings *)

Definition hex_val (c : ascii) : option N :=
  let n := N_of_ascii c in
  if (48 <=? n)%N && (n <=? 57)%N then Some (n - 48)%N
  else if (97 <=? n)%N && (n <=? 102)%N then Some (n - 87)%N
  else if (65 <=? n)%N && (n <=? 70)%N then Some (n - 55)%N
  else None.

Definition hex4 (a b c d : ascii) : option N :=
  x1 ← hex_val a; x2 ← hex_val b; x3 ← hex_val c; x4 ← hex_val d;
  Some (x1 * 4096 + x2 * 256 + x3 * 16 + x4)%N.

(** The UTF-8 bytes of a code point, as characters. *)
Definition cp_chars (cp : N) : list ascii := map ascii_of_N (utf8_bytes cp).

Definition simple_escape (e : ascii) : option ascii :=
  if (e =? dquote)%char then Some dquote
  else if (e =? backslash)%char then Some backslash
  else if (e =? "/")%char then Some "/"%char
  else if (e =? "b")%char then Some "008"%char
  else if (e =? "f")%char then Some "012"%char
  else if (e =? "n")%char then Some "010"%char
  else if (e =? "r")%char then Some "013"%char
  else if (e =? "t")%char then Some "009"%char
  else None.

(** The characters of a string up to its closing quote, and the rest. *)
Fixpoint parse_chars (l : list ascii) : option (list ascii * list ascii) :=
  match l with
  | [] => None
  | c :: r =>
      if (c =? dquote)%char then Some ([], r)
      else if (c =? backslash)%char then
        match r with
        | e :: r2 =>
            if (e =? "u")%char then
              match r2 with
              | h1 :: h2 :: h3 :: h4 :: r6 =>
                  code ← hex4 h1 h2 h3 h4;
                  if (55296 <=? code)%N && (code <? 56320)%N then
                    match r6 with
                    | b :: u :: k1 :: k2 :: k3 :: k4 :: r12 =>
                        if (b =? backslash)%char && (u =? "u")%char then
                          low ← hex4 k1 k2 k3 k4;
                          if (56320 <=? low)%N && (low <? 57344)%N then
                            '(s, rest) ← parse_chars r12;
                            Some (cp_chars (65536 + (code - 55296) * 1024 + (low - 56320))%N ++ s, rest)
                          else None
                        else None
                    | _ => None
                    end
                  else if (56320 <=? code)%N && (code <? 57344)%N then None
                  else '(s, rest) ← parse_chars r6; Some (cp_chars code ++ s, rest)
              | _ => None
              end
            else ch ← simple_escape e; '(s, rest) ← parse_chars r2; Some (ch :: s, rest)
        | [] => None
        end
      else if (N_of_ascii c <? 32)%N then None
      else '(s, rest) ← parse_chars r; Some (c :: s, rest)
  end.

(** ** Numbers *)

Definition is_digit (c : ascii) : bool := (48 <=? N_of_ascii c)%N && (N_of_ascii c <=? 57)%N.

(** The longest run of digits at the start of [l], and the rest. *)
Fixpoint read_digits (l : list ascii) : list N * list ascii :=
  match l with
  | c :: r => if is_digit c then let '(ds, rest) := read_digits r in ((N_of_ascii c - 48)%N :: ds, rest) else ([], l)
  | [] => ([], [])
  end.

Definition digits_value (ds : list N) : N := fold_left (fun a d => a * 10 + d)%N ds 0%N.

Definition read_exponent (l : list ascii) : option (list ascii) :=
  match l with
  | c :: r =>
      if (c =? "e")%char || (c =? "E")%char then
        let r' := match r with
                  | s :: r2 => if (s =? "+")%char || (s =? "-")%char then r2 else r
                  | [] => r
                  end in
        match read_digits r' with ([], _) => None | (_, rest) => Some rest end
      else Some l
  | [] => Some l
  end.

Definition parse_number (l : list ascii) : option (json * list ascii) :=
  let '(neg, l1) := match expect "-" l with Some r => (true, r) | None => (false, l) end in
  match read_digits l1 with
  | ([], _) => None
  | (d0 :: more, r1) =>
      if (d0 =? 0)%N && negb (bool_decide (more = [])) then None
      else
        let n := Z.of_N (digits_value (d0 :: more)) in
        match expect "." r1 with
        | Some r2 =>
            match read_digits r2 with
            | ([], _) => None
            | (_, r3) => rest ← read_exponent r3; Some (JFloat, rest)
            end
        | None =>
            rest ← read_exponent r1;
            if bool_decide (rest = r1) then Some (JInt (if neg then - n else n)%Z, r1) else Some (JFloat, rest)
        end
  end.

(** ** Values *)

Fixpoint parse_value (fuel : nat) (l : list ascii) {struct fuel} : option (json * list ascii) :=
  match fuel with
  | O => None
  | S f =>
      match skip_ws l with
      | [] => None
      | c :: r =>
          if (c =? "{")%char then
            match expect "}" (skip_ws r) with
            | Some r' => Some (JObj [], r')
            | None => '(ms, r') ← parse_members f r; Some (JObj ms, r')
            end
          else if (c =? "[")%char then
            match expect "]" (skip_ws r) with
            | Some r' => Some (JArr [], r')
            | None => '(vs, r') ← parse_items f r; Some (JArr vs, r')
            end
          else if (c =? dquote)%char then
            '(s, r') ← parse_chars r; Some (JStr (String.string_of_list_ascii s), r')
          else match expect_word (String.list_ascii_of_string "null") (c :: r) with
               | Some r' => Some (JNull, r')
               | None =>
                   match expect_word (String.list_ascii_of_string "true") (c :: r) with
                   | Some r' => Some (JBool true, r')
                   | None =>
                       match expect_word (String.list_ascii_of_string "false") (c :: r) with
                       | Some r' => Some (JBool false, r')
                       | None => parse_number (c :: r)
                       end
                   end
               end
      end
  end
with parse_items (fuel : nat) (l : list ascii) {struct fuel} : option (list json * list ascii) :=
  match fuel with
  | O => None
  | S f =>
      '(v, r) ← parse_value f l;
      match expect "," (skip_ws r) with
      | Some r' => '(vs, r'') ← parse_items f r'; Some (v :: vs, r'')
      | None => r' ← expect "]" (skip_ws r); Some ([v], r')
      end
  end
with parse_members (fuel : nat) (l : list ascii) {struct fuel} : option (list (string * json) * list ascii) :=
  match fuel with
  | O => None
  | S f =>
      r0 ← expect dquote (skip_ws l);
      '(k, r1) ← parse_chars r0;
      r2 ← expect ":" (skip_ws r1);
      '(v, r3) ← parse_value f r2;
      match expect "," (skip_ws r3) with
      | Some r4 => '(ms, r5) ← parse_members f r4; Some ((String.string_of_list_ascii k, v) :: ms, r5)
      | None => r4 ← expect "}" (skip_ws r3); Some ([(String.string_of_list_ascii k, v)], r4)
      end
  end.

(** [serde_json::from_str]: one value and nothing after it but whitespace. *)
Definition parse_json (l : list ascii) : option json :=
  '(v, rest) ← parse_value (2 * length l + 2) l;
  match skip_ws rest with [] => Some v | _ => None end.

(** ** Decoding an entry ([#[derive(Deserialize)]]) *)

(** A known key: absent, present once, or (an error) repeated. *)
Definition find_field (ms : list (string * json)) (k : string) : option (option json) :=
  match List.filter (fun kv => String.eqb kv.1 k) ms with
  | [] => Some None
  | [(_, v)] => Some (Some v)
  | _ => None
  end.

(** [Option<u32>]: absent or [null] is [None]; an integer in range. *)
Definition decode_u32_opt (v : option json) : option (option N) :=
  match v with
  | None | Some JNull => Some None
  | Some (JInt z) => if (0 <=? z)%Z && (z <? 2 ^ 32)%Z then Some (Some (Z.to_N z)) else None
  | Some _ => None
  end.

Definition decode_usage (j : json) : option Usage :=
  match j with
  | JObj ms =>
      i ← find_field ms "input_tokens" ≫= decode_u32_opt;
      o ← find_field ms "output_tokens" ≫= decode_u32_opt;
      cc ← find_field ms "cache_creation_input_tokens" ≫= decode_u32_opt;
      cr ← find_field ms "cache_read_input_tokens" ≫= decode_u32_opt;
      Some {| input_tokens := i; output_tokens := o; cache_creation_input_tokens := cc;
              cache_read_input_tokens := cr |}
  | _ => None
  end.

Definition decode_opt_usage (v : option json) : option (option Usage) :=
  match v with
  | None | Some JNull => Some None
  | Some j => Some <$> decode_usage j
  end.

Definition decode_message (j : json) : option Message :=
  match j with
  | JObj ms =>
      r ← find_field ms "role";
      match r with
      | Some (JStr role_name) =>
          u ← find_field ms "usage" ≫= decode_opt_usage;
          Some {| role := role_name; usage := u |}
      | _ => None
      end
  | _ => None
  end.

Definition decode_entry (j : json) : option TranscriptEntry :=
  match j with
  | JObj ms =>
      m ← find_field ms "message";
      t ← find_field ms "timestamp";
      match m, t with
      | Some mj, Some (JStr ts) => msg ← decode_message mj; Some {| message := msg; timestamp := ts |}
      | _, _ => None
      end
  | _ => None
  end.

(** [serde_json::from_str::<TranscriptEntry>(&line).ok()]. *)
Definition entry_from_str (line : list byte) : option TranscriptEntry :=
  parse_json (map ascii_of_byte line) ≫= decode_entry.

(** ** Printing ([serde_json::to_string]) *)

Definition hex_char (d : N) : ascii := if (d <? 10)%N then ascii_of_N (48 + d) else ascii_of_N (87 + d).

(** serde_json's escapes: the quote, the backslash, the five short
    control escapes and [\u00XX] for the other control characters. *)
Definition escape_char (c : ascii) : list ascii :=
  let n := N_of_ascii c in
  if (c =? dquote)%char then [backslash; dquote]
  else if (c =? backslash)%char then [backslash; backslash]
  else if (n =? 8)%N then [backslash; "b"%char]
  else if (n =? 12)%N then [backslash; "f"%char]
  else if (n =? 10)%N then [backslash; "n"%char]
  else if (n =? 13)%N then [backslash; "r"%char]
  else if (n =? 9)%N then [backslash; "t"%char]
  else if (n <? 32)%N then [backslash; "u"%char; "0"%char; "0"%char; hex_char (n / 16); hex_char (n mod 16)]
  else [c].

Definition print_str (s : string) : list ascii :=
  dquote :: flat_map escape_char (String.list_ascii_of_string s) ++ [dquote].

(** Decimal digits, least significant first. *)
Fixpoint dec_digits (fuel : nat) (n : N) : list N :=
  match fuel with
  | O => []
  | S f => (n mod 10)%N :: (if (n <? 10)%N then [] else dec_digits f (n / 10))
  end.

Definition print_N (n : N) : list ascii := map digit_char (rev (dec_digits (S (N.to_nat (N.size n))) n)).

Fixpoint intersperse_comma (parts : list (list ascii)) : list ascii :=
  match parts with
  | [] => []
  | [p] => p
  | p :: rest => p ++ ","%char :: intersperse_comma rest
  end.

Fixpoint print_json (j : json) : list ascii :=
  match j with
  | JNull => String.list_ascii_of_string "null"
  | JBool true => String.list_ascii_of_string "true"
  | JBool false => String.list_ascii_of_string "false"
  | JInt z => (if (z <? 0)%Z then ["-"%char] else []) ++ print_N (Z.abs_N z)
  | JFloat => String.list_ascii_of_string "0.0"
  | JStr s => print_str s
  | JArr items => "["%char :: intersperse_comma (map print_json items) ++ ["]"%char]
  | JObj ms => "{"%char :: intersperse_comma (map (fun kv => print_str kv.1 ++ ":"%char :: print_json kv.2) ms)
                 ++ ["}"%char]
  end.

Definition json_of_u32_opt (v : option N) : json := match v with Some n => JInt (Z.of_N n) | None => JNull end.

(** An entry as serde_json serialises the derived records. *)
Definition json_of_entry (e : TranscriptEntry) : json :=
  JObj [("message", JObj [("role", JStr (role (message e)));
                          ("usage", match usage (message e) with
                                    | Some u => JObj [("input_tokens", json_of_u32_opt (input_tokens u));
                                                      ("output_tokens", json_of_u32_opt (output_tokens u));
                                                      ("cache_creation_input_tokens",
                                                         json_of_u32_opt (cache_creation_input_tokens u));
                                                      ("cache_read_input_tokens",
                                                         json_of_u32_opt (cache_read_input_tokens u))]
                                    | None => JNull
                                    end)]);
        ("timestamp", JStr (timestamp e))].

Definition print_entry (e : TranscriptEntry) : list byte := map byte_of_ascii (print_json (json_of_entry e)).

(** The counts an entry can hold after decoding: [u32] values. *)
Definition u32_fits (v : option N) : bool := match v with Some n => (n <? 2 ^ 32)%N | None => true end.

Definition entry_fits (e : TranscriptEntry) : bool :=
  match usage (message e) with
  | Some u => u32_fits (input_tokens u) && u32_fits (output_tokens u) &&
              u32_fits (cache_creation_input_tokens u) && u32_fits (cache_read_input_tokens u)
  | None => true
  end.

(** ** Lemmas *)

(** Induction on JSON values, with the hypothesis on every child of an
    array or an object. *)
Fixpoint json_ind' (P : json -> Prop)
    (fnull : P JNull) (fbool : forall b, P (JBool b)) (fint : forall z, P (JInt z)) (ffloat : P JFloat)
    (fstr : forall s, P (JStr s))
    (farr : forall items, Forall P items -> P (JArr items))
    (fobj : forall ms, Forall (fun kv => P kv.2) ms -> P (JObj ms)) (j : json) {struct j} : P j :=
  match j with
  | JNull => fnull
  | JBool b => fbool b
  | JInt z => fint z
  | JFloat => ffloat
  | JStr s => fstr s
  | JArr items =>
      farr items ((fix F (l : list json) : Forall P l :=
                     match l with
                     | [] => @List.Forall_nil _ P
                     | x :: rest => @List.Forall_cons _ P x rest (json_ind' P fnull fbool fint ffloat fstr farr fobj x) (F rest)
                     end) items)
  | JObj ms =>
      fobj ms ((fix F (l : list (string * json)) : Forall (fun kv => P kv.2) l :=
                  match l with
                  | [] => @List.Forall_nil _ (fun kv => P kv.2)
                  | kv :: rest => @List.Forall_cons _ (fun kv => P kv.2) kv rest
                                    (json_ind' P fnull fbool fint ffloat fstr farr fobj kv.2) (F rest)
                  end) ms)
  end.

Lemma hex_val_hex_char d : (d < 16)%N -> hex_val (hex_char d) = Some d.
Proof.
  intros Hd. unfold hex_char, hex_val.
  destruct (N.ltb_spec d 10); rewrite N_ascii_embedding by lia;
    repeat (match goal with |- context [(?a <=? ?b)%N] => destruct (N.leb_spec a b) end; simpl);
    try lia; f_equal; lia.
Qed.

(** The closed tests of [parse_chars] on a backslash escape. *)
Lemma parse_chars_simple_escape e ch l :
  (e =? "u")%char = false -> simple_escape e = Some ch ->
  parse_chars (backslash :: e :: l) = match parse_chars l with Some (s, r) => Some (ch :: s, r) | None => None end.
Proof.
  intros Hu Hs. cbn [parse_chars]. replace (backslash =? dquote)%char with false by reflexivity.
  replace (backslash =? backslash)%char with true by reflexivity. rewrite Hu, Hs. cbn.
  destruct (parse_chars l) as [[]|]; reflexivity.
Qed.

(** Decoding the escape of a character gives the character. *)
Lemma parse_chars_escape c l :
  parse_chars (escape_char c ++ l) = match parse_chars l with Some (s, r) => Some (c :: s, r) | None => None end.
Proof.
  pose proof (ascii_N_embedding c) as Ec. unfold escape_char; cbv zeta.
  destruct (Ascii.eqb_spec c dquote) as [->|Hq]; [apply parse_chars_simple_escape; reflexivity|].
  destruct (Ascii.eqb_spec c backslash) as [->|Hb]; [apply parse_chars_simple_escape; reflexivity|].
  destruct (N.eqb_spec (N_of_ascii c) 8) as [E|];
    [rewrite <- Ec, E; apply parse_chars_simple_escape; reflexivity|].
  destruct (N.eqb_spec (N_of_ascii c) 12) as [E|];
    [rewrite <- Ec, E; apply parse_chars_simple_escape; reflexivity|].
  destruct (N.eqb_spec (N_of_ascii c) 10) as [E|];
    [rewrite <- Ec, E; apply parse_chars_simple_escape; reflexivity|].
  destruct (N.eqb_spec (N_of_ascii c) 13) as [E|];
    [rewrite <- Ec, E; apply parse_chars_simple_escape; reflexivity|].
  destruct (N.eqb_spec (N_of_ascii c) 9) as [E|];
    [rewrite <- Ec, E; apply parse_chars_simple_escape; reflexivity|].
  destruct (N.ltb_spec (N_of_ascii c) 32) as [Hlt|Hge].
  - set (m := N_of_ascii c) in *. cbn [app parse_chars].
    replace (backslash =? dquote)%char with false by reflexivity.
    replace (backslash =? backslash)%char with true by reflexivity.
    replace ("u" =? "u")%char with true by reflexivity.
    unfold hex4. rewrite !hex_val_hex_char by (apply N.mod_lt || apply N.Div0.div_lt_upper_bound; lia).
    replace (hex_val "0") with (Some 0%N) by reflexivity. cbn [mbind option_bind].
    replace (0 * 4096 + 0 * 256 + m / 16 * 16 + m mod 16)%N with m
      by (pose proof (N.div_mod m 16 ltac:(discriminate)); lia).
    replace ((55296 <=? m)%N && (m <? 56320)%N) with false by (symmetry; apply andb_false_intro1, N.leb_gt; lia).
    replace ((56320 <=? m)%N && (m <? 57344)%N) with false by (symmetry; apply andb_false_intro1, N.leb_gt; lia).
    unfold cp_chars, utf8_bytes. replace (m <? 128)%N with true by (symmetry; apply N.ltb_lt; lia).
    cbn. subst m. rewrite Ec. destruct (parse_chars l) as [[]|]; reflexivity.
  - cbn [app parse_chars]. rewrite (proj2 (Ascii.eqb_neq _ _) Hq), (proj2 (Ascii.eqb_neq _ _) Hb).
    replace (N_of_ascii c <? 32)%N with false by (symmetry; apply N.ltb_ge; lia).
    cbn. destruct (parse_chars l) as [[]|]; reflexivity.
Qed.

Lemma parse_chars_print l r : parse_chars (flat_map escape_char l ++ dquote :: r) = Some (l, r).
Proof.
  induction l as [|c l IH]; [reflexivity|].
  cbn [flat_map]. rewrite <- app_assoc, parse_chars_escape, IH. reflexivity.
Qed.

(** *** Numbers *)

(** What may follow a value inside a line: its end, a comma or a
    closing bracket. *)
Definition stop (r : list ascii) : bool :=
  match r with
  | [] => true
  | c :: _ => (c =? ",")%char || (c =? "]")%char || (c =? "}")%char
  end.

Lemma stop_cases r :
  stop r = true -> r = [] \/ exists c r', r = c :: r' /\ (c = ","%char \/ c = "]"%char \/ c = "}"%char).
Proof.
  destruct r as [|c r]; [auto|]. cbn. intros H. right. exists c, r. split; [done|].
  rewrite !orb_true_iff, !Ascii.eqb_eq in H. tauto.
Qed.

Ltac stop_cases H := destruct (stop_cases _ H) as [->|(? & ? & -> & [->|[->| ->]])].

Ltac digit_cases d :=
  let H := fresh in
  assert (H : (d = 0 \/ d = 1 \/ d = 2 \/ d = 3 \/ d = 4 \/ d = 5 \/ d = 6 \/ d = 7 \/ d = 8 \/ d = 9)%N) by lia;
  destruct_or! H; subst d.

Lemma N_of_digit_char d : (d < 10)%N -> N_of_ascii (digit_char d) = (48 + d)%N.
Proof. intros. apply N_ascii_embedding. lia. Qed.

Lemma is_digit_digit_char d : (d < 10)%N -> is_digit (digit_char d) = true.
Proof. intros. unfold is_digit. rewrite N_of_digit_char by done. apply andb_true_intro; split; apply N.leb_le; lia. Qed.

Lemma is_digit_inv c : is_digit c = true -> exists d, (d < 10)%N /\ c = digit_char d.
Proof.
  unfold is_digit, digit_char. rewrite andb_true_iff, !N.leb_le. intros [H1 H2].
  exists (N_of_ascii c - 48)%N. split; [lia|]. replace (48 + _)%N with (N_of_ascii c) by lia.
  symmetry. apply ascii_N_embedding.
Qed.

(** A number starts with '-' or a digit and goes to [parse_number]. *)
Lemma parse_value_number f c t :
  c = "-"%char \/ is_digit c = true -> parse_value (S f) (c :: t) = parse_number (c :: t).
Proof.
  intros [->|(d & Hd & ->)%is_digit_inv]; [reflexivity|]. digit_cases d; reflexivity.
Qed.

Lemma read_digits_print ds r :
  Forall (fun d => d < 10)%N ds -> stop r = true -> read_digits (map digit_char ds ++ r) = (ds, r).
Proof.
  intros Hds Hr. induction Hds as [|d ds Hd _ IH]; cbn [map app read_digits].
  - stop_cases Hr; reflexivity.
  - rewrite is_digit_digit_char, IH by done. rewrite N_of_digit_char by done. do 2 f_equal. lia.
Qed.

Lemma digits_value_snoc ds d : digits_value (ds ++ [d]) = (digits_value ds * 10 + d)%N.
Proof. unfold digits_value. rewrite fold_left_app. reflexivity. Qed.

Lemma dec_digits_S fuel n :
  dec_digits (S fuel) n = (n mod 10)%N :: (if (n <? 10)%N then [] else dec_digits fuel (n / 10)).
Proof. reflexivity. Qed.

(** With enough fuel, [dec_digits] gives the digits of [n], most
    significant first once reversed, without a leading zero. *)
Lemma dec_digits_spec fuel n : (n < 10 ^ N.of_nat (S fuel))%N ->
  Forall (fun d => d < 10)%N (dec_digits (S fuel) n) /\ digits_value (rev (dec_digits (S fuel) n)) = n /\
  exists d0 more, rev (dec_digits (S fuel) n) = d0 :: more /\ (d0 = 0 -> more = [])%N.
Proof.
  revert n. induction fuel as [|f IH]; intros n Hn; rewrite dec_digits_S;
    destruct (N.ltb_spec n 10) as [Hs|Hs]; rewrite ?N.mod_small by done.
  - repeat split; eauto; repeat constructor; lia.
  - cbn in Hn. lia.
  - repeat split; eauto; repeat constructor; lia.
  - destruct (IH (n / 10)%N) as (Hf & Hv & d0 & more & Hr & H0).
    { apply N.Div0.div_lt_upper_bound. rewrite Nat2N.inj_succ, N.pow_succ_r' in Hn. lia. }
    cbn [rev]. rewrite Hr. split; [constructor; [apply N.mod_lt|]; done|]. split.
    + rewrite <- Hr, digits_value_snoc, Hv. pose proof (N.div_mod n 10). lia.
    + exists d0, (more ++ [n mod 10])%N. split; [done|]. intros ->. rewrite H0 in Hr by done.
      rewrite Hr in Hv. assert (1 <= n / 10)%N by (apply N.div_le_lower_bound; lia). cbn in Hv. lia.
Qed.

Lemma print_N_digits n : exists d0 more,
  print_N n = map digit_char (d0 :: more) /\ Forall (fun d => d < 10)%N (d0 :: more) /\
  digits_value (d0 :: more) = n /\ (d0 = 0 -> more = [])%N.
Proof.
  destruct (dec_digits_spec (N.to_nat (N.size n)) n) as (Hf & Hv & d0 & more & Hr & H0).
  { rewrite Nat2N.inj_succ, N2Nat.id. pose proof (N.size_gt n).
    pose proof (N.pow_le_mono_l 2 10 (N.size n) ltac:(lia)). rewrite N.pow_succ_r'. lia. }
  apply List.Forall_rev in Hf. rewrite Hr in Hf, Hv. exists d0, more. unfold print_N. rewrite Hr. auto.
Qed.

(** A printed integer reads back. *)
Lemma parse_number_print z r : stop r = true -> parse_number (print_json (JInt z) ++ r) = Some (JInt z, r).
Proof.
  intros Hr. destruct (print_N_digits (Z.abs_N z)) as (d0 & more & Hp & Hf & Hv & H0).
  cbn [print_json]. rewrite Hp.
  assert (Hm : expect "-" (map digit_char (d0 :: more) ++ r) = None).
  { pose proof (List.Forall_inv Hf) as Hd. cbn in Hd. clear -Hd. digit_cases d0; reflexivity. }
  assert (Hrest : expect "." r = None /\ read_exponent r = Some r) by (stop_cases Hr; split; reflexivity).
  destruct Hrest as [Hdot Hexp].
  unfold parse_number. destruct (Z.ltb_spec z 0); cbn [app].
  all: try rewrite Hm; cbn [expect]; try (replace ("-" =? "-")%char with true by reflexivity);
    rewrite read_digits_print, Hdot, Hexp by done; cbn [mbind option_bind];
    rewrite (bool_decide_true (r = r)) by done;
    destruct ((d0 =? 0)%N && negb (bool_decide (more = []))) eqn:E;
    try (apply andb_true_iff in E as [E1 E2]; apply N.eqb_eq in E1; rewrite H0 in E2 by done; discriminate);
    rewrite Hv; do 3 f_equal; lia.
Qed.

(** *** Values *)

(** The fuel a value needs: one per value, array and object, and one
    per element. *)
Fixpoint json_size (j : json) : nat :=
  match j with
  | JArr items => 1 + list_sum (map (fun x => S (json_size x)) items)
  | JObj ms => 1 + list_sum (map (fun kv => S (json_size kv.2)) ms)
  | _ => 1
  end.

Lemma list_sum_cons n l : list_sum (n :: l) = n + list_sum l.
Proof. reflexivity. Qed.

Lemma expect_skip_ws c t : is_ws c = false -> expect c (skip_ws (c :: t)) = Some t.
Proof. intros Hc. cbn [skip_ws]. rewrite Hc. cbn [expect]. rewrite Ascii.eqb_refl. reflexivity. Qed.

Lemma intersperse_comma_cons p ps :
  intersperse_comma (p :: ps) = p ++ match ps with [] => [] | _ => ","%char :: intersperse_comma ps end.
Proof. destruct ps; cbn; [rewrite app_nil_r|]; reflexivity. Qed.

Lemma print_str_app s t :
  print_str s ++ t = dquote :: flat_map escape_char (String.list_ascii_of_string s) ++ dquote :: t.
Proof. unfold print_str. rewrite <- app_comm_cons, <- app_assoc. reflexivity. Qed.

Lemma print_int_head z : exists c t, print_json (JInt z) = c :: t /\ (c = "-"%char \/ is_digit c = true).
Proof.
  destruct (print_N_digits (Z.abs_N z)) as (d0 & more & Hp & Hf & _). cbn [print_json]. rewrite Hp.
  destruct (z <? 0)%Z; cbn; eauto.
  do 2 eexists. split; [reflexivity|]. right. apply is_digit_digit_char, (List.Forall_inv Hf).
Qed.

(** A printed value starts with neither whitespace nor a closing bracket. *)
Lemma print_json_head j r :
  skip_ws (print_json j ++ r) = print_json j ++ r /\
  expect "]" (print_json j ++ r) = None /\ expect "}" (print_json j ++ r) = None.
Proof.
  destruct j as [| [] | z | | s | items | ms]; try (repeat split; reflexivity).
  - destruct (print_int_head z) as (c & t & -> & [->|(d & Hd & ->)%is_digit_inv]); [repeat split; reflexivity|].
    cbn [app]. digit_cases d; repeat split; reflexivity.
Qed.

Lemma parse_value_str f t :
  parse_value (S f) (dquote :: t) = '(s, r') ← parse_chars t; Some (JStr (String.string_of_list_ascii s), r').
Proof. reflexivity. Qed.

Lemma parse_value_arr f t :
  parse_value (S f) ("["%char :: t) =
    match expect "]" (skip_ws t) with
    | Some r' => Some (JArr [], r')
    | None => '(vs, r') ← parse_items f t; Some (JArr vs, r')
    end.
Proof. reflexivity. Qed.

Lemma parse_value_obj f t :
  parse_value (S f) ("{"%char :: t) =
    match expect "}" (skip_ws t) with
    | Some r' => Some (JObj [], r')
    | None => '(ms, r') ← parse_members f t; Some (JObj ms, r')
    end.
Proof. reflexivity. Qed.

Section Elements.
(** What the induction gives for each element of an array or object. *)
Definition reads_back (j : json) : Prop :=
  forall f r, json_size j <= f -> stop r = true -> parse_value f (print_json j ++ r) = Some (j, r).

Lemma parse_items_print xs : forall f r,
  Forall reads_back xs -> xs <> [] -> list_sum (map (fun x => S (json_size x)) xs) <= f ->
  parse_items f (intersperse_comma (map print_json xs) ++ "]"%char :: r) = Some (xs, r).
Proof.
  induction xs as [|x xs IH]; intros f r Hxs Hne Hf; [done|]. apply Forall_cons in Hxs as [Hx Hxs].
  destruct f as [|f]; rewrite map_cons, list_sum_cons in Hf; [lia|].
  rewrite (map_cons print_json), intersperse_comma_cons, <- app_assoc. cbn [parse_items].
  destruct xs as [|y ys]; cbn [app map].
  - rewrite Hx by (lia || reflexivity). cbn [mbind option_bind]. reflexivity.
  - rewrite Hx by (lia || reflexivity). cbn [mbind option_bind]. rewrite expect_skip_ws by reflexivity.
    rewrite <- (map_cons print_json y ys), IH by (done || lia). reflexivity.
Qed.

Lemma parse_members_print ms : forall f r,
  Forall (fun kv => reads_back kv.2) ms -> ms <> [] -> list_sum (map (fun kv => S (json_size kv.2)) ms) <= f ->
  parse_members f (intersperse_comma (map (fun kv => print_str kv.1 ++ ":"%char :: print_json kv.2) ms)
                   ++ "}"%char :: r) = Some (ms, r).
Proof.
  induction ms as [|[k v] ms IH]; intros f r Hms Hne Hf; [done|]. apply Forall_cons in Hms as [Hv Hms].
  destruct f as [|f]; rewrite map_cons, list_sum_cons in Hf; cbn [fst snd] in Hf, Hv |- *; [lia|].
  rewrite map_cons, intersperse_comma_cons, <- !app_assoc. cbn [fst snd app]. rewrite print_str_app.
  cbn [parse_members].
  rewrite expect_skip_ws by reflexivity. cbn [mbind option_bind].
  rewrite parse_chars_print. cbn [mbind option_bind].
  rewrite expect_skip_ws by reflexivity. cbn [mbind option_bind].
  rewrite String.string_of_list_ascii_of_string.
  destruct ms as [|m ms]; cbn [app map].
  - rewrite Hv by (lia || reflexivity). cbn [mbind option_bind]. reflexivity.
  - rewrite Hv by (lia || reflexivity). cbn [mbind option_bind]. rewrite expect_skip_ws by reflexivity.
    rewrite <- (map_cons (fun kv => print_str kv.1 ++ ":"%char :: print_json kv.2) m ms), IH by (done || lia).
    reflexivity.
Qed.

End Elements.

(** Every printed value reads back, followed by its end, a comma or a
    closing bracket, given fuel for its size. *)
Lemma parse_value_print j : reads_back j.
Proof.
  induction j as [| b | z | | s | items IH | ms IH] using json_ind'; intros [|f] r Hf Hr;
    cbn [json_size] in Hf; try lia.
  - stop_cases Hr; reflexivity.
  - destruct b; stop_cases Hr; reflexivity.
  - destruct (print_int_head z) as (c & t & Ht & Hc). rewrite Ht. cbn [app].
    rewrite parse_value_number by done. change (c :: t ++ r) with ((c :: t) ++ r). rewrite <- Ht.
    apply parse_number_print, Hr.
  - stop_cases Hr; reflexivity.
  - cbn [print_json]. rewrite print_str_app, parse_value_str, parse_chars_print. cbn [mbind option_bind].
    rewrite String.string_of_list_ascii_of_string. reflexivity.
  - cbn [print_json app]. rewrite <- app_assoc. cbn [app]. rewrite parse_value_arr.
    destruct items as [|x xs]; [reflexivity|].
    assert (Hh : expect "]" (skip_ws (intersperse_comma (map print_json (x :: xs)) ++ "]"%char :: r)) = None).
    { rewrite map_cons, intersperse_comma_cons, <- app_assoc.
      rewrite (proj1 (print_json_head x _)). apply (print_json_head x _). }
    rewrite Hh, parse_items_print by (done || lia). reflexivity.
  - cbn [print_json app]. rewrite <- app_assoc. cbn [app]. rewrite parse_value_obj.
    destruct ms as [|[k v] ms]; [reflexivity|].
    assert (Hh : expect "}" (skip_ws (intersperse_comma (map (fun kv => print_str kv.1 ++ ":"%char :: print_json kv.2)
                                          ((k, v) :: ms)) ++ "}"%char :: r)) = None).
    { rewrite map_cons, intersperse_comma_cons, <- !app_assoc. cbn [fst snd]. rewrite print_str_app. reflexivity. }
    rewrite Hh, parse_members_print by (done || lia). reflexivity.
Qed.

(** *** Fuel *)

Lemma sum_le_intersperse {A} (sz : A -> nat) (pr : A -> list ascii) l :
  Forall (fun x => sz x <= 2 * length (pr x)) l ->
  list_sum (map (fun x => S (sz x)) l) <= 2 * S (length (intersperse_comma (map pr l))).
Proof.
  induction 1 as [|x l Hx _ IH]; [cbn; lia|].
  rewrite !map_cons, list_sum_cons, intersperse_comma_cons, length_app.
  destruct l as [|y l]; cbn [map list_sum fold_right length] in *; lia.
Qed.

(** The fuel [parse_json] gives is enough for every printed value. *)
Lemma json_size_print j : json_size j <= 2 * length (print_json j).
Proof.
  induction j as [| b | z | | s | items IH | ms IH] using json_ind'; cbn [json_size].
  - cbn. lia.
  - destruct b; cbn; lia.
  - destruct (print_int_head z) as (c & t & -> & _). cbn. lia.
  - cbn. lia.
  - cbn [print_json print_str length]. lia.
  - pose proof (sum_le_intersperse json_size print_json items IH). cbn [print_json length].
    rewrite length_app. cbn [length]. lia.
  - assert (Hle : Forall (fun kv => json_size kv.2 <= 2 * length (print_str kv.1 ++ ":"%char :: print_json kv.2)) ms).
    { eapply Forall_impl; [exact IH|]. intros kv H. cbv beta in H. rewrite length_app. cbn [length]. lia. }
    pose proof (sum_le_intersperse _ _ ms Hle). cbn [print_json length]. rewrite length_app. cbn [length]. lia.
Qed.

(** [serde_json::from_str] reads back what [serde_json::to_string]
    writes. *)
Lemma parse_json_print j : parse_json (print_json j) = Some j.
Proof.
  unfold parse_json. pose proof (json_size_print j).
  pose proof (parse_value_print j (2 * length (print_json j) + 2) [] ltac:(lia) eq_refl) as Hp.
  rewrite app_nil_r in Hp. rewrite Hp. reflexivity.
Qed.

(** *** Decoding *)

Lemma decode_u32_opt_json v : u32_fits v = true -> decode_u32_opt (Some (json_of_u32_opt v)) = Some v.
Proof.
  destruct v as [n|]; cbn; [|done]. intros Hn%N.ltb_lt.
  replace ((0 <=? Z.of_N n)%Z && (Z.of_N n <? 2 ^ 32)%Z) with true by (symmetry; apply andb_true_intro; split;
    [apply Z.leb_le | apply Z.ltb_lt]; lia).
  rewrite N2Z.id. reflexivity.
Qed.

Lemma decode_u32_opt_json_large v : u32_fits v = false -> decode_u32_opt (Some (json_of_u32_opt v)) = None.
Proof.
  destruct v as [n|]; cbn; [|done]. intros Hn%N.ltb_ge.
  replace ((0 <=? Z.of_N n)%Z && (Z.of_N n <? 2 ^ 32)%Z) with false by (symmetry; apply andb_false_intro2,
    Z.ltb_ge; lia).
  reflexivity.
Qed.

(** The decoder accepts the printed entry exactly when its counts fit a
    u32. *)
Lemma decode_entry_json e : decode_entry (json_of_entry e) = if entry_fits e then Some e else None.
Proof.
  destruct e as [[r [[i o cc cr]|]] t]; unfold entry_fits; cbn [message usage]; [|reflexivity].
  cbn -[decode_u32_opt json_of_u32_opt u32_fits].
  repeat match goal with
    |- context [decode_u32_opt (Some (json_of_u32_opt ?v))] =>
      destruct (u32_fits v) eqn:?;
        [rewrite (decode_u32_opt_json v) by done | rewrite (decode_u32_opt_json_large v) by done]
  end; reflexivity.
Qed.


(** ** Theorems *)

(** A transcript line reads back.  Decoding, as the token extractor
    and the duration do ([serde_json::from_str::<TranscriptEntry>]), the
    line serde_json prints for an entry ([print_entry]) gives the entry
    back whatever its role and timestamp (quotes, backslashes and control
    characters are escaped and unescaped) when its four counts fit a u32,
    and rejects the line otherwise. *)
Theorem entry_from_str_print_entry e :
  entry_from_str (print_entry e) = if entry_fits e then Some e else None.
Proof.
  unfold entry_from_str, print_entry. rewrite map_map.
  rewrite (List.map_ext _ (fun x => x) ascii_of_byte_of_ascii), List.map_id, parse_json_print.
  apply decode_entry_json.
Qed.

(** ** Examples *)

Definition q : string := String dquote EmptyString.

Definition bytes_of (s : string) : list byte := map byte_of_ascii (String.list_ascii_of_string s).

Definition key (k : string) : string := q +:+ k +:+ q +:+ ":".

(** A line of a Claude transcript: an unknown key ([type]) is ignored and
    a [null] count is absent. *)
Definition assistant_line (input : string) : string :=
  "{" +:+ key "type" +:+ q +:+ "assistant" +:+ q +:+ ", " +:+ key "message" +:+ " {" +:+ key "role" +:+ q +:+
  "assistant" +:+ q +:+ "," +:+ key "usage" +:+ "{" +:+ key "input_tokens" +:+ input +:+ "," +:+
  key "output_tokens" +:+ "null}}," +:+ key "timestamp" +:+ q +:+ "2025-08-25T10:00:00.000Z" +:+ q +:+ "}".

Definition user_line : string :=
  "{" +:+ key "message" +:+ "{" +:+ key "role" +:+ q +:+ "user" +:+ q +:+ "}," +:+ key "timestamp" +:+ q +:+
  "2025-08-25T09:59:00Z" +:+ q +:+ "}".

Definition assistant_entry (n : N) : TranscriptEntry :=
  {| message := {| role := "assistant";
                   usage := Some {| input_tokens := Some n; output_tokens := None;
                                    cache_creation_input_tokens := None; cache_read_input_tokens := None |} |};
     timestamp := "2025-08-25T10:00:00.000Z" |}.

Example entry_from_str_examples :
  entry_from_str (bytes_of (assistant_line "12000")) = Some (assistant_entry 12000%N) /\
  entry_from_str (bytes_of (assistant_line "4294967295")) = Some (assistant_entry 4294967295%N) /\
  (** Out of the range of u32, a fraction, a leading zero, a negative count. *)
  entry_from_str (bytes_of (assistant_line "4294967296")) = None /\
  entry_from_str (bytes_of (assistant_line "12.0")) = None /\
  entry_from_str (bytes_of (assistant_line "012")) = None /\
  entry_from_str (bytes_of (assistant_line "-1")) = None /\
  (** Trailing text, a repeated key, a missing timestamp. *)
  entry_from_str (bytes_of (user_line +:+ "x")) = None /\
  entry_from_str (bytes_of (user_line +:+ " " +:+ String "010" "")) <> None /\
  entry_from_str (bytes_of ("{" +:+ key "timestamp" +:+ q +:+ "t" +:+ q +:+ "," +:+ key "timestamp" +:+ q +:+ "t" +:+
                            q +:+ "," +:+ key "message" +:+ "{" +:+ key "role" +:+ q +:+ "user" +:+ q +:+ "}}")) = None /\
  entry_from_str (bytes_of ("{" +:+ key "message" +:+ "{" +:+ key "role" +:+ q +:+ "user" +:+ q +:+ "}}")) = None.
Proof. vm_compute. repeat split; discriminate. Qed.

(** The token extractor with this decoder, on a two-line transcript: the
    user line has no usage, the assistant line gives the breakdown. *)
Example get_token_breakdown_json :
  get_token_breakdown_from_transcript entry_from_str
    (example_fs (bytes_of (user_line +:+ String "010" (assistant_line "12000") +:+ String "010" ""))) 50
    "/t/s.jsonl" = Some {| bd_input_tokens := 12000%N; bd_output_tokens := 0%N;
                           bd_cache_read_tokens := 0%N; bd_cache_creation_tokens := 0%N |}.
Proof. vm_compute. reflexivity. Qed.

(** A role with a quote, a backslash and a line feed, and the largest
    counts, are printed and read back. *)
Definition tricky_entry : TranscriptEntry :=
  {| message := {| role := "a" +:+ q +:+ "b\" +:+ String "010" (String "001" "");
                   usage := Some {| input_tokens := Some 4294967295%N; output_tokens := Some 0%N;
                                    cache_creation_input_tokens := None; cache_read_input_tokens := Some 7%N |} |};
     timestamp := "2025-08-25T10:00:00Z" |}.

Lemma entry_from_str_print_entry_witness :
  entry_fits tricky_entry = true /\ entry_from_str (print_entry tricky_entry) = Some tricky_entry.
Proof. split; [reflexivity|]. rewrite entry_from_str_print_entry. reflexivity. Defined.

End TranscriptJson.
