(* ===== verification/Output.v ===== *)
(** * Output: the entry points of display.rs (format_output and friends)

    [format_output] and [format_output_to_string] take the global
    configuration ([get_config], Environment.v) and hand its display
    section to [format_statusline_string] (Statusline.v); the first prints
    the line, the second returns it.  The colours come from
    [get_current_theme]: the theme named by [get_theme] as the theme
    manager loads it, or the default theme when loading fails, and from
    no theme at all when NO_COLOR is set ([Colors::enabled]).  The theme
    manager (theme.rs) is a section variable giving the resolved colours
    of a theme name, or nothing when the theme does not load; printing is
    modelled as the text printed.

    Theorems: with NO_COLOR set the line does not depend on the themes
    at all, so a theme that fails to load cannot change it, and it
    contains no ESC byte provided the git status and the cost rendering
    (the two texts from outside the modelled code) contain none. *)

From S2P Require Import Prelude Config Compaction TokenExtractor ContextWindow Format Environment Statusline.
From Stdlib Require Import Strings.Byte.
Close Scope Q_scope.

Module Output.
Import Config Detector Transcript Resolver Fmt Environment Statusline.

Section WithOutput.
Context (var : string -> option string)
        (dirs_data_dir dirs_config_dir dirs_home_dir : option string)
        (exists_path : string -> bool)
        (read_to_string : string -> string + string)
        (toml_from_str : string -> Config + string)
        (get_or_load : string -> option Theme) (default_theme : Theme)
        (parse_entry : list byte -> option TranscriptEntry) (fs : FileSystem) (env : Env)
        (from_name : string -> ModelType) `{LearnedWindowSource}
        (rfc naive_frac naive : string -> option Z)
        (abbreviation : ModelType -> string)
        (git_info : string -> option string)
        (get_session_duration : string -> option N)
        (fmt2 : Q -> string)
        (home : option string).

Definition global_config : Config :=
  get_config var dirs_config_dir dirs_home_dir exists_path read_to_string toml_from_str.

(** [get_current_theme]. *)
Definition get_current_theme : Theme :=
  match get_or_load (get_theme var dirs_config_dir dirs_home_dir exists_path read_to_string toml_from_str) with
  | Some t => t
  | None => default_theme
  end.

(** The colours [Colors::*] return: none at all when NO_COLOR is set,
    before the theme is looked up ([get_themed], [reset]). *)
Definition current_colors : Theme :=
  if colors_enabled var then get_current_theme else no_color_theme.

(** [format_output_with_config]: the text it prints. *)
Definition format_output_with_config (current_dir : string) (model_name transcript_path : option string)
    (cost : option Cost) (daily_total : Q) (session_id : option string) (dc : DisplayConfig) : string :=
  format_statusline_string parse_entry fs env from_name rfc naive_frac naive abbreviation git_info
    get_session_duration fmt2 home global_config current_colors
    current_dir model_name transcript_path cost daily_total session_id dc.

(** [format_output]: the text it prints. *)
Definition format_output (current_dir : string) (model_name transcript_path : option string)
    (cost : option Cost) (daily_total : Q) (session_id : option string) : string :=
  format_output_with_config current_dir model_name transcript_path cost daily_total session_id
    (display global_config).

(** [format_output_to_string]. *)
Definition format_output_to_string (current_dir : string) (model_name transcript_path : option string)
    (cost : option Cost) (daily_total : Q) (session_id : option string) : string :=
  format_statusline_string parse_entry fs env from_name rfc naive_frac naive abbreviation git_info
    get_session_duration fmt2 home global_config current_colors
    current_dir model_name transcript_path cost daily_total session_id (display global_config).

(** With NO_COLOR set the line is the uncoloured one: the theme is
    neither loaded nor used, whatever [get_theme] names. *)
Lemma format_output_no_color current_dir model_name transcript_path cost daily_total session_id v :
  var "NO_COLOR" = Some v ->
  format_output_to_string current_dir model_name transcript_path cost daily_total session_id =
  format_statusline_string parse_entry fs env from_name rfc naive_frac naive abbreviation git_info
    get_session_duration fmt2 home global_config no_color_theme
    current_dir model_name transcript_path cost daily_total session_id (display global_config).
Proof. intros Hv. unfold format_output_to_string, current_colors, colors_enabled. rewrite Hv. reflexivity. Qed.

(** C14: NO_COLOR means no escape sequences.  With NO_COLOR set, the
    status line [format_output_to_string] returns (and [format_output]
    prints) contains no ESC byte at all, whatever the directory, model
    name, transcript, cost and configuration, provided the two texts the
    line takes from outside the modelled code (the git status of
    git.rs and the [{:.2}] rendering of a cost) contain none: untrusted
    text is sanitised and every colour is the empty string. *)
Theorem format_output_no_color_no_escape current_dir model_name transcript_path cost daily_total session_id v :
  var "NO_COLOR" = Some v ->
  (forall q, esc_free (fmt2 q)) ->
  (forall d g, git_info d = Some g -> esc_free g) ->
  esc_free (format_output_to_string current_dir model_name transcript_path cost daily_total session_id).
Proof.
  intros Hv Hfmt Hgit. rewrite (format_output_no_color _ _ _ _ _ _ v Hv).
  apply format_statusline_string_no_color_esc_free; assumption.
Qed.

End WithOutput.

(** Colours enabled and the configured theme missing: the default theme;
    NO_COLOR set: no colours, although the theme would load. *)
Example current_colors_cases (th : Theme) :
  current_colors (env_of [("CLAUDE_THEME", "solarized")]) None None (fun _ => false) (fun _ => inr "")
    (fun _ => inr "") (fun _ => None) th = th /\
  current_colors (env_of [("NO_COLOR", "1")]) None None (fun _ => false) (fun _ => inr "")
    (fun _ => inr "") (fun _ => Some th) th = no_color_theme.
Proof. split; reflexivity. Qed.

Definition empty_fs : FileSystem := {| canonicalize := fun _ => None; is_file := fun _ => false;
                                       contents := fun _ => None |}.

Definition quiet_env : Env := {| read_state := fun _ => None; open_db := Ok (fun _ => None);
                                 modified_elapsed_secs := fun _ => None |}.

Lemma format_output_no_color_no_escape_witness :
  esc_free (format_output_to_string (env_of [("NO_COLOR", "1")]) None None (fun _ => false) (fun _ => inr "")
              (fun _ => inr "") (fun _ => None) no_color_theme (fun _ => None) empty_fs quiet_env
              (fun _ => Unknown) (fun _ => None) (fun _ => None) (fun _ => None) (fun _ => "Sonnet")
              (fun _ => Some "main") (fun _ => None) (fun _ => "1.00") None
              "/home/u/project" (Some "Claude Sonnet") None None 0 None).
Proof.
  apply format_output_no_color_no_escape with (v := "1").
  - reflexivity.
  - intros q. esc_const.
  - intros d g [= <-]. esc_const.
Defined.

End Output.
